(** * tsm: the session picker's list controller

    A shallow embedding of [internal/model] (the Bubble Tea model of the
    picker): the flattened row list, the cursor, the three modes and the
    actions reachable from them.  Go strings are byte strings, so they are
    Rocq [string]s read byte by byte; Go [int]s are [Z] (every integer the
    controller computes is a slice length, a slice index or one more or one
    less than such a number, so no 64-bit wrap-around can occur); a slice is
    a [list]; an index expression that would panic yields [None]. *)

From Stdlib Require Import ZArith List Bool Ascii String Lia DecimalString.
From Stdlib Require DecimalPos.
Import ListNotations.
Open Scope string_scope.
Open Scope Z_scope.
Open Scope list_scope.

Notation "a +s+ b" := (String.append a b) (at level 60, right associativity).

(** ** The parts of the Go library the controller calls *)

(** What the standard library decides by its Unicode tables: the strings
    with a byte >= 0x80 take these paths. *)
Class Unicode := {
  (** [strings.Map(unicode.ToLower, s)] *)
  MapToLower : string -> string;
  (** [strings.TrimFunc(s, unicode.IsSpace)] *)
  TrimFuncIsSpace : string -> string;
  (** [strings.TrimRightFunc(s, unicode.IsSpace)] *)
  TrimRightFuncIsSpace : string -> string
}.

Module utf8.

Definition byte (z : Z) : ascii := ascii_of_N (Z.to_N z).
Definition code (c : ascii) : Z := Z.of_N (N_of_ascii c).

Definition RuneSelf : Z := 128.

(** [utf8.AppendRune]: surrogates and values out of range encode as
    U+FFFD. *)
Definition EncodeRune (r : Z) : list ascii :=
  if (0 <=? r) && (r <? 128) then [byte r]
  else if (0 <=? r) && (r <? 2048) then
    [byte (Z.lor 192 (Z.shiftr r 6)); byte (Z.lor 128 (Z.land r 63))]
  else if (r <? 0) || (1114111 <? r) || ((55296 <=? r) && (r <=? 57343)) then
    [byte 239; byte 191; byte 189]
  else if r <? 65536 then
    [byte (Z.lor 224 (Z.shiftr r 12));
     byte (Z.lor 128 (Z.land (Z.shiftr r 6) 63));
     byte (Z.lor 128 (Z.land r 63))]
  else
    [byte (Z.lor 240 (Z.shiftr r 18));
     byte (Z.lor 128 (Z.land (Z.shiftr r 12) 63));
     byte (Z.lor 128 (Z.land (Z.shiftr r 6) 63));
     byte (Z.lor 128 (Z.land r 63))].

(** The conversion [string(runes)]. *)
Definition string_of_runes (rs : list Z) : string :=
  string_of_list_ascii (flat_map EncodeRune rs).

End utf8.

Module strings.

Definition len (s : string) : Z := Z.of_nat (String.length s).

Definition isASCII (s : string) : bool :=
  forallb (fun c => utf8.code c <? utf8.RuneSelf) (list_ascii_of_string s).

Definition lowerByte (c : ascii) : ascii :=
  if (65 <=? utf8.code c) && (utf8.code c <=? 90)
  then utf8.byte (utf8.code c + 32) else c.

Fixpoint mapBytes (f : ascii -> ascii) (s : string) : string :=
  match s with
  | EmptyString => EmptyString
  | String c s' => String (f c) (mapBytes f s')
  end.

(** [strings.ToLower]: the byte loop for all-ASCII strings, the Unicode
    mapping for the others. *)
Definition ToLower `{Unicode} (s : string) : string :=
  if isASCII s then mapBytes lowerByte s else MapToLower s.

(** [strings.Contains(s, substr)]: [substr] starts at some byte offset
    of [s]. *)
Fixpoint Contains (s substr : string) : bool :=
  String.prefix substr s ||
  match s with
  | EmptyString => false
  | String _ s' => Contains s' substr
  end.

Definition asciiSpace (c : ascii) : bool :=
  let n := utf8.code c in
  (n =? 9) || (n =? 10) || (n =? 11) || (n =? 12) || (n =? 13) || (n =? 32).

(** The second loop of [strings.TrimSpace], walking the bytes from the
    end; [r] is [s[start:stop]] reversed. *)
Fixpoint trimStop `{Unicode} (r : list ascii) : string :=
  match r with
  | [] => EmptyString
  | c :: r' =>
      if utf8.RuneSelf <=? utf8.code c
      then TrimRightFuncIsSpace (string_of_list_ascii (rev r))
      else if asciiSpace c then trimStop r'
      else string_of_list_ascii (rev r)
  end.

(** The first loop of [strings.TrimSpace], then the second. *)
Fixpoint TrimSpace `{Unicode} (s : string) : string :=
  match s with
  | EmptyString => EmptyString
  | String c s' =>
      if utf8.RuneSelf <=? utf8.code c then TrimFuncIsSpace s
      else if asciiSpace c then TrimSpace s'
      else trimStop (rev (list_ascii_of_string s))
  end.

(** The slice expression [s[:len(s)-1]] of a non-empty string. *)
Definition dropLastByte (s : string) : string :=
  String.substring 0 (String.length s - 1) s.

End strings.

Module fmt.

(** The verb [%d] at an [int]. *)
Definition d (n : Z) : string := NilZero.string_of_int (Z.to_int n).

End fmt.

(** A sample [Unicode] for the examples: it is only ever consulted on
    strings with a byte >= 0x80, where it leaves the string alone. *)
Definition plainUnicode : Unicode :=
  {| MapToLower := fun s => s;
     TrimFuncIsSpace := fun s => s;
     TrimRightFuncIsSpace := fun s => s |}.

(** ** Slices *)

Definition len {A} (l : list A) : Z := Z.of_nat (List.length l).

(** [l[i]]; [None] is the run-time panic of an index out of range. *)
Definition index {A} (l : list A) (i : Z) : option A :=
  if i <? 0 then None else nth_error l (Z.to_nat i).

Fixpoint setNth {A} (n : nat) (x : A) (l : list A) {struct l} : list A :=
  match l, n with
  | [], _ => []
  | _ :: l', O => x :: l'
  | y :: l', S n' => y :: setNth n' x l'
  end.

(** [l[i] = x] at an index already known to be in range. *)
Definition store {A} (l : list A) (i : Z) (x : A) : list A :=
  setNth (Z.to_nat i) x l.

Notation "x <- e ; k" :=
  (match e with Some x => k | None => None end)
  (at level 61, e at next level, right associativity).

(** ** Package tmux: the data it hands over and the commands it runs *)

Module tmux.

Record Window := { WIndex : Z; WName : string }.

Record Session := {
  Name : string;
  LastActivity : Z;
  Expanded : bool;
  Windows : list Window
}.

Definition setExpanded (s : Session) (b : bool) : Session :=
  {| Name := Name s; LastActivity := LastActivity s;
     Expanded := b; Windows := Windows s |}.

Definition setWindows (s : Session) (ws : list Window) : Session :=
  {| Name := Name s; LastActivity := LastActivity s;
     Expanded := Expanded s; Windows := ws |}.

(** One command sent to tmux. *)
Inductive Call :=
| CallListWindows (session : string)
| CallSwitchClient (target : string)
| CallKillSession (name : string)
| CallKillWindow (session : string) (windowIndex : Z)
| CallCreateSession (name dir : string).

(** What tmux and the process environment answer while one event is
    handled; an error is its text, [None] is [nil].  No handler sends the
    same command twice within one event, so an answer per command is as
    general as an answer per call. *)
Record World := {
  ListWindows : string -> list Window * option string;
  SwitchClient : string -> option string;
  KillSession : string -> option string;
  KillWindow : string -> Z -> option string;
  CreateSession : string -> string -> option string;
  Getenv : string -> string
}.

End tmux.
Import tmux.

(** ** Bubble Tea: messages, commands, keys and the text input *)

Module tea.

(** [tea.KeyType] is an [int]: control characters have their ASCII code,
    the other keys count down from -1. *)
Definition KeyCtrlH : Z := 8.
Definition KeyCtrlJ : Z := 10.
Definition KeyCtrlK : Z := 11.
Definition KeyCtrlL : Z := 12.
Definition KeyEnter : Z := 13.
Definition KeyCtrlN : Z := 14.
Definition KeyCtrlO : Z := 15.
Definition KeyCtrlP : Z := 16.
Definition KeyCtrlX : Z := 24.
Definition KeyCtrlY : Z := 25.
Definition KeyEsc : Z := 27.
Definition KeyBackspace : Z := 127.
Definition KeyRunes : Z := -1.
Definition KeyUp : Z := -2.
Definition KeyDown : Z := -3.
Definition KeyRight : Z := -4.
Definition KeyLeft : Z := -5.

Record KeyMsg := { Type_ : Z; Runes : list Z; Alt : bool }.

Inductive Cmd :=
| CmdNil
| Quit
| Blink
| loadSessions
| clearMessageAfter (seconds : Z)
| Batch (c1 c2 : Cmd)
| InputCmd (tag : Z).

End tea.

Module textinput.

Record Model := { Value : string; Focused : bool; CharLimit : Z }.

Definition New : Model :=
  {| Value := ""; Focused := false; CharLimit := 0 |}.
Definition setCharLimit (t : Model) (n : Z) : Model :=
  {| Value := Value t; Focused := Focused t; CharLimit := n |}.
Definition Reset (t : Model) : Model :=
  {| Value := ""; Focused := Focused t; CharLimit := CharLimit t |}.
(** [SetValue] is only ever called with the empty string. *)
Definition SetValueEmpty (t : Model) : Model :=
  {| Value := ""; Focused := Focused t; CharLimit := CharLimit t |}.
Definition Focus (t : Model) : Model :=
  {| Value := Value t; Focused := true; CharLimit := CharLimit t |}.
Definition Blur (t : Model) : Model :=
  {| Value := Value t; Focused := false; CharLimit := CharLimit t |}.

End textinput.

(** The messages [Update] distinguishes; [otherMsg] is any message of
    another type (a cursor blink, a window resize). *)
Inductive Msg :=
| sessionsMsg (sessions : list Session)
| errMsg (err : string)
| clearMessageMsg
| KeyMsg (k : tea.KeyMsg)
| otherMsg (tag : Z).

(** [key.Binding], seen through [key.Matches(msg, binding)]. *)
Definition Binding := tea.KeyMsg -> bool.

Module key.
Definition Matches (msg : tea.KeyMsg) (b : Binding) : bool := b msg.
End key.

(** The fields of [ui.KeyMap] the model consults. *)
Record KeyMap := {
  kQuit : Binding; kCancel : Binding; kUp : Binding; kDown : Binding;
  kExpand : Binding; kCollapse : Binding; kSelect : Binding;
  kKill : Binding; kCreate : Binding; kConfirm : Binding;
  kJump1 : Binding; kJump2 : Binding; kJump3 : Binding;
  kJump4 : Binding; kJump5 : Binding; kJump6 : Binding;
  kJump7 : Binding; kJump8 : Binding; kJump9 : Binding
}.

(** ** The model *)

Inductive Mode := ModeNormal | ModeConfirmKill | ModeCreate.

Record Item := { IsSession : bool; SessionIndex : Z; WindowIndex : Z }.

(** [Model] without the fields only the renderer and the layout script
    read ([claudeStatuses], [lastKeyTime], [lastKey], [config]): no handler
    branches on them. *)
Record Model := {
  sessions : list Session;
  currentSession : string;
  cursor : Z;
  items : list Item;
  mode : Mode;
  message : string;
  messageIsError : bool;
  input : textinput.Model;
  killTarget : string;
  maxNameWidth : Z;
  filter : string
}.

Definition setSessions (ss : list Session) (m : Model) : Model :=
  {| sessions := ss; currentSession := currentSession m; cursor := cursor m;
     items := items m; mode := mode m; message := message m;
     messageIsError := messageIsError m; input := input m;
     killTarget := killTarget m; maxNameWidth := maxNameWidth m;
     filter := filter m |}.
Definition setCursor (c : Z) (m : Model) : Model :=
  {| sessions := sessions m; currentSession := currentSession m; cursor := c;
     items := items m; mode := mode m; message := message m;
     messageIsError := messageIsError m; input := input m;
     killTarget := killTarget m; maxNameWidth := maxNameWidth m;
     filter := filter m |}.
Definition setItems (its : list Item) (m : Model) : Model :=
  {| sessions := sessions m; currentSession := currentSession m;
     cursor := cursor m; items := its; mode := mode m; message := message m;
     messageIsError := messageIsError m; input := input m;
     killTarget := killTarget m; maxNameWidth := maxNameWidth m;
     filter := filter m |}.
Definition setMode (md : Mode) (m : Model) : Model :=
  {| sessions := sessions m; currentSession := currentSession m;
     cursor := cursor m; items := items m; mode := md; message := message m;
     messageIsError := messageIsError m; input := input m;
     killTarget := killTarget m; maxNameWidth := maxNameWidth m;
     filter := filter m |}.
Definition setMessage (s : string) (m : Model) : Model :=
  {| sessions := sessions m; currentSession := currentSession m;
     cursor := cursor m; items := items m; mode := mode m; message := s;
     messageIsError := messageIsError m; input := input m;
     killTarget := killTarget m; maxNameWidth := maxNameWidth m;
     filter := filter m |}.
Definition setMessageIsError (b : bool) (m : Model) : Model :=
  {| sessions := sessions m; currentSession := currentSession m;
     cursor := cursor m; items := items m; mode := mode m;
     message := message m; messageIsError := b; input := input m;
     killTarget := killTarget m; maxNameWidth := maxNameWidth m;
     filter := filter m |}.
Definition setInput (t : textinput.Model) (m : Model) : Model :=
  {| sessions := sessions m; currentSession := currentSession m;
     cursor := cursor m; items := items m; mode := mode m;
     message := message m; messageIsError := messageIsError m; input := t;
     killTarget := killTarget m; maxNameWidth := maxNameWidth m;
     filter := filter m |}.
Definition setKillTarget (s : string) (m : Model) : Model :=
  {| sessions := sessions m; currentSession := currentSession m;
     cursor := cursor m; items := items m; mode := mode m;
     message := message m; messageIsError := messageIsError m;
     input := input m; killTarget := s; maxNameWidth := maxNameWidth m;
     filter := filter m |}.
Definition setMaxNameWidth (n : Z) (m : Model) : Model :=
  {| sessions := sessions m; currentSession := currentSession m;
     cursor := cursor m; items := items m; mode := mode m;
     message := message m; messageIsError := messageIsError m;
     input := input m; killTarget := killTarget m; maxNameWidth := n;
     filter := filter m |}.
Definition setFilter (s : string) (m : Model) : Model :=
  {| sessions := sessions m; currentSession := currentSession m;
     cursor := cursor m; items := items m; mode := mode m;
     message := message m; messageIsError := messageIsError m;
     input := input m; killTarget := killTarget m;
     maxNameWidth := maxNameWidth m; filter := s |}.

(** [m.message = fmt.Sprintf(...); m.messageIsError = true] *)
Definition setError (s : string) (m : Model) : Model :=
  setMessageIsError true (setMessage s m).

Definition dquote : string := String (ascii_of_nat 34) EmptyString.

(** [New] *)
Definition New (currentSession : string) : Model :=
  {| sessions := []; currentSession := currentSession; cursor := 0;
     items := []; mode := ModeNormal; message := ""; messageIsError := false;
     input := textinput.setCharLimit textinput.New 50;
     killTarget := ""; maxNameWidth := 0; filter := "" |}.

(** ** The controller *)

Section Controller.

Context {U : Unicode}.
(** [ui.DefaultKeyMap] *)
Variable keys : KeyMap.
(** [textinput.Model.Update], the line editor of the bubbles library *)
Variable inputUpdate : textinput.Model -> Msg -> textinput.Model * tea.Cmd.

(** [fuzzyMatch] *)
Definition fuzzyMatch (text pattern : string) : bool :=
  let textLower := strings.ToLower text in
  strings.Contains textLower pattern.

(** The inner loop of [rebuildItems]: [for j := range session.Windows]. *)
Fixpoint windowLoop (i j : Z) (ws : list Window) (acc : list Item)
  : list Item :=
  match ws with
  | [] => acc
  | _ :: ws' =>
      windowLoop i (j + 1) ws'
        (acc ++ [{| IsSession := false; SessionIndex := i;
                    WindowIndex := j |}])
  end.

(** The outer loop of [rebuildItems]: [for i, session := range
    m.sessions]. *)
Fixpoint sessionLoop (flt filterLower : string) (i : Z) (ss : list Session)
    (acc : list Item) : list Item :=
  match ss with
  | [] => acc
  | session :: ss' =>
      if negb (String.eqb flt "")
         && negb (fuzzyMatch (Name session) filterLower)
      then sessionLoop flt filterLower (i + 1) ss' acc
      else
        let acc := acc ++ [{| IsSession := true; SessionIndex := i;
                              WindowIndex := 0 |}] in
        let acc := if Expanded session
                   then windowLoop i 0 (Windows session) acc else acc in
        sessionLoop flt filterLower (i + 1) ss' acc
  end.

(** The closing lines of [rebuildItems]: "Ensure cursor is in bounds". *)
Definition clampCursor (c n : Z) : Z :=
  let c := if c >=? n then n - 1 else c in
  if c <? 0 then 0 else c.

(** [rebuildItems] *)
Definition rebuildItems (m : Model) : Model :=
  let filterLower := strings.ToLower (filter m) in
  let its := sessionLoop (filter m) filterLower 0 (sessions m) [] in
  let m := setItems its m in
  setCursor (clampCursor (cursor m) (len (items m))) m.

(** [calculateColumnWidths] *)
Definition calculateColumnWidths (m : Model) : Model :=
  setMaxNameWidth
    (fold_left (fun w s => if strings.len (Name s) >? w
                           then strings.len (Name s) else w)
               (sessions m) 0) m.

(** The guard that opens every action: [m.cursor < 0 || m.cursor >=
    len(m.items)]. *)
Definition cursorOut (m : Model) : bool :=
  (cursor m <? 0) || (cursor m >=? len (items m)).

(** [expandCurrent] *)
Definition expandCurrent (w : World) (m : Model)
  : option (Model * list Call) :=
  if cursorOut m then Some (m, []) else
  item <- index (items m) (cursor m);
  if negb (IsSession item) then Some (m, []) else
  let m := setSessions (map (fun s => setExpanded s false) (sessions m)) m in
  session <- index (sessions m) (SessionIndex item);
  if len (Windows session) =? 0 then
    match ListWindows w (Name session) with
    | (_, Some err) =>
        Some (setError ("Error loading windows: " +s+ err) m,
              [CallListWindows (Name session)])
    | (windows, None) =>
        let session := setExpanded (setWindows session windows) true in
        Some (rebuildItems
                (setSessions (store (sessions m) (SessionIndex item) session)
                             m),
              [CallListWindows (Name session)])
    end
  else
    let session := setExpanded session true in
    Some (rebuildItems
            (setSessions (store (sessions m) (SessionIndex item) session) m),
          []).

(** The loop of [collapseCurrent] that looks for the parent's row; [i] is
    the index of the head of [its]. *)
Fixpoint findSessionRow (its : list Item) (i sessionIdx : Z) : option Z :=
  match its with
  | [] => None
  | it :: its' =>
      if IsSession it && (SessionIndex it =? sessionIdx) then Some i
      else findSessionRow its' (i + 1) sessionIdx
  end.

(** [collapseCurrent] *)
Definition collapseCurrent (m : Model) : option Model :=
  if cursorOut m then Some m else
  item <- index (items m) (cursor m);
  let sessionIdx := SessionIndex item in
  let m :=
    if IsSession item then m
    else match findSessionRow (items m) 0 sessionIdx with
         | Some i => setCursor i m
         | None => m
         end in
  session <- index (sessions m) sessionIdx;
  Some (rebuildItems
          (setSessions (store (sessions m) sessionIdx
                              (setExpanded session false)) m)).

(** The switch target of a row: the session name, or [name:index]. *)
Definition windowTarget (session : Session) (window : Window) : string :=
  Name session +s+ ":" +s+ fmt.d (WIndex window).

(** [selectCurrent] *)
Definition selectCurrent (w : World) (m : Model)
  : option (Model * tea.Cmd * list Call) :=
  if cursorOut m then Some (m, tea.CmdNil, []) else
  item <- index (items m) (cursor m);
  target <-
    (if IsSession item then
       session <- index (sessions m) (SessionIndex item);
       Some (Name session)
     else
       session <- index (sessions m) (SessionIndex item);
       window <- index (Windows session) (WindowIndex item);
       Some (windowTarget session window));
  match SwitchClient w target with
  | Some err =>
      Some (setError ("Error: " +s+ err) m, tea.CmdNil,
            [CallSwitchClient target])
  | None => Some (m, tea.Quit, [CallSwitchClient target])
  end.

(** [confirmKill] *)
Definition confirmKill (m : Model) : option (Model * tea.Cmd * list Call) :=
  if cursorOut m then Some (m, tea.CmdNil, []) else
  item <- index (items m) (cursor m);
  m <-
    (if IsSession item then
       session <- index (sessions m) (SessionIndex item);
       let m := setKillTarget (Name session) m in
       Some (setMessage ("Kill " +s+ dquote +s+ killTarget m +s+ dquote
                         +s+ "?") m)
     else
       session <- index (sessions m) (SessionIndex item);
       window <- index (Windows session) (WindowIndex item);
       let m := setKillTarget (windowTarget session window) m in
       Some (setMessage ("Kill window " +s+ dquote +s+ killTarget m
                         +s+ dquote +s+ "?") m));
  Some (setMode ModeConfirmKill m, tea.CmdNil, []).

(** [killCurrent]; its [instant] argument is never read. *)
Definition killCurrent (w : World) (m : Model)
  : option (Model * tea.Cmd * list Call) :=
  if cursorOut m then Some (m, tea.CmdNil, []) else
  item <- index (items m) (cursor m);
  r <-
    (if IsSession item then
       session <- index (sessions m) (SessionIndex item);
       let err := KillSession w (Name session) in
       Some (match err with
             | None => setMessage ("Killed " +s+ dquote +s+ Name session
                                   +s+ dquote) m
             | Some _ => m
             end, err, CallKillSession (Name session))
     else
       session <- index (sessions m) (SessionIndex item);
       window <- index (Windows session) (WindowIndex item);
       let err := KillWindow w (Name session) (WIndex window) in
       Some (match err with
             | None => setMessage ("Killed window " +s+ fmt.d (WIndex window))
                                  m
             | Some _ => m
             end, err, CallKillWindow (Name session) (WIndex window)));
  let '(m, err, call) := r in
  let m := match err with
           | Some e => setError ("Error: " +s+ e) m
           | None => m
           end in
  let m := setKillTarget "" (setMode ModeNormal m) in
  Some (m, tea.Batch tea.loadSessions (tea.clearMessageAfter 5), [call]).

(** [createSession]; [applyLayout] starts a detached script and touches
    neither the model nor tmux. *)
Definition createSession (w : World) (m : Model) (name : string)
  : option (Model * tea.Cmd * list Call) :=
  let homeDir := Getenv w "HOME" in
  match CreateSession w name homeDir with
  | Some err =>
      let m := setError ("Error: " +s+ err) m in
      let m := setMode ModeNormal m in
      let m := setInput (textinput.Blur (input m)) m in
      Some (m, tea.CmdNil, [CallCreateSession name homeDir])
  | None =>
      match SwitchClient w name with
      | Some err =>
          Some (setError ("Created but failed to switch: " +s+ err) m,
                tea.loadSessions,
                [CallCreateSession name homeDir; CallSwitchClient name])
      | None =>
          Some (m, tea.Quit,
                [CallCreateSession name homeDir; CallSwitchClient name])
      end
  end.

(** [handleJump] *)
Definition handleJump (w : World) (m : Model) (num : Z)
  : option (Model * tea.Cmd * list Call) :=
  let bySession :=
    let sessionIdx := num - 1 in
    if (sessionIdx >=? 0) && (sessionIdx <? len (sessions m)) then
      session <- index (sessions m) sessionIdx;
      match SwitchClient w (Name session) with
      | Some err =>
          Some (setError ("Error: " +s+ err) m, tea.CmdNil,
                [CallSwitchClient (Name session)])
      | None => Some (m, tea.Quit, [CallSwitchClient (Name session)])
      end
    else Some (m, tea.CmdNil, []) in
  if (cursor m >=? 0) && (cursor m <? len (items m)) then
    item <- index (items m) (cursor m);
    session <- index (sessions m) (SessionIndex item);
    if Expanded session then
      match find (fun win => WIndex win =? num) (Windows session) with
      | Some win =>
          let target := windowTarget session win in
          match SwitchClient w target with
          | Some err =>
              Some (setError ("Error: " +s+ err) m, tea.CmdNil,
                    [CallSwitchClient target])
          | None => Some (m, tea.Quit, [CallSwitchClient target])
          end
      | None => bySession
      end
    else bySession
  else bySession.

(** [handleNormalMode] *)
Definition handleNormalMode (w : World) (m : Model) (msg : tea.KeyMsg)
  : option (Model * tea.Cmd * list Call) :=
  if key.Matches msg (kQuit keys) then Some (m, tea.Quit, [])
  else if key.Matches msg (kCancel keys) then
    if negb (String.eqb (filter m) "")
    then Some (rebuildItems (setFilter "" m), tea.CmdNil, [])
    else Some (m, tea.Quit, [])
  else if key.Matches msg (kUp keys) then
    Some (if cursor m >? 0 then setCursor (cursor m - 1) m else m,
          tea.CmdNil, [])
  else if key.Matches msg (kDown keys) then
    Some (if cursor m <? len (items m) - 1
          then setCursor (cursor m + 1) m else m,
          tea.CmdNil, [])
  else if key.Matches msg (kExpand keys) then
    r <- expandCurrent w m;
    Some (fst r, tea.CmdNil, snd r)
  else if key.Matches msg (kCollapse keys) then
    m <- collapseCurrent m;
    Some (m, tea.CmdNil, [])
  else if key.Matches msg (kSelect keys) then selectCurrent w m
  else if key.Matches msg (kKill keys) then confirmKill m
  else if key.Matches msg (kCreate keys) then
    let m := setMode ModeCreate m in
    let m := setFilter "" m in
    let m := setInput (textinput.Reset (input m)) m in
    let m := setInput (textinput.SetValueEmpty (input m)) m in
    let m := setInput (textinput.Focus (input m)) m in
    Some (m, tea.Blink, [])
  else if String.eqb (filter m) "" && key.Matches msg (kJump1 keys)
  then handleJump w m 1
  else if String.eqb (filter m) "" && key.Matches msg (kJump2 keys)
  then handleJump w m 2
  else if String.eqb (filter m) "" && key.Matches msg (kJump3 keys)
  then handleJump w m 3
  else if String.eqb (filter m) "" && key.Matches msg (kJump4 keys)
  then handleJump w m 4
  else if String.eqb (filter m) "" && key.Matches msg (kJump5 keys)
  then handleJump w m 5
  else if String.eqb (filter m) "" && key.Matches msg (kJump6 keys)
  then handleJump w m 6
  else if String.eqb (filter m) "" && key.Matches msg (kJump7 keys)
  then handleJump w m 7
  else if String.eqb (filter m) "" && key.Matches msg (kJump8 keys)
  then handleJump w m 8
  else if String.eqb (filter m) "" && key.Matches msg (kJump9 keys)
  then handleJump w m 9
  else if tea.Type_ msg =? tea.KeyBackspace then
    if strings.len (filter m) >? 0
    then Some (rebuildItems
                 (setFilter (strings.dropLastByte (filter m)) m),
               tea.CmdNil, [])
    else Some (m, tea.CmdNil, [])
  else if tea.Type_ msg =? tea.KeyRunes then
    Some (rebuildItems
            (setFilter (filter m +s+ utf8.string_of_runes (tea.Runes msg))
                       m),
          tea.CmdNil, [])
  else Some (m, tea.CmdNil, []).

(** [handleConfirmKillMode] *)
Definition handleConfirmKillMode (w : World) (m : Model) (msg : tea.KeyMsg)
  : option (Model * tea.Cmd * list Call) :=
  if key.Matches msg (kConfirm keys) then killCurrent w m
  else if key.Matches msg (kCancel keys) then
    Some (setKillTarget "" (setMessage "" (setMode ModeNormal m)),
          tea.CmdNil, [])
  else Some (m, tea.CmdNil, []).

(** The control chords [handleCreateMode] keeps away from the input. *)
Definition ignoredInCreate (t : Z) : bool :=
  (t =? tea.KeyCtrlN) || (t =? tea.KeyCtrlO) ||
  (t =? tea.KeyCtrlJ) || (t =? tea.KeyCtrlK) ||
  (t =? tea.KeyCtrlH) || (t =? tea.KeyCtrlL) ||
  (t =? tea.KeyCtrlX) || (t =? tea.KeyCtrlY) ||
  (t =? tea.KeyCtrlP).

(** [handleCreateMode] *)
Definition handleCreateMode (w : World) (m : Model) (msg : tea.KeyMsg)
  : option (Model * tea.Cmd * list Call) :=
  if key.Matches msg (kCancel keys) then
    Some (setInput (textinput.Blur (input m)) (setMode ModeNormal m),
          tea.CmdNil, [])
  else if tea.Type_ msg =? tea.KeyEnter then
    let name := strings.TrimSpace (textinput.Value (input m)) in
    if String.eqb name "" then
      Some (setError "Session name cannot be empty" m, tea.CmdNil, [])
    else createSession w m name
  else if ignoredInCreate (tea.Type_ msg) then Some (m, tea.CmdNil, [])
  else
    let (t, cmd) := inputUpdate (input m) (KeyMsg msg) in
    Some (setInput t m, cmd, []).

(** [handleKey] *)
Definition handleKey (w : World) (m : Model) (msg : tea.KeyMsg)
  : option (Model * tea.Cmd * list Call) :=
  match mode m with
  | ModeNormal => handleNormalMode w m msg
  | ModeConfirmKill => handleConfirmKillMode w m msg
  | ModeCreate => handleCreateMode w m msg
  end.

(** [Update]; [loadClaudeStatuses] only fills the renderer's status
    map. *)
Definition Update (w : World) (m : Model) (msg : Msg)
  : option (Model * tea.Cmd * list Call) :=
  match msg with
  | sessionsMsg ss =>
      let m := setSessions ss m in
      let m := calculateColumnWidths m in
      let m := rebuildItems m in
      let m := if len (items m) =? 0
               then setMessage "No other sessions. Press c to create one." m
               else m in
      Some (m, tea.CmdNil, [])
  | errMsg err =>
      Some (setError ("Error: " +s+ err) m, tea.CmdNil, [])
  | clearMessageMsg =>
      Some (setMessageIsError false (setMessage "" m), tea.CmdNil, [])
  | KeyMsg k => handleKey w m k
  | otherMsg _ =>
      match mode m with
      | ModeCreate =>
          let (t, cmd) := inputUpdate (input m) msg in
          Some (setInput t m, cmd, [])
      | _ => Some (m, tea.CmdNil, [])
      end
  end.

(** The event loop: the messages of a run, each with what tmux answers
    while it is handled; the commands sent are collected in order. *)
Fixpoint run (m : Model) (evs : list (World * Msg))
  : option (Model * list Call) :=
  match evs with
  | [] => Some (m, [])
  | (w, msg) :: evs' =>
      r <- Update w m msg;
      let '(m', _, calls) := r in
      r' <- run m' evs';
      Some (fst r', calls ++ snd r')
  end.

End Controller.

(** ** The properties, as executable checks where they are decidable *)

(** The cursor is a valid row index, or 0 when there is no row. *)
Definition cursorValid (m : Model) : Prop :=
  match items m with
  | [] => cursor m = 0
  | _ :: _ => 0 <= cursor m < len (items m)
  end.

(** A row refers to a session of [ss], and a window row to one of its
    windows: the index expressions on it do not panic. *)
Definition itemOk (ss : list Session) (it : Item) : bool :=
  match index ss (SessionIndex it) with
  | None => false
  | Some s =>
      IsSession it ||
      match index (Windows s) (WindowIndex it) with
      | Some _ => true
      | None => false
      end
  end.

Definition itemsOk (m : Model) : Prop :=
  forallb (itemOk (sessions m)) (items m) = true.

(** The state invariant of the controller. *)
Definition WF (m : Model) : Prop := cursorValid m /\ itemsOk m.

Definition countExpanded (ss : list Session) : nat :=
  List.length (List.filter Expanded ss).

Definition atMostOneExpanded (ss : list Session) : Prop :=
  (countExpanded ss <= 1)%nat.

(** Modelled from the spec: the sessions [tmux.ListSessions] returns
    (package tmux is not among the sources).  A session arrives with its
    expansion flag at the default, false, and its windows not loaded: they
    are fetched on the first expansion. *)
Definition fresh (s : Session) : bool :=
  negb (Expanded s) && (len (Windows s) =? 0).

Definition fetched (msg : Msg) : Prop :=
  match msg with
  | sessionsMsg ss => forallb fresh ss = true
  | _ => True
  end.

Section Flattener.

Context {U : Unicode}.

(** The matching policy in the spec's words: the name contains the filter
    as a substring once both are lower-cased. *)
Definition passes (flt name : string) : bool :=
  strings.Contains (strings.ToLower name) (strings.ToLower flt).

(** The rows of one visible session in the spec's words: its session row,
    then, if it is expanded, a window row per window in stored order. *)
Definition rowsOf (i : nat) (s : Session) : list Item :=
  {| IsSession := true; SessionIndex := Z.of_nat i; WindowIndex := 0 |}
  :: (if Expanded s
      then map (fun j => {| IsSession := false; SessionIndex := Z.of_nat i;
                            WindowIndex := Z.of_nat j |})
               (seq 0 (List.length (Windows s)))
      else []).

(** The flattened rows in the spec's words; [i] is the position of the
    head of [ss] in the session sequence. *)
Fixpoint flatten (flt : string) (i : nat) (ss : list Session) : list Item :=
  match ss with
  | [] => []
  | s :: ss' =>
      (if passes flt (Name s) then rowsOf i s else [])
      ++ flatten flt (S i) ss'
  end.

(** Every window row sits under a session that passes the filter and is
    expanded. *)
Definition windowRowVisible (m : Model) (it : Item) : bool :=
  IsSession it ||
  match index (sessions m) (SessionIndex it) with
  | Some s => passes (filter m) (Name s) && Expanded s
  | None => false
  end.

Definition windowRowsVisible (m : Model) : bool :=
  forallb (windowRowVisible m) (items m).

(** The rows are the ones a rebuild would produce now. *)
Definition rowsCurrent (m : Model) : Prop :=
  items m = flatten (filter m) 0 (sessions m).

End Flattener.

(** How an event can change the session sequence. *)
Inductive sessionsStep (ss : list Session) : list Session -> Prop :=
| step_same : sessionsStep ss ss
| step_collapseAll :
    sessionsStep ss (map (fun s => setExpanded s false) ss)
| step_expandOne i s :
    sessionsStep ss (store (map (fun s => setExpanded s false) ss) i s)
| step_collapseOne i s :
    index ss i = Some s ->
    sessionsStep ss (store ss i (setExpanded s false)).

(** The handler returns, leaves a well-formed state and changes the
    sessions in one of the listed ways. *)
Definition steps (m : Model) (r : option (Model * tea.Cmd * list Call))
  : Prop :=
  exists m' cmd calls,
    r = Some (m', cmd, calls) /\ WF m' /\
    sessionsStep (sessions m) (sessions m').

(** The handler returns and leaves rows, cursor and sessions alone. *)
Definition keeps (m : Model) (r : option (Model * tea.Cmd * list Call))
  : Prop :=
  exists m' cmd calls,
    r = Some (m', cmd, calls) /\ cursor m' = cursor m /\
    items m' = items m /\ sessions m' = sessions m.

(** The dispatch of [handleNormalMode], read off its [switch]: the nine
    action bindings come first, then the jump bindings in order. *)
Definition actionBound (keys : KeyMap) (k : tea.KeyMsg) : bool :=
  key.Matches k (kQuit keys) || key.Matches k (kCancel keys) ||
  key.Matches k (kUp keys) || key.Matches k (kDown keys) ||
  key.Matches k (kExpand keys) || key.Matches k (kCollapse keys) ||
  key.Matches k (kSelect keys) || key.Matches k (kKill keys) ||
  key.Matches k (kCreate keys).

Definition jumpDigit (keys : KeyMap) (k : tea.KeyMsg) : option Z :=
  if key.Matches k (kJump1 keys) then Some 1
  else if key.Matches k (kJump2 keys) then Some 2
  else if key.Matches k (kJump3 keys) then Some 3
  else if key.Matches k (kJump4 keys) then Some 4
  else if key.Matches k (kJump5 keys) then Some 5
  else if key.Matches k (kJump6 keys) then Some 6
  else if key.Matches k (kJump7 keys) then Some 7
  else if key.Matches k (kJump8 keys) then Some 8
  else if key.Matches k (kJump9 keys) then Some 9
  else None.

(** The jump cases are skipped: a filter is active, or the key is no
    jump key. *)
Definition jumpsOff (keys : KeyMap) (m : Model) (k : tea.KeyMsg) : Prop :=
  filter m <> "" \/ jumpDigit keys k = None.

Definition isKill (c : Call) : bool :=
  match c with
  | CallKillSession _ | CallKillWindow _ _ => true
  | _ => false
  end.

(** What a switch request leaves behind: the picker quits when tmux
    accepts it, and shows the error otherwise. *)
Definition afterSwitch (w : World) (m : Model) (target : string)
  : Model * tea.Cmd * list Call :=
  match SwitchClient w target with
  | None => (m, tea.Quit, [CallSwitchClient target])
  | Some err =>
      (setError ("Error: " +s+ err) m, tea.CmdNil, [CallSwitchClient target])
  end.

(** The target of a jump in the spec's words: window [d] of the selected
    row's session when that session is expanded and has such a window,
    otherwise the session at position [d-1], otherwise nothing. *)
Definition jumpTarget (m : Model) (d : Z) : option string :=
  let bySession :=
    match index (sessions m) (d - 1) with
    | Some s => Some (Name s)
    | None => None
    end in
  match index (items m) (cursor m) with
  | Some item =>
      match index (sessions m) (SessionIndex item) with
      | Some s =>
          if Expanded s && existsb (fun win => WIndex win =? d) (Windows s)
          then Some (Name s +s+ ":" +s+ fmt.d d)
          else bySession
      | None => bySession
      end
  | None => bySession
  end.

(** ** Sample keys, answers and states for the examples *)

Definition onType (t : Z) : Binding := fun k => tea.Type_ k =? t.

Definition onRune (r : Z) : Binding :=
  fun k => (tea.Type_ k =? tea.KeyRunes)
           && match tea.Runes k with
              | [r'] => r' =? r
              | _ => false
              end
           && negb (tea.Alt k).

Definition either (a b : Binding) : Binding := fun k => a k || b k.

(** Modelled from the spec: [ui.DefaultKeyMap] (package ui is not among the
    sources).  The spec fixes the digits 1 to 9 as the jump keys and names
    the other keys by their role only; the arrow keys, Enter, Escape and the
    control chords that [handleCreateMode] keeps away from the text input
    stand for those. *)
Definition DefaultKeyMap : KeyMap :=
  {| kQuit := onType 3;
     kCancel := onType tea.KeyEsc;
     kUp := either (onType tea.KeyUp) (onType tea.KeyCtrlK);
     kDown := either (onType tea.KeyDown) (onType tea.KeyCtrlJ);
     kExpand := either (onType tea.KeyRight) (onType tea.KeyCtrlL);
     kCollapse := either (onType tea.KeyLeft) (onType tea.KeyCtrlH);
     kSelect := onType tea.KeyEnter;
     kKill := onType tea.KeyCtrlX;
     kCreate := onType tea.KeyCtrlO;
     kConfirm := onType tea.KeyCtrlY;
     kJump1 := onRune 49; kJump2 := onRune 50; kJump3 := onRune 51;
     kJump4 := onRune 52; kJump5 := onRune 53; kJump6 := onRune 54;
     kJump7 := onRune 55; kJump8 := onRune 56; kJump9 := onRune 57 |}.

Definition keyOf (t : Z) : tea.KeyMsg :=
  {| tea.Type_ := t; tea.Runes := []; tea.Alt := false |}.

Definition press (t : Z) : Msg := KeyMsg (keyOf t).

Definition typed (r : Z) : tea.KeyMsg :=
  {| tea.Type_ := tea.KeyRunes; tea.Runes := [r]; tea.Alt := false |}.

(** A line editor that ignores every message. *)
Definition idleInput (t : textinput.Model) (_ : Msg)
  : textinput.Model * tea.Cmd := (t, tea.CmdNil).

(** tmux accepting every command; a session has the windows [ws]. *)
Definition tmuxOk (ws : list Window) : World :=
  {| ListWindows := fun _ => (ws, None);
     SwitchClient := fun _ => None;
     KillSession := fun _ => None;
     KillWindow := fun _ _ => None;
     CreateSession := fun _ _ => None;
     Getenv := fun _ => "/home/u" |}.

(** tmux refusing to list windows and to switch. *)
Definition tmuxDown : World :=
  {| ListWindows := fun _ => ([], Some "no server");
     SwitchClient := fun _ => Some "no client";
     KillSession := fun _ => None;
     KillWindow := fun _ _ => None;
     CreateSession := fun _ _ => None;
     Getenv := fun _ => "/home/u" |}.

Definition session (name : string) : Session :=
  {| Name := name; LastActivity := 0; Expanded := false; Windows := [] |}.

Definition window (i : Z) (name : string) : Window :=
  {| WIndex := i; WName := name |}.

Definition abg : list Session :=
  [session "alpha"; session "beta"; session "gamma"].


Definition w134 : World :=
  tmuxOk [window 1 "edit"; window 3 "run"; window 4 "logs"].

(** The state a run of events from the initial model ends in. *)
Definition stateAfter (evs : list (World * Msg)) : Model :=
  match @run plainUnicode DefaultKeyMap idleInput (New "") evs with
  | Some (m, _) => m
  | None => New ""
  end.

(** The three sessions listed, the cursor on the first. *)
Definition listed : Model :=
  Eval vm_compute in stateAfter [(w134, sessionsMsg abg)].

(** The same with "alpha" expanded: windows 1, 3 and 4. *)
Definition alphaOpen : Model :=
  Eval vm_compute in
    stateAfter [(w134, sessionsMsg abg); (w134, press tea.KeyRight)].

(** "alpha" is expanded, the cursor goes down to "beta", and expanding
    "beta" fails because tmux cannot list its windows. *)
Definition expandFails : list (World * Msg) :=
  [(w134, sessionsMsg abg); (w134, press tea.KeyRight);
   (w134, press tea.KeyDown); (w134, press tea.KeyDown);
   (w134, press tea.KeyDown); (w134, press tea.KeyDown);
   (tmuxDown, press tea.KeyRight)].


(** The three sessions under the filter "a". *)
Definition filteredA : Model :=
  Eval vm_compute in
    stateAfter [(w134, sessionsMsg abg); (w134, KeyMsg (typed 97))].

(** The three sessions under the filter U+00E9, two bytes long. *)
Definition filteredE : Model :=
  Eval vm_compute in
    stateAfter [(w134, sessionsMsg abg); (w134, KeyMsg (typed 233))].



(** The create prompt holding " dev ". *)
Definition creating : Model :=
  setInput {| textinput.Value := " dev "; textinput.Focused := true;
              textinput.CharLimit := 50 |}
           (setMode ModeCreate listed).

(** The kill of "alpha" has been requested and awaits confirmation. *)
Definition askedAlpha : Model :=
  Eval vm_compute in
    stateAfter [(w134, sessionsMsg abg); (w134, press tea.KeyCtrlX)].

(** The edits a key press makes to the session sequence: none; every
    session collapsed; every session collapsed and session [i] expanded,
    with its windows as they were or, if it had none, as just listed;
    session [i] collapsed. *)
Inductive sessionsEdit (ss : list Session) : list Session -> Prop :=
| edit_none : sessionsEdit ss ss
| edit_collapseAll :
    sessionsEdit ss (map (fun s => setExpanded s false) ss)
| edit_expand i s ws :
    index ss i = Some s -> ws = Windows s \/ Windows s = [] ->
    sessionsEdit ss
      (store (map (fun s => setExpanded s false) ss) i
             (setExpanded (setWindows s ws) true))
| edit_collapse i s :
    index ss i = Some s ->
    sessionsEdit ss (store ss i (setExpanded s false)).

Definition collapseAll (ss : list Session) : list Session :=
  map (fun s => setExpanded s false) ss.

(** The width column is up to date: computing it again changes nothing. *)
Definition widthCurrent {U : Unicode} (m : Model) : Prop :=
  maxNameWidth (calculateColumnWidths m) = maxNameWidth m.

(** The fields a handler leaves alone. *)
Definition frame (m m' : Model) : Prop :=
  items m' = items m /\ sessions m' = sessions m /\ filter m' = filter m /\
  maxNameWidth m' = maxNameWidth m.

(** What a handler can do to rows, sessions and filter. *)
Definition effect {U : Unicode} (w : World) (m m' : Model) (calls : list Call) : Prop :=
  maxNameWidth m' = maxNameWidth m /\
  ((items m' = items m /\ sessions m' = sessions m /\
    filter m' = filter m) \/
   (rowsCurrent m' /\ sessionsEdit (sessions m) (sessions m')) \/
   (mode m = ModeNormal /\ mode m' = ModeCreate /\ items m' = items m /\
    sessions m' = sessions m /\ filter m' = "") \/
   (mode m = ModeNormal /\ items m' = items m /\ filter m' = filter m /\
    sessions m' = collapseAll (sessions m) /\
    exists n, calls = [CallListWindows n] /\
              snd (ListWindows w n) <> None)).

(** The row of session [i], and the row of its window [j]. *)
Definition sessionRow (i : nat) : Item :=
  {| IsSession := true; SessionIndex := Z.of_nat i; WindowIndex := 0 |}.

Definition windowRow (i j : nat) : Item :=
  {| IsSession := false; SessionIndex := Z.of_nat i;
     WindowIndex := Z.of_nat j |}.

(** A key that reaches the collapse case of [handleNormalMode]. *)
Definition reachesCollapse (keys : KeyMap) (k : tea.KeyMsg) : bool :=
  negb (key.Matches k (kQuit keys)) && negb (key.Matches k (kCancel keys))
  && negb (key.Matches k (kUp keys)) && negb (key.Matches k (kDown keys))
  && negb (key.Matches k (kExpand keys)) && key.Matches k (kCollapse keys).

(** A key that reaches the expand case of [handleNormalMode]. *)
Definition reachesExpand (keys : KeyMap) (k : tea.KeyMsg) : bool :=
  negb (key.Matches k (kQuit keys)) && negb (key.Matches k (kCancel keys))
  && negb (key.Matches k (kUp keys)) && negb (key.Matches k (kDown keys))
  && key.Matches k (kExpand keys).

(** The windows an expansion shows: the loaded ones, or the ones tmux
    lists when none are loaded. *)
Definition shownWindows (w : World) (s : Session) : list Window :=
  match Windows s with
  | [] => fst (ListWindows w (Name s))
  | _ :: _ => Windows s
  end.

(** The kill of "alpha" has been confirmed. *)
Definition killedAlpha : Model :=
  Eval vm_compute in
    stateAfter [(w134, sessionsMsg abg); (w134, press tea.KeyCtrlX);
                (w134, press tea.KeyCtrlY)].

(** "alpha" as it is once expanded under [w134]. *)
Definition alphaExpanded : Session :=
  {| Name := "alpha"; LastActivity := 0; Expanded := true;
     Windows := [window 1 "edit"; window 3 "run"; window 4 "logs"] |}.

(** ** Package claude: the status files *)

Module strconv.

(** The value of a decimal digit; [None] for any other byte. *)
Definition digitOf (c : ascii) : option Z :=
  let n := utf8.code c in
  if (48 <=? n) && (n <=? 57) then Some (n - 48) else None.

Definition maxUint64 : Z := 18446744073709551615.

(** The loop of [strconv.ParseUint(s, 10, 64)]: a byte that is no digit is
    a syntax error, a value that leaves 64 bits a range error; both are
    [None]. *)
Fixpoint parseUintLoop (s : string) (n : Z) : option Z :=
  match s with
  | EmptyString => Some n
  | String c s' =>
      match digitOf c with
      | None => None
      | Some d =>
          if n >=? maxUint64 / 10 + 1 then None
          else
            let n := n * 10 in
            let n1 := n + d in
            if (n1 <? n) || (n1 >? maxUint64) then None
            else parseUintLoop s' n1
      end
  end.

Definition ParseUint (s : string) : option Z :=
  if String.eqb s "" then None else parseUintLoop s 0.

(** [strconv.ParseInt(s, 10, 64)]; [None] is any error. *)
Definition ParseInt (s : string) : option Z :=
  match s with
  | EmptyString => None
  | String c rest =>
      let '(neg, s1) :=
        if Ascii.eqb c "+" then (false, rest)
        else if Ascii.eqb c "-" then (true, rest)
        else (false, s) in
      match ParseUint s1 with
      | None => None
      | Some un =>
          let cutoff := 9223372036854775808 in
          if negb neg && (un >=? cutoff) then None
          else if neg && (un >? cutoff) then None
          else Some (if neg then - un else un)
      end
  end.

End strconv.

Module moreStrings.

(** Where the first [sep] cuts [s]. *)
Fixpoint cut (sep : ascii) (s : string) : option (string * string) :=
  match s with
  | EmptyString => None
  | String c s' =>
      if Ascii.eqb c sep then Some (EmptyString, s')
      else match cut sep s' with
           | Some (a, b) => Some (String c a, b)
           | None => None
           end
  end.

(** [strings.SplitN(s, sep, 2)] for a separator of one byte. *)
Definition SplitN2 (s : string) (sep : ascii) : list string :=
  match cut sep s with
  | Some (a, b) => [a; b]
  | None => [s]
  end.

(** [strings.HasSuffix] *)
Definition HasSuffix (s suffix : string) : bool :=
  (String.length suffix <=? String.length s)%nat
  && String.eqb
       (String.substring (String.length s - String.length suffix)
                         (String.length suffix) s)
       suffix.

(** [strings.TrimSuffix] *)
Definition TrimSuffix (s suffix : string) : string :=
  if HasSuffix s suffix
  then String.substring 0 (String.length s - String.length suffix) s
  else s.

End moreStrings.

(** [filepath.Join], which also cleans the result. *)
Class Filepath := { Join : list string -> string }.

(** What the file system answers; [None] is an error. *)
Record Files := {
  ReadFile : string -> option string;
  ReadDir : string -> option (list string);
  Stat : string -> bool
}.

Module claude.

(** A [time.Time]: the zero value, or [time.Unix(sec, 0)]. *)
Inductive Time := zeroTime | Unix (sec : Z).

Record Status := { State : string; Timestamp : Time }.

Definition noStatus : Status := {| State := ""; Timestamp := zeroTime |}.

Section GetStatus.

Context {U : Unicode} {F : Filepath}.
Variable fs : Files.

(** [GetStatus] *)
Definition GetStatus (sessionName cacheDir : string) : Status :=
  let statusFile := Join [cacheDir; sessionName +s+ ".status"] in
  match ReadFile fs statusFile with
  | None => noStatus
  | Some content =>
      match moreStrings.SplitN2 (strings.TrimSpace content) ":" with
      | [state; stamp] =>
          match strconv.ParseInt stamp with
          | None => noStatus
          | Some timestamp =>
              {| State := state; Timestamp := Unix timestamp |}
          end
      | _ => noStatus
      end
  end.

(** [CleanupStale]: the paths it removes, in order. *)
Definition CleanupStale (cacheDir : string) (activeSessions : list string)
  : list string :=
  match ReadDir fs cacheDir with
  | None => []
  | Some entries =>
      flat_map
        (fun entry =>
           if negb (moreStrings.HasSuffix entry ".status") then []
           else
             let sessionName := moreStrings.TrimSuffix entry ".status" in
             if negb (existsb (String.eqb sessionName) activeSessions)
             then [Join [cacheDir; entry]]
             else [])
        entries
  end.

End GetStatus.

End claude.

(** ** The status map of the model *)

Section ClaudeStatuses.

Context {U : Unicode} {F : Filepath}.
Variable fs : Files.

(** A Go [map[string]claude.Status], read by key. *)
Definition StatusMap := string -> option claude.Status.

Definition emptyMap : StatusMap := fun _ => None.

Definition mapSet (mp : StatusMap) (k : string) (v : claude.Status)
  : StatusMap :=
  fun k' => if String.eqb k' k then Some v else mp k'.

(** [loadClaudeStatuses], as a function of the two configuration fields
    and the sessions it reads; its result is [m.claudeStatuses]. *)
Definition loadClaudeStatuses (claudeStatusEnabled : bool)
    (cacheDir : string) (ss : list Session) : StatusMap :=
  if negb claudeStatusEnabled then emptyMap
  else
    fold_left
      (fun mp s =>
         let status := claude.GetStatus fs (Name s) cacheDir in
         if negb (String.eqb (claude.State status) "")
         then mapSet mp (Name s) status else mp)
      ss emptyMap.

End ClaudeStatuses.

(** A byte [strings.TrimSpace] stops at: ASCII and no white space. *)
Definition cleanByte (c : ascii) : bool :=
  (utf8.code c <? utf8.RuneSelf) && negb (strings.asciiSpace c).

Definition startsClean (s : string) : bool :=
  match s with
  | EmptyString => true
  | String c _ => cleanByte c
  end.

Definition noColon (s : string) : bool :=
  forallb (fun c => negb (Ascii.eqb c ":")) (list_ascii_of_string s).

Definition allSpace (s : string) : bool :=
  forallb strings.asciiSpace (list_ascii_of_string s).

(** The value of the digits [d] read after the value [n]. *)
Fixpoint digitsValue (d : Decimal.uint) (n : Z) : Z :=
  match d with
  | Decimal.Nil => n
  | Decimal.D0 l => digitsValue l (n * 10 + 0)
  | Decimal.D1 l => digitsValue l (n * 10 + 1)
  | Decimal.D2 l => digitsValue l (n * 10 + 2)
  | Decimal.D3 l => digitsValue l (n * 10 + 3)
  | Decimal.D4 l => digitsValue l (n * 10 + 4)
  | Decimal.D5 l => digitsValue l (n * 10 + 5)
  | Decimal.D6 l => digitsValue l (n * 10 + 6)
  | Decimal.D7 l => digitsValue l (n * 10 + 7)
  | Decimal.D8 l => digitsValue l (n * 10 + 8)
  | Decimal.D9 l => digitsValue l (n * 10 + 9)
  end.



(** ** Package config *)

Module config.

Record Config := {
  Layout : string;
  LayoutDir : string;
  ClaudeStatusEnabled : bool;
  CacheDir : string
}.

(** One write to the file system. *)
Inductive FileOp :=
| OpMkdirAll (dir : string)
| OpWriteFile (path content : string).

Section Load.

Context {F : Filepath}.
(** [os.Getenv] *)
Variable getenv : string -> string.
(** [os.Stat] succeeding *)
Variable stat : string -> bool.
(** [toml.DecodeFile(path, &cfg)]: the configuration it leaves and its
    error *)
Variable decodeFile : string -> Config -> Config * option string.
(** [filepath.Dir] *)
Variable dirOf : string -> string.
(** [os.MkdirAll] and [os.WriteFile]: their errors *)
Variable mkdirAll : string -> option string.
Variable writeFile : string -> string -> option string.

(** [DefaultConfig] *)
Definition DefaultConfig : Config :=
  let home := getenv "HOME" in
  {| Layout := "";
     LayoutDir := Join [home; ".config"; "tmux"; "layouts"];
     ClaudeStatusEnabled := false;
     CacheDir := Join [home; ".cache"; "tsm"] |}.

(** [Path] *)
Definition Path : string :=
  let home := getenv "HOME" in
  Join [home; ".config"; "tsm"; "config.toml"].

(** [expandPath] *)
Definition expandPath (path : string) : string :=
  match path with
  | String c rest =>
      if Ascii.eqb c "~" then
        let home := getenv "HOME" in
        Join [home; rest]
      else path
  | EmptyString => path
  end.

(** [Load] *)
Definition Load : Config * option string :=
  let cfg := DefaultConfig in
  let configPath := Path in
  let loaded :=
    if stat configPath then
      match decodeFile configPath cfg with
      | (cfg, Some err) =>
          (cfg, Some ("failed to parse config file: " +s+ err))
      | (cfg, None) => (cfg, None)
      end
    else (cfg, None) in
  match loaded with
  | (cfg, Some err) => (cfg, Some err)
  | (cfg, None) =>
      let layoutDir := expandPath (LayoutDir cfg) in
      let cacheDir := expandPath (CacheDir cfg) in
      let layout :=
        if negb (String.eqb (getenv "TMUX_LAYOUT") "")
        then getenv "TMUX_LAYOUT" else Layout cfg in
      let layoutDir :=
        if negb (String.eqb (getenv "TMUX_LAYOUTS_DIR") "")
        then expandPath (getenv "TMUX_LAYOUTS_DIR") else layoutDir in
      let enabled :=
        if String.eqb (getenv "TMUX_SESSION_PICKER_CLAUDE_STATUS") "1"
        then true else ClaudeStatusEnabled cfg in
      ({| Layout := layout; LayoutDir := layoutDir;
          ClaudeStatusEnabled := enabled; CacheDir := cacheDir |}, None)
  end.

Definition nl : string := String (ascii_of_nat 10) EmptyString.

(** The text [Init] writes. *)
Definition defaultContent : string :=
  "# tsm configuration" +s+ nl +s+
  "# Environment variables override these settings" +s+ nl +s+ nl +s+
  "# Layout script name to apply when creating new sessions" +s+ nl +s+
  "# layout = " +s+ dquote +s+ "ide" +s+ dquote +s+ nl +s+ nl +s+
  "# Directory containing layout scripts" +s+ nl +s+
  "# layout_dir = " +s+ dquote +s+ "~/.config/tmux/layouts" +s+ dquote
  +s+ nl +s+ nl +s+
  "# Enable Claude Code status integration" +s+ nl +s+
  "# claude_status_enabled = false" +s+ nl +s+ nl +s+
  "# Directory for status cache files" +s+ nl +s+
  "# cache_dir = " +s+ dquote +s+ "~/.cache/tsm" +s+ dquote +s+ nl.

(** [Init]: its error and the writes it makes, in order. *)
Definition Init : option string * list FileOp :=
  let configPath := Path in
  let configDir := dirOf configPath in
  match mkdirAll configDir with
  | Some err =>
      (Some ("failed to create config directory: " +s+ err),
       [OpMkdirAll configDir])
  | None =>
      if stat configPath then
        (Some ("config file already exists at " +s+ configPath),
         [OpMkdirAll configDir])
      else
        match writeFile configPath defaultContent with
        | Some err =>
            (Some ("failed to write config file: " +s+ err),
             [OpMkdirAll configDir; OpWriteFile configPath defaultContent])
        | None =>
            (None,
             [OpMkdirAll configDir; OpWriteFile configPath defaultContent])
        end
  end.

End Load.

End config.

(** What the file step of [Load] leaves: the decoder's configuration and
    error when the file exists, the defaults otherwise. *)
Definition fileConfig {F : Filepath} (getenv : string -> string)
    (stat : string -> bool)
    (decodeFile : string -> config.Config -> config.Config * option string)
    : config.Config * option string :=
  if stat (config.Path getenv)
  then decodeFile (config.Path getenv) (config.DefaultConfig getenv)
  else (config.DefaultConfig getenv, None).

Definition isWrite (op : config.FileOp) : bool :=
  match op with config.OpWriteFile _ _ => true | _ => false end.

(** ** Sample files and environment *)

(** Joining with slashes, for elements that need no cleaning. *)
Definition slashes : Filepath := {| Join := String.concat "/" |}.

Definition cacheFiles : Files :=
  {| ReadFile := fun p =>
       if String.eqb p "/cache/alpha.status"
       then Some ("working:1700000000" +s+ config.nl) else None;
     ReadDir := fun d =>
       if String.eqb d "/cache"
       then Some ["alpha.status"; "gone.status"; "notes.txt"] else None;
     Stat := fun _ => false |}.

Definition sampleEnv (k : string) : string :=
  if String.eqb k "HOME" then "/home/u"
  else if String.eqb k "TMUX_LAYOUT" then "ide"
  else if String.eqb k "TMUX_SESSION_PICKER_CLAUDE_STATUS" then "0"
  else "".

Definition sampleDecode (path : string) (cfg : config.Config)
    : config.Config * option string :=
  ({| config.Layout := "dev";
      config.LayoutDir := "~/layouts";
      config.ClaudeStatusEnabled := true;
      config.CacheDir := config.CacheDir cfg |}, None).

Definition brokenDecode (path : string) (cfg : config.Config)
    : config.Config * option string :=
  (cfg, Some "bad").

(** ** The rows [View] draws *)

(** A call of the row loop of [View]:
    [renderSessionWithLabel(session, num, isFirst, selected)] or
    [renderWindow(window, selected)]. *)
Inductive Drawn :=
| DrawSession (session : Session) (num : Z) (isFirst selected : bool)
| DrawWindow (window : Window) (selected : bool).

(** The loop [for i, item := range m.items] of [View], from row [i] on,
    [sessionNum] session rows having been drawn; [None] is an index out of
    range. *)
Fixpoint viewLoop (m : Model) (i sessionNum : Z) (its : list Item)
  : option (list Drawn) :=
  match its with
  | [] => Some []
  | item :: rest =>
      let selected := i =? cursor m in
      if IsSession item then
        session <- index (sessions m) (SessionIndex item);
        let sessionNum := sessionNum + 1 in
        let isFirst := sessionNum =? 1 in
        rows <- viewLoop m (i + 1) sessionNum rest;
        Some (DrawSession session sessionNum isFirst selected :: rows)
      else
        session <- index (sessions m) (SessionIndex item);
        window <- index (Windows session) (WindowIndex item);
        rows <- viewLoop m (i + 1) sessionNum rest;
        Some (DrawWindow window selected :: rows)
  end.

Definition viewRows (m : Model) : option (list Drawn) :=
  viewLoop m 0 0 (items m).

Definition selectedOf (d : Drawn) : bool :=
  match d with
  | DrawSession _ _ _ selected => selected
  | DrawWindow _ selected => selected
  end.

(** The sessions drawn, each with the number in front of it. *)
Definition labelled (rows : list Drawn) : list (Z * Session) :=
  flat_map (fun d => match d with
                     | DrawSession s num _ _ => [(num, s)]
                     | DrawWindow _ _ => []
                     end) rows.

Fixpoint numbered {A} (n : Z) (l : list A) : list (Z * A) :=
  match l with
  | [] => []
  | x :: l' => (n, x) :: numbered (n + 1) l'
  end.

Definition sessionCount (its : list Item) : Z :=
  len (List.filter IsSession its).

(** No expanded session has a window with index [d]. *)
Definition noWindowNumbered (m : Model) (d : Z) : Prop :=
  forall s, In s (sessions m) -> Expanded s = true ->
            existsb (fun win => WIndex win =? d) (Windows s) = false.

(** The sessions of the session rows among [its], in row order. *)
Definition drawnSessions (m : Model) (its : list Item) : list Session :=
  flat_map (fun it =>
              if IsSession it then
                match index (sessions m) (SessionIndex it) with
                | Some s => [s]
                | None => []
                end
              else []) its.

(** The three sessions under the filter "g": only "gamma" is left. *)
Definition filteredG : Model :=
  Eval vm_compute in
    stateAfter [(w134, sessionsMsg abg); (w134, KeyMsg (typed 103))].

(** What [View] draws for [listed]. *)
Definition drawnListed : list Drawn :=
  Eval vm_compute in
    match viewRows listed with Some rows => rows | None => [] end.

(** ** Slices and strings *)

Lemma len_app {A} (a b : list A) : len (a ++ b) = len a + len b.
Proof. unfold len. rewrite length_app. lia. Qed.

Lemma len_nonneg {A} (l : list A) : 0 <= len l.
Proof. unfold len. lia. Qed.

Lemma len_nil_iff {A} (l : list A) : len l = 0 <-> l = [].
Proof.
  unfold len. destruct l; simpl; split; intro H; try reflexivity;
    try discriminate; lia.
Qed.

Lemma index_range {A} (l : list A) i x :
  index l i = Some x -> 0 <= i < len l.
Proof.
  unfold index, len. destruct (Z.ltb_spec i 0); [discriminate|].
  intro H0. assert (Hn : nth_error l (Z.to_nat i) <> None) by congruence.
  apply nth_error_Some in Hn. lia.
Qed.

Lemma index_defined {A} (l : list A) i :
  0 <= i < len l -> exists x, index l i = Some x.
Proof.
  unfold index, len. intros Hi.
  destruct (Z.ltb_spec i 0); [lia|].
  destruct (nth_error l (Z.to_nat i)) eqn:E; [eauto|].
  apply nth_error_None in E. lia.
Qed.

Lemma index_In {A} (l : list A) i x : index l i = Some x -> In x l.
Proof.
  unfold index. destruct (i <? 0); [discriminate|]. apply nth_error_In.
Qed.

Lemma index_of_nat {A} (l : list A) (n : nat) :
  index l (Z.of_nat n) = nth_error l n.
Proof.
  unfold index. destruct (Z.ltb_spec (Z.of_nat n) 0); [lia|].
  now rewrite Nat2Z.id.
Qed.

Lemma index_map {A B} (f : A -> B) (l : list A) i :
  index (map f l) i = option_map f (index l i).
Proof.
  unfold index. destruct (i <? 0); [reflexivity|]. apply nth_error_map.
Qed.

Lemma length_setNth {A} (n : nat) (x : A) l :
  List.length (setNth n x l) = List.length l.
Proof.
  revert n; induction l as [|y l IH]; intros [|n]; simpl; auto.
Qed.

Lemma nth_error_setNth {A} (n k : nat) (x : A) l :
  nth_error (setNth n x l) k =
  if Nat.eqb k n then (match nth_error l k with
                       | Some _ => Some x
                       | None => None
                       end)
  else nth_error l k.
Proof.
  revert n k; induction l as [|y l IH]; intros [|n] [|k]; simpl; auto;
    destruct (Nat.eqb k n); reflexivity.
Qed.

Lemma filter_setNth_count {A} (p : A -> bool) (n : nat) (x : A) l :
  List.length (List.filter p l) = O ->
  (List.length (List.filter p (setNth n x l)) <= 1)%nat.
Proof.
  revert n; induction l as [|y l IH]; intros n H; simpl in *; [lia|].
  destruct (p y) eqn:Py; [simpl in H; discriminate|].
  destruct n as [|n]; simpl.
  - destruct (p x); simpl; lia.
  - rewrite Py. auto.
Qed.

Lemma prefix_split (p s : string) :
  String.prefix p s = true <-> exists post, s = p +s+ post.
Proof.
  revert s; induction p as [|c p IH]; intros s; simpl.
  - split; [intros _; exists s; reflexivity | destruct s; reflexivity].
  - destruct s as [|c' s].
    + split; [discriminate | intros [post H]; discriminate].
    + simpl. destruct (Ascii.ascii_dec c c') as [->|Hne].
      * rewrite IH. split; intros [post H]; exists post.
        -- now rewrite H.
        -- now injection H.
      * split; [discriminate|]. intros [post H]. injection H as H1 H2.
        congruence.
Qed.

Lemma Contains_split (s sub : string) :
  strings.Contains s sub = true <->
  exists pre post, s = pre +s+ sub +s+ post.
Proof.
  induction s as [|c s IH]; cbn [strings.Contains].
  - rewrite orb_false_r, prefix_split. split.
    + intros [post H]. exists "", post. exact H.
    + intros [pre [post H]]. destruct pre; simpl in H.
      * exists post. exact H.
      * discriminate.
  - rewrite orb_true_iff, prefix_split, IH. split.
    + intros [[post H]|[pre [post H]]].
      * exists "", post. exact H.
      * exists (String c pre), post. simpl. now rewrite H.
    + intros [pre [post H]]. destruct pre as [|c' pre]; simpl in H.
      * left. exists post. exact H.
      * right. injection H as _ H. exists pre, post. exact H.
Qed.

Lemma Contains_empty (s : string) : strings.Contains s "" = true.
Proof. destruct s; reflexivity. Qed.

Lemma ToLower_empty {U : Unicode} : strings.ToLower "" = "".
Proof. reflexivity. Qed.

Lemma eqb_empty_false (s : string) :
  String.eqb s "" = false <-> s <> "".
Proof. apply String.eqb_neq. Qed.

Lemma append_empty_r (s : string) : s +s+ "" = s.
Proof. induction s; simpl; congruence. Qed.

Lemma append_assoc (a b c : string) : (a +s+ b) +s+ c = a +s+ b +s+ c.
Proof. induction a; simpl; congruence. Qed.

Lemma length_append (a b : string) :
  String.length (a +s+ b) = (String.length a + String.length b)%nat.
Proof. induction a; simpl; congruence. Qed.

Lemma substring_all_append (a b : string) :
  String.substring 0 (String.length a) (a +s+ b) = a.
Proof. induction a; simpl; [destruct b; reflexivity | congruence]. Qed.

(** Cutting the last byte undoes appending one byte. *)
Lemma dropLastByte_snoc (s : string) (c : ascii) :
  strings.dropLastByte (s +s+ String c "") = s.
Proof.
  unfold strings.dropLastByte. rewrite length_append. simpl.
  replace (String.length s + 1 - 1)%nat with (String.length s) by lia.
  apply substring_all_append.
Qed.

(** ** The flattener *)

Section FlattenerFacts.

Context {U : Unicode}.

Lemma windowLoop_rows (ws : list Window) : forall (i j : nat) acc,
  windowLoop (Z.of_nat i) (Z.of_nat j) ws acc =
  acc ++ map (fun k => {| IsSession := false; SessionIndex := Z.of_nat i;
                          WindowIndex := Z.of_nat k |})
             (seq j (List.length ws)).
Proof.
  induction ws as [|w0 ws IH]; intros i j acc; simpl.
  - now rewrite app_nil_r.
  - replace (Z.of_nat j + 1) with (Z.of_nat (S j)) by lia.
    rewrite IH, <- app_assoc. reflexivity.
Qed.

Lemma guard_passes (flt name : string) :
  negb (String.eqb flt "") && negb (fuzzyMatch name (strings.ToLower flt))
  = negb (passes flt name).
Proof.
  unfold passes, fuzzyMatch. destruct (String.eqb_spec flt "") as [->|_].
  - simpl. now rewrite Contains_empty.
  - reflexivity.
Qed.

Lemma sessionLoop_flatten (flt : string) (ss : list Session) :
  forall (i : nat) acc,
    sessionLoop flt (strings.ToLower flt) (Z.of_nat i) ss acc =
    acc ++ flatten flt i ss.
Proof.
  induction ss as [|s ss IH]; intros i acc; cbn [sessionLoop flatten].
  - now rewrite app_nil_r.
  - rewrite guard_passes.
    replace (Z.of_nat i + 1) with (Z.of_nat (S i)) by lia.
    destruct (passes flt (Name s)); cbn [negb].
    + rewrite IH. unfold rowsOf. destruct (Expanded s).
      * pose proof (windowLoop_rows (Windows s) i 0%nat) as Hw.
        cbn [Z.of_nat] in Hw. rewrite Hw, <- !app_assoc.
        reflexivity.
      * rewrite <- app_assoc. reflexivity.
    + apply IH.
Qed.

Lemma rebuildItems_items (m : Model) :
  items (rebuildItems m) = flatten (filter m) 0 (sessions m).
Proof.
  pose proof (sessionLoop_flatten (filter m) (sessions m) 0%nat []) as H.
  cbn [Z.of_nat app] in H. exact H.
Qed.

Lemma rebuildItems_cursor (m : Model) :
  cursor (rebuildItems m) =
  clampCursor (cursor m) (len (items (rebuildItems m))).
Proof. reflexivity. Qed.

Lemma rebuildItems_sessions (m : Model) :
  sessions (rebuildItems m) = sessions m.
Proof. reflexivity. Qed.

Lemma rebuildItems_filter (m : Model) :
  filter (rebuildItems m) = filter m.
Proof. reflexivity. Qed.

Lemma rebuildItems_mode (m : Model) : mode (rebuildItems m) = mode m.
Proof. reflexivity. Qed.

Lemma rowsOf_ok (pre post : list Session) (s : Session) :
  forallb (itemOk (pre ++ s :: post)) (rowsOf (List.length pre) s) = true.
Proof.
  assert (Hs : index (pre ++ s :: post) (Z.of_nat (List.length pre))
               = Some s).
  { rewrite index_of_nat, nth_error_app2 by lia.
    now rewrite Nat.sub_diag. }
  unfold rowsOf. cbn [forallb]. apply andb_true_iff. split.
  - unfold itemOk. cbn [SessionIndex IsSession]. now rewrite Hs.
  - destruct (Expanded s); [|reflexivity].
    apply forallb_forall. intros it Hin. apply in_map_iff in Hin.
    destruct Hin as [j [<- Hj]]. apply in_seq in Hj.
    unfold itemOk. cbn [SessionIndex IsSession WindowIndex]. rewrite Hs.
    rewrite index_of_nat.
    destruct (nth_error (Windows s) j) eqn:E; [reflexivity|].
    apply nth_error_None in E. lia.
Qed.

Lemma flatten_ok (flt : string) (post : list Session) :
  forall pre,
    forallb (itemOk (pre ++ post)) (flatten flt (List.length pre) post)
    = true.
Proof.
  induction post as [|s post IH]; intros pre; [reflexivity|].
  cbn [flatten]. rewrite forallb_app. apply andb_true_iff. split.
  - destruct (passes flt (Name s)); [apply rowsOf_ok | reflexivity].
  - specialize (IH (pre ++ [s])).
    rewrite <- app_assoc, length_app in IH. simpl in IH.
    now rewrite Nat.add_1_r in IH.
Qed.

Lemma clampCursor_range (c n : Z) :
  0 <= n ->
  (n = 0 -> clampCursor c n = 0) /\
  (0 < n -> 0 <= clampCursor c n < n).
Proof.
  intros Hn. unfold clampCursor.
  destruct (Z.geb_spec c n); [destruct (Z.ltb_spec (n - 1) 0)
                             | destruct (Z.ltb_spec c 0)]; lia.
Qed.

Lemma cursorValid_clamped (its : list Item) (c : Z) :
  match its with
  | [] => clampCursor c (len its) = 0
  | _ :: _ => 0 <= clampCursor c (len its) < len its
  end.
Proof.
  destruct (clampCursor_range c (len its) (len_nonneg its)) as [H0 H1].
  destruct its as [|it its]; [apply H0; reflexivity|].
  apply H1. unfold len. simpl. lia.
Qed.

(** A rebuild always leaves a well-formed state. *)
Lemma rebuildItems_WF (m : Model) : WF (rebuildItems m).
Proof.
  split.
  - unfold cursorValid. rewrite rebuildItems_cursor.
    apply cursorValid_clamped.
  - unfold itemsOk. rewrite rebuildItems_items, rebuildItems_sessions.
    apply (flatten_ok (filter m) (sessions m) []).
Qed.

(** The rows of a state only care for how many sessions there are and
    how many windows each has. *)
Lemma itemOk_shape (ss ss' : list Session) (it : Item) :
  map Windows ss = map Windows ss' -> itemOk ss it = itemOk ss' it.
Proof.
  intros H. unfold itemOk.
  assert (E : option_map Windows (index ss (SessionIndex it)) =
              option_map Windows (index ss' (SessionIndex it))).
  { rewrite <- !index_map. now rewrite H. }
  destruct (index ss (SessionIndex it)), (index ss' (SessionIndex it));
    simpl in E; try discriminate; [|reflexivity].
  injection E as ->. reflexivity.
Qed.

Lemma map_Windows_collapse (ss : list Session) :
  map Windows (map (fun s => setExpanded s false) ss) = map Windows ss.
Proof. rewrite map_map. reflexivity. Qed.

Lemma WF_same (m m' : Model) :
  cursor m' = cursor m -> items m' = items m ->
  map Windows (sessions m') = map Windows (sessions m) ->
  WF m -> WF m'.
Proof.
  intros Hc Hi Hs [Hcur Hok]. split.
  - unfold cursorValid in *. now rewrite Hc, Hi.
  - unfold itemsOk in *. rewrite Hi.
    rewrite forallb_forall in *. intros it Hin.
    rewrite (itemOk_shape _ (sessions m)); auto.
Qed.

Lemma cursorOut_false (m : Model) :
  cursorOut m = false -> 0 <= cursor m < len (items m).
Proof.
  unfold cursorOut. rewrite orb_false_iff. intros [H1 H2].
  destruct (Z.ltb_spec (cursor m) 0); [discriminate|].
  destruct (Z.geb_spec (cursor m) (len (items m))); [discriminate|]. lia.
Qed.

Lemma cursorValid_out (m : Model) :
  cursorValid m -> cursorOut m = true -> items m = [].
Proof.
  unfold cursorValid, cursorOut. destruct (items m) as [|it its];
    [reflexivity|].
  intros H Hout. apply orb_true_iff in Hout.
  destruct (Z.ltb_spec (cursor m) 0), (Z.geb_spec (cursor m) (len (it :: its)));
    destruct Hout; try discriminate; lia.
Qed.

(** Under the invariant the row at the cursor and what it refers to can
    be read without a panic. *)
Lemma WF_item (m : Model) (it : Item) :
  itemsOk m -> index (items m) (cursor m) = Some it ->
  exists s, index (sessions m) (SessionIndex it) = Some s /\
            (IsSession it = false ->
             exists win, index (Windows s) (WindowIndex it) = Some win).
Proof.
  intros Hok Hit. apply index_In in Hit.
  unfold itemsOk in Hok. rewrite forallb_forall in Hok.
  specialize (Hok _ Hit). unfold itemOk in Hok.
  destruct (index (sessions m) (SessionIndex it)) as [s|];
    [|discriminate].
  exists s. split; [reflexivity|]. intros Hw. rewrite Hw in Hok.
  simpl in Hok.
  destruct (index (Windows s) (WindowIndex it)); [eauto|discriminate].
Qed.

End FlattenerFacts.

(** ** One event at a time *)

Lemma countExpanded_collapseAll (ss : list Session) :
  countExpanded (map (fun s => setExpanded s false) ss) = O.
Proof.
  unfold countExpanded. induction ss as [|s ss IH]; simpl; auto.
Qed.

Lemma countExpanded_collapseOne (ss : list Session) (n : nat) s :
  nth_error ss n = Some s ->
  (countExpanded (setNth n (setExpanded s false) ss) <= countExpanded ss)%nat.
Proof.
  unfold countExpanded. revert n; induction ss as [|y ss IH]; intros [|n] H;
    simpl in *; try discriminate.
  - destruct (Expanded y); simpl; lia.
  - specialize (IH _ H). destruct (Expanded y); simpl; lia.
Qed.

Lemma sessionsStep_atMostOne (ss ss' : list Session) :
  sessionsStep ss ss' -> atMostOneExpanded ss -> atMostOneExpanded ss'.
Proof.
  unfold atMostOneExpanded. intros H Hone. destruct H as [| |i s|i s Hi].
  - exact Hone.
  - rewrite countExpanded_collapseAll. lia.
  - apply filter_setNth_count. apply countExpanded_collapseAll.
  - unfold index in Hi. destruct (i <? 0); [discriminate|].
    pose proof (countExpanded_collapseOne _ _ _ Hi). unfold store. lia.
Qed.

Lemma fresh_atMostOne (ss : list Session) :
  forallb fresh ss = true -> atMostOneExpanded ss.
Proof.
  unfold atMostOneExpanded, countExpanded.
  induction ss as [|s ss IH]; simpl; [lia|].
  intros H. apply andb_true_iff in H. destruct H as [Hs Hss].
  unfold fresh in Hs. apply andb_true_iff in Hs. destruct Hs as [Hs _].
  destruct (Expanded s); [discriminate|]. auto.
Qed.

(** Proof steps that recur. *)

Ltac done_same m :=
  do 3 eexists; split; [reflexivity|]; split;
  [ apply (WF_same m); [reflexivity|reflexivity|reflexivity|assumption]
  | apply step_same ].

Ltac kept := do 3 eexists; split; [reflexivity|]; repeat split.

Ltac unbound H :=
  unfold actionBound in H;
  repeat (apply orb_false_iff in H; destruct H as [H ?]).

Ltac to_normal Hmode Hact :=
  cbn [Update]; unfold handleKey, handleNormalMode; rewrite Hmode;
  unbound Hact;
  repeat match goal with
         | E : key.Matches _ _ = false |- _ => rewrite E; clear E
         end.

Section Steps.

Context {U : Unicode}.
Variable keys : KeyMap.
Variable inputUpdate : textinput.Model -> Msg -> textinput.Model * tea.Cmd.

Arguments rebuildItems : simpl never.

Lemma expandCurrent_steps (w : World) (m : Model) :
  WF m ->
  exists m' calls,
    expandCurrent w m = Some (m', calls) /\ WF m' /\
    sessionsStep (sessions m) (sessions m').
Proof.
  intros Hwf. unfold expandCurrent.
  destruct (cursorOut m) eqn:Hout.
  { exists m, []. split; [reflexivity|]. split; [exact Hwf|apply step_same]. }
  apply cursorOut_false in Hout.
  destruct (index_defined _ _ Hout) as [it Hit]. rewrite Hit.
  destruct (IsSession it) eqn:His; cbn [negb].
  2:{ exists m, []. split; [reflexivity|].
      split; [exact Hwf|apply step_same]. }
  destruct (WF_item m it (proj2 Hwf) Hit) as [s [Hs _]].
  cbn [sessions setSessions]. rewrite index_map, Hs. cbn [option_map].
  cbn [Windows setExpanded Name].
  destruct (len (Windows s) =? 0).
  - destruct (ListWindows w (Name s)) as [ws [err|]].
    + eexists _, _. split; [reflexivity|]. split.
      * apply (WF_same m); try reflexivity; [|assumption].
        apply map_Windows_collapse.
      * apply step_collapseAll.
    + eexists _, _. split; [reflexivity|]. split.
      * apply rebuildItems_WF.
      * rewrite rebuildItems_sessions. apply step_expandOne.
  - eexists _, _. split; [reflexivity|]. split.
    + apply rebuildItems_WF.
    + rewrite rebuildItems_sessions. apply step_expandOne.
Qed.

Lemma collapseCurrent_steps (m : Model) :
  WF m ->
  exists m',
    collapseCurrent m = Some m' /\ WF m' /\
    sessionsStep (sessions m) (sessions m').
Proof.
  intros Hwf. unfold collapseCurrent.
  destruct (cursorOut m) eqn:Hout.
  { exists m. split; [reflexivity|]. split; [exact Hwf|apply step_same]. }
  apply cursorOut_false in Hout.
  destruct (index_defined _ _ Hout) as [it Hit]. rewrite Hit.
  destruct (WF_item m it (proj2 Hwf) Hit) as [s [Hs _]].
  assert (Hsess : forall m0 : Model,
             sessions m0 = sessions m ->
             exists m',
               (session <- index (sessions m0) (SessionIndex it);
                Some (rebuildItems
                        (setSessions
                           (store (sessions m0) (SessionIndex it)
                                  (setExpanded session false)) m0)))
               = Some m' /\ WF m' /\
               sessionsStep (sessions m) (sessions m')).
  { intros m0 E. rewrite E, Hs. eexists. split; [reflexivity|]. split.
    - apply rebuildItems_WF.
    - rewrite rebuildItems_sessions. cbn [sessions setSessions].
      now apply step_collapseOne. }
  destruct (IsSession it).
  - apply Hsess. reflexivity.
  - destruct (findSessionRow (items m) 0 (SessionIndex it));
      apply Hsess; reflexivity.
Qed.

Lemma keeps_steps (m : Model) r : WF m -> keeps m r -> steps m r.
Proof.
  intros Hwf (m' & cmd & calls & -> & Hc & Hi & Hs).
  exists m', cmd, calls. split; [reflexivity|]. split.
  - apply (WF_same m); auto. now rewrite Hs.
  - rewrite Hs. apply step_same.
Qed.

Lemma selectCurrent_keeps (w : World) (m : Model) :
  WF m -> keeps m (selectCurrent w m).
Proof.
  intros Hwf. unfold selectCurrent.
  destruct (cursorOut m) eqn:Hout; [kept|].
  apply cursorOut_false in Hout.
  destruct (index_defined _ _ Hout) as [it Hit]. rewrite Hit.
  destruct (WF_item m it (proj2 Hwf) Hit) as [s [Hs Hw]]. rewrite Hs.
  destruct (IsSession it).
  - destruct (SwitchClient w (Name s)); kept.
  - destruct (Hw eq_refl) as [win Hwin]. rewrite Hwin.
    destruct (SwitchClient w (windowTarget s win)); kept.
Qed.

Lemma confirmKill_keeps (m : Model) : WF m -> keeps m (confirmKill m).
Proof.
  intros Hwf. unfold confirmKill.
  destruct (cursorOut m) eqn:Hout; [kept|].
  apply cursorOut_false in Hout.
  destruct (index_defined _ _ Hout) as [it Hit]. rewrite Hit.
  destruct (WF_item m it (proj2 Hwf) Hit) as [s [Hs Hw]]. rewrite Hs.
  destruct (IsSession it).
  - kept.
  - destruct (Hw eq_refl) as [win Hwin]. rewrite Hwin. kept.
Qed.

Lemma killCurrent_keeps (w : World) (m : Model) :
  WF m -> keeps m (killCurrent w m).
Proof.
  intros Hwf. unfold killCurrent.
  destruct (cursorOut m) eqn:Hout; [kept|].
  apply cursorOut_false in Hout.
  destruct (index_defined _ _ Hout) as [it Hit]. rewrite Hit.
  destruct (WF_item m it (proj2 Hwf) Hit) as [s [Hs Hw]]. rewrite Hs.
  destruct (IsSession it).
  - destruct (KillSession w (Name s)); kept.
  - destruct (Hw eq_refl) as [win Hwin]. rewrite Hwin.
    destruct (KillWindow w (Name s) (WIndex win)); kept.
Qed.

Lemma createSession_keeps (w : World) (m : Model) (name : string) :
  keeps m (createSession w m name).
Proof.
  unfold createSession.
  destruct (CreateSession w name (Getenv w "HOME")); [kept|].
  destruct (SwitchClient w name); kept.
Qed.

Lemma handleJump_keeps (w : World) (m : Model) (num : Z) :
  WF m -> keeps m (handleJump w m num).
Proof.
  intros Hwf. unfold handleJump.
  assert (Hby : keeps m
    (if (num - 1 >=? 0) && (num - 1 <? len (sessions m))
     then session <- index (sessions m) (num - 1);
          match SwitchClient w (Name session) with
          | Some err =>
              Some (setError ("Error: " +s+ err) m, tea.CmdNil,
                    [CallSwitchClient (Name session)])
          | None => Some (m, tea.Quit, [CallSwitchClient (Name session)])
          end
     else Some (m, tea.CmdNil, []))).
  { destruct (Z.geb_spec (num - 1) 0); cbn [andb]; [|kept].
    destruct (Z.ltb_spec (num - 1) (len (sessions m))); [|kept].
    destruct (index_defined (sessions m) (num - 1)) as [s Hs]; [lia|].
    rewrite Hs. destruct (SwitchClient w (Name s)); kept. }
  destruct ((cursor m >=? 0) && (cursor m <? len (items m))) eqn:Hin;
    [|exact Hby].
  apply andb_true_iff in Hin. destruct Hin as [H1 H2].
  apply Z.geb_le in H1. apply Z.ltb_lt in H2.
  destruct (index_defined (items m) (cursor m)) as [it Hit]; [lia|].
  rewrite Hit.
  destruct (WF_item m it (proj2 Hwf) Hit) as [s [Hs _]]. rewrite Hs.
  destruct (Expanded s); [|exact Hby].
  destruct (find (fun win => WIndex win =? num) (Windows s)) as [win|];
    [|exact Hby].
  destruct (SwitchClient w (windowTarget s win)); kept.
Qed.

Lemma handleNormalMode_steps (w : World) (m : Model) (k : tea.KeyMsg) :
  WF m -> steps m (handleNormalMode keys w m k).
Proof.
  intros Hwf. unfold handleNormalMode.
  destruct (key.Matches k (kQuit keys)); [done_same m|].
  destruct (key.Matches k (kCancel keys)).
  { destruct (negb (String.eqb (filter m) "")); [|done_same m].
    do 3 eexists. split; [reflexivity|]. split;
      [apply rebuildItems_WF | apply step_same]. }
  destruct (key.Matches k (kUp keys)).
  { do 3 eexists. split; [reflexivity|]. split; [|
      destruct (cursor m >? 0); apply step_same].
    destruct Hwf as [Hc Hok]. destruct (Z.gtb_spec (cursor m) 0);
      [|split; assumption].
    split; [|exact Hok]. unfold cursorValid in *.
    cbn [items cursor setCursor]. destruct (items m); lia. }
  destruct (key.Matches k (kDown keys)).
  { do 3 eexists. split; [reflexivity|]. split; [|
      destruct (cursor m <? len (items m) - 1); apply step_same].
    destruct Hwf as [Hc Hok].
    destruct (Z.ltb_spec (cursor m) (len (items m) - 1));
      [|split; assumption].
    split; [|exact Hok]. unfold cursorValid in *.
    cbn [items cursor setCursor]. destruct (items m); [|lia].
    unfold len in *; simpl in *; lia. }
  destruct (key.Matches k (kExpand keys)).
  { destruct (expandCurrent_steps w m Hwf) as (m' & calls & -> & H1 & H2).
    exists m', tea.CmdNil, calls. auto. }
  destruct (key.Matches k (kCollapse keys)).
  { destruct (collapseCurrent_steps m Hwf) as (m' & -> & H1 & H2).
    exists m', tea.CmdNil, []. auto. }
  destruct (key.Matches k (kSelect keys));
    [apply keeps_steps, selectCurrent_keeps; assumption|].
  destruct (key.Matches k (kKill keys));
    [apply keeps_steps, confirmKill_keeps; assumption|].
  destruct (key.Matches k (kCreate keys)); [done_same m|].
  repeat match goal with
  | |- steps _ (if ?c && _ then _ else _) =>
      destruct c; cbn [andb]
  | |- steps _ (if key.Matches ?a ?b then _ else _) =>
      destruct (key.Matches a b);
      [apply keeps_steps, handleJump_keeps; assumption|]
  end.
  all: destruct (tea.Type_ k =? tea.KeyBackspace).
  all: try (destruct (strings.len (filter m) >? 0); [|done_same m]).
  all: try (do 3 eexists; split; [reflexivity|]; split;
            [apply rebuildItems_WF | apply step_same]).
  all: destruct (tea.Type_ k =? tea.KeyRunes); [|done_same m].
  all: do 3 eexists; (split; [reflexivity|]); split;
       [apply rebuildItems_WF | apply step_same].
Qed.

Lemma handleConfirmKillMode_steps (w : World) (m : Model)
    (k : tea.KeyMsg) :
  WF m -> steps m (handleConfirmKillMode keys w m k).
Proof.
  intros Hwf. unfold handleConfirmKillMode.
  destruct (key.Matches k (kConfirm keys));
    [apply keeps_steps, killCurrent_keeps; assumption|].
  destruct (key.Matches k (kCancel keys)); done_same m.
Qed.

Lemma handleCreateMode_steps (w : World) (m : Model) (k : tea.KeyMsg) :
  WF m -> steps m (handleCreateMode keys inputUpdate w m k).
Proof.
  intros Hwf. unfold handleCreateMode.
  destruct (key.Matches k (kCancel keys)); [done_same m|].
  destruct (tea.Type_ k =? tea.KeyEnter).
  { destruct (String.eqb _ ""); [done_same m|].
    apply keeps_steps, createSession_keeps; assumption. }
  destruct (ignoredInCreate (tea.Type_ k)); [done_same m|].
  destruct (inputUpdate (input m) (KeyMsg k)) as [t cmd]. done_same m.
Qed.

Lemma handleKey_steps (w : World) (m : Model) (k : tea.KeyMsg) :
  WF m -> steps m (handleKey keys inputUpdate w m k).
Proof.
  intros Hwf. unfold handleKey. destruct (mode m).
  - now apply handleNormalMode_steps.
  - now apply handleConfirmKillMode_steps.
  - now apply handleCreateMode_steps.
Qed.

(** Every event is handled without a panic and keeps the invariant; the
    sessions change in one of the listed ways or are the fetched ones. *)
Lemma Update_steps (w : World) (m : Model) (msg : Msg) :
  WF m ->
  exists m' cmd calls,
    Update keys inputUpdate w m msg = Some (m', cmd, calls) /\ WF m' /\
    (sessionsStep (sessions m) (sessions m') \/
     msg = sessionsMsg (sessions m')).
Proof.
  intros Hwf. destruct msg as [ss|err| |k|tag]; cbn [Update].
  - do 3 eexists. split; [reflexivity|].
    match goal with
    | |- context [len (items ?r) =? 0] =>
        pose proof (rebuildItems_WF (U := U)) as Hr;
        destruct (len (items r) =? 0)
    end.
    + split; [|right; reflexivity].
      match goal with
      | |- WF (setMessage _ (rebuildItems ?x)) =>
          apply (WF_same (rebuildItems x)); try reflexivity; apply Hr
      end.
    + split; [apply Hr | right; reflexivity].
  - do 3 eexists. split; [reflexivity|]. split; [|left; apply step_same].
    apply (WF_same m); auto.
  - do 3 eexists. split; [reflexivity|]. split; [|left; apply step_same].
    apply (WF_same m); auto.
  - destruct (handleKey_steps w m k Hwf) as (m' & cmd & calls & E & H1 & H2).
    exists m', cmd, calls. auto.
  - destruct (mode m);
      try (do 3 eexists; split; [reflexivity|];
           split; [assumption | left; apply step_same]).
    destruct (inputUpdate (input m) (otherMsg tag)) as [t cmd].
    do 3 eexists. split; [reflexivity|]. split; [|left; apply step_same].
    apply (WF_same m); auto.
Qed.

Lemma New_WF (cs : string) : WF (New cs).
Proof. split; reflexivity. Qed.

Lemma run_WF (evs : list (World * Msg)) : forall m,
  WF m ->
  exists m' calls, run keys inputUpdate m evs = Some (m', calls) /\ WF m'.
Proof.
  induction evs as [|[w msg] evs IH]; intros m Hwf; cbn [run].
  - exists m, []. auto.
  - destruct (Update_steps w m msg Hwf) as (m1 & cmd & calls & -> & H1 & _).
    destruct (IH m1 H1) as (m2 & calls2 & -> & H2).
    exists m2, (calls ++ calls2). auto.
Qed.

Lemma Update_atMostOne (w : World) (m : Model) (msg : Msg) :
  WF m -> atMostOneExpanded (sessions m) -> fetched msg ->
  exists m' cmd calls,
    Update keys inputUpdate w m msg = Some (m', cmd, calls) /\ WF m' /\
    atMostOneExpanded (sessions m').
Proof.
  intros Hwf Hone Hf.
  destruct (Update_steps w m msg Hwf) as (m' & cmd & calls & E & H1 & H2).
  exists m', cmd, calls. split; [exact E|]. split; [exact H1|].
  destruct H2 as [H2| ->].
  - exact (sessionsStep_atMostOne _ _ H2 Hone).
  - apply fresh_atMostOne. exact Hf.
Qed.

Lemma run_atMostOne (evs : list (World * Msg)) : forall m,
  WF m -> atMostOneExpanded (sessions m) ->
  Forall (fun e => fetched (snd e)) evs ->
  exists m' calls,
    run keys inputUpdate m evs = Some (m', calls) /\
    atMostOneExpanded (sessions m').
Proof.
  induction evs as [|[w msg] evs IH]; intros m Hwf Hone Hall; cbn [run].
  - exists m, []. auto.
  - inversion Hall as [|e evs' Hmsg Hrest]; subst.
    destruct (Update_atMostOne w m msg Hwf Hone Hmsg)
      as (m1 & cmd & calls & -> & H1 & H1').
    destruct (IH m1 H1 H1' Hrest) as (m2 & calls2 & -> & H2).
    exists m2, (calls ++ calls2). auto.
Qed.

Lemma index_store_other {A} (l : list A) (i j : Z) (x : A) :
  0 <= i -> j <> i -> index (store l i x) j = index l j.
Proof.
  intros Hi Hne. unfold index, store.
  destruct (Z.ltb_spec j 0); [reflexivity|].
  rewrite nth_error_setNth.
  destruct (Nat.eqb_spec (Z.to_nat j) (Z.to_nat i)); [lia|reflexivity].
Qed.

(** Whatever becomes of an expansion, every session but the one under
    the cursor ends up collapsed. *)
Lemma expandCurrent_others (w : World) (m : Model) (it : Item) :
  WF m -> index (items m) (cursor m) = Some it -> IsSession it = true ->
  exists m' calls,
    expandCurrent w m = Some (m', calls) /\
    forall j s, j <> SessionIndex it ->
                index (sessions m') j = Some s -> Expanded s = false.
Proof.
  intros Hwf Hit His. unfold expandCurrent.
  pose proof (index_range _ _ _ Hit) as Hr.
  assert (Hout : cursorOut m = false).
  { unfold cursorOut. destruct (Z.ltb_spec (cursor m) 0); [lia|].
    destruct (Z.geb_spec (cursor m) (len (items m))); [lia|reflexivity]. }
  rewrite Hout, Hit, His. cbn [negb].
  destruct (WF_item m it (proj2 Hwf) Hit) as [s [Hs _]].
  pose proof (index_range _ _ _ Hs) as Hsr.
  cbn [sessions setSessions]. rewrite index_map, Hs. cbn [option_map].
  assert (Hall : forall j s0,
             index (map (fun s => setExpanded s false) (sessions m)) j
             = Some s0 -> Expanded s0 = false).
  { intros j s0 Hj. rewrite index_map in Hj.
    destruct (index (sessions m) j); [|discriminate].
    injection Hj as <-. reflexivity. }
  destruct (len (Windows (setExpanded s false)) =? 0).
  - destruct (ListWindows w (Name (setExpanded s false))) as [ws [err|]].
    + eexists _, _. split; [reflexivity|]. intros j s0 _ Hj.
      exact (Hall j s0 Hj).
    + eexists _, _. split; [reflexivity|]. intros j s0 Hne Hj.
      rewrite rebuildItems_sessions in Hj. cbn [sessions setSessions] in Hj.
      rewrite index_store_other in Hj by lia. exact (Hall j s0 Hj).
  - eexists _, _. split; [reflexivity|]. intros j s0 Hne Hj.
    rewrite rebuildItems_sessions in Hj. cbn [sessions setSessions] in Hj.
    rewrite index_store_other in Hj by lia. exact (Hall j s0 Hj).
Qed.

Lemma setCursor_same (m : Model) : setCursor (cursor m) m = m.
Proof. destruct m; reflexivity. Qed.

(** *** Which case of [handleNormalMode] a key reaches *)

Lemma jumpDigit_range (k : tea.KeyMsg) (d : Z) :
  jumpDigit keys k = Some d -> 1 <= d <= 9.
Proof.
  unfold jumpDigit.
  repeat match goal with
         | |- (if ?c then _ else _) = _ -> _ => destruct c
         end; intros E; inversion E; lia.
Qed.

Lemma normal_jump (w : World) (m : Model) (k : tea.KeyMsg) (d : Z) :
  mode m = ModeNormal -> filter m = "" ->
  actionBound keys k = false -> jumpDigit keys k = Some d ->
  Update keys inputUpdate w m (KeyMsg k) = handleJump w m d.
Proof.
  intros Hmode Hflt Hact Hd. to_normal Hmode Hact.
  rewrite Hflt. cbn [String.eqb andb]. unfold jumpDigit in Hd.
  repeat match type of Hd with
         | (if ?c then _ else _) = _ => destruct c
         end; inversion Hd; reflexivity.
Qed.

Lemma normal_text (w : World) (m : Model) (k : tea.KeyMsg) :
  mode m = ModeNormal -> actionBound keys k = false -> jumpsOff keys m k ->
  Update keys inputUpdate w m (KeyMsg k) =
  if tea.Type_ k =? tea.KeyBackspace then
    if strings.len (filter m) >? 0
    then Some (rebuildItems
                 (setFilter (strings.dropLastByte (filter m)) m),
               tea.CmdNil, [])
    else Some (m, tea.CmdNil, [])
  else if tea.Type_ k =? tea.KeyRunes then
    Some (rebuildItems
            (setFilter (filter m +s+ utf8.string_of_runes (tea.Runes k))
                       m),
          tea.CmdNil, [])
  else Some (m, tea.CmdNil, []).
Proof.
  intros Hmode Hact Hoff. to_normal Hmode Hact.
  destruct Hoff as [Hne|Hnone].
  - apply eqb_empty_false in Hne. rewrite Hne. reflexivity.
  - unfold jumpDigit in Hnone.
    repeat match type of Hnone with
           | (if ?c then _ else _) = _ =>
               destruct c; [discriminate|]
           end.
    rewrite !andb_false_r. reflexivity.
Qed.

Lemma find_existsb {A} (p : A -> bool) (l : list A) :
  match find p l with
  | Some x => p x = true /\ existsb p l = true
  | None => existsb p l = false
  end.
Proof.
  induction l as [|y l IH]; simpl; [reflexivity|].
  destruct (p y) eqn:Py; simpl; [auto|exact IH].
Qed.

(** [handleJump] switches to the target the spec names, if there is
    one. *)
Lemma handleJump_target (w : World) (m : Model) (d : Z) :
  WF m ->
  handleJump w m d =
  Some (match jumpTarget m d with
        | Some t => afterSwitch w m t
        | None => (m, tea.CmdNil, [])
        end).
Proof.
  intros Hwf. unfold handleJump, jumpTarget.
  assert (Hby :
    (if (d - 1 >=? 0) && (d - 1 <? len (sessions m))
     then session <- index (sessions m) (d - 1);
          match SwitchClient w (Name session) with
          | Some err =>
              Some (setError ("Error: " +s+ err) m, tea.CmdNil,
                    [CallSwitchClient (Name session)])
          | None => Some (m, tea.Quit, [CallSwitchClient (Name session)])
          end
     else Some (m, tea.CmdNil, [])) =
    Some (match match index (sessions m) (d - 1) with
                | Some s => Some (Name s)
                | None => None
                end with
          | Some t => afterSwitch w m t
          | None => (m, tea.CmdNil, [])
          end)).
  { destruct (index (sessions m) (d - 1)) as [s|] eqn:Hs.
    - apply index_range in Hs.
      destruct (Z.geb_spec (d - 1) 0); [|lia].
      destruct (Z.ltb_spec (d - 1) (len (sessions m))); [|lia].
      cbn [andb]. unfold afterSwitch.
      destruct (SwitchClient w (Name s)); reflexivity.
    - destruct (Z.geb_spec (d - 1) 0); [|reflexivity].
      destruct (Z.ltb_spec (d - 1) (len (sessions m))); [|reflexivity].
      destruct (index_defined (sessions m) (d - 1)) as [s Hs']; [lia|].
      congruence. }
  destruct (index (items m) (cursor m)) as [it|] eqn:Hit.
  - pose proof (index_range _ _ _ Hit) as Hr.
    destruct (Z.geb_spec (cursor m) 0); [|lia].
    destruct (Z.ltb_spec (cursor m) (len (items m))); [|lia].
    cbn [andb].
    destruct (WF_item m it (proj2 Hwf) Hit) as [s [Hs _]]. rewrite Hs.
    destruct (Expanded s); cbn [andb]; [|exact Hby].
    pose proof (find_existsb (fun win => WIndex win =? d) (Windows s))
      as Hf.
    destruct (find (fun win => WIndex win =? d) (Windows s)) as [win|].
    + destruct Hf as [Hw ->]. apply Z.eqb_eq in Hw.
      unfold windowTarget, afterSwitch. rewrite Hw.
      destruct (SwitchClient w (Name s +s+ ":" +s+ fmt.d d)); reflexivity.
    + rewrite Hf. exact Hby.
  - destruct ((cursor m >=? 0) && (cursor m <? len (items m))) eqn:Hin;
      [|exact Hby].
    apply andb_true_iff in Hin. destruct Hin as [H1 H2].
    apply Z.geb_le in H1. apply Z.ltb_lt in H2.
    destruct (index_defined (items m) (cursor m)) as [it Hit']; [lia|].
    congruence.
Qed.

End Steps.

(** ** The claims *)

Section Claims.

Context {U : Unicode}.
Variable keys : KeyMap.
Variable inputUpdate : textinput.Model -> Msg -> textinput.Model * tea.Cmd.

Arguments rebuildItems : simpl never.

Lemma cursorValid_bounds (m : Model) :
  cursorValid m -> 0 <= cursor m /\ cursor m <= Z.max 0 (len (items m) - 1).
Proof.
  unfold cursorValid. destruct (items m) as [|it its].
  - intros ->. unfold len. simpl. lia.
  - lia.
Qed.

(** C1.  The cursor is a valid row index after every event: in every
    state a run of events from the initial model reaches, and after any
    event handled in a well-formed state, [0 <= cursor < len(items)] when
    there are rows and [cursor = 0] when there are none.  Up and Down move
    by exactly one row and stop at the first and the last row; a rebuild
    puts a cursor that is too large on the last row and a negative one on
    row 0. *)
Theorem cursor_valid_after_every_event :
  (forall cs evs,
      exists m calls,
        run keys inputUpdate (New cs) evs = Some (m, calls) /\
        cursorValid m) /\
  (forall w m msg,
      WF m ->
      exists m' cmd calls,
        Update keys inputUpdate w m msg = Some (m', cmd, calls) /\
        WF m') /\
  (forall w m k,
      mode m = ModeNormal -> cursorValid m ->
      key.Matches k (kQuit keys) = false ->
      key.Matches k (kCancel keys) = false ->
      (key.Matches k (kUp keys) = true ->
       Update keys inputUpdate w m (KeyMsg k) =
       Some (setCursor (Z.max 0 (cursor m - 1)) m, tea.CmdNil, [])) /\
      (key.Matches k (kUp keys) = false ->
       key.Matches k (kDown keys) = true ->
       Update keys inputUpdate w m (KeyMsg k) =
       Some (setCursor
               (Z.max 0 (Z.min (cursor m + 1) (len (items m) - 1))) m,
             tea.CmdNil, []))) /\
  (forall m,
      let n := len (items (rebuildItems m)) in
      cursor (rebuildItems m) =
      if n =? 0 then 0
      else if cursor m >=? n then n - 1
      else if cursor m <? 0 then 0
      else cursor m).
Proof.
  split; [|split; [|split]].
  - intros cs evs.
    destruct (run_WF keys inputUpdate evs (New cs) (New_WF cs))
      as (m & calls & E & [Hc _]).
    exists m, calls. auto.
  - intros w m msg Hwf.
    destruct (Update_steps keys inputUpdate w m msg Hwf)
      as (m' & cmd & calls & E & H & _).
    exists m', cmd, calls. auto.
  - intros w m k Hmode Hc HQ HC. apply cursorValid_bounds in Hc.
    cbn [Update]. unfold handleKey, handleNormalMode.
    rewrite Hmode, HQ, HC. split.
    + intros ->. destruct (Z.gtb_spec (cursor m) 0).
      * now rewrite Z.max_r by lia.
      * replace (Z.max 0 (cursor m - 1)) with (cursor m) by lia.
        now rewrite setCursor_same.
    + intros -> ->. destruct (Z.ltb_spec (cursor m) (len (items m) - 1)).
      * now replace (Z.max 0 (Z.min (cursor m + 1) (len (items m) - 1)))
          with (cursor m + 1) by lia.
      * replace (Z.max 0 (Z.min (cursor m + 1) (len (items m) - 1)))
          with (cursor m) by lia.
        now rewrite setCursor_same.
  - intros m n. rewrite rebuildItems_cursor. fold n.
    pose proof (len_nonneg (items (rebuildItems m))) as Hn. fold n in Hn.
    unfold clampCursor.
    destruct (Z.eqb_spec n 0), (Z.geb_spec (cursor m) n).
    + destruct (Z.ltb_spec (n - 1) 0); lia.
    + destruct (Z.ltb_spec (cursor m) 0); lia.
    + destruct (Z.ltb_spec (n - 1) 0); lia.
    + reflexivity.
Qed.


(** C3.  At most one session is expanded: an event handled in a
    well-formed state with at most one expanded session leaves at most
    one expanded session, and so does every run of events from the
    initial model, the sessions of a data-fetch result arriving collapsed.
    An expansion, whether the windows can be listed or not, leaves every
    session but the one under the cursor collapsed. *)
Theorem at_most_one_session_expanded :
  (forall w m msg,
      WF m -> atMostOneExpanded (sessions m) -> fetched msg ->
      exists m' cmd calls,
        Update keys inputUpdate w m msg = Some (m', cmd, calls) /\
        atMostOneExpanded (sessions m')) /\
  (forall cs evs,
      Forall (fun e => fetched (snd e)) evs ->
      exists m calls,
        run keys inputUpdate (New cs) evs = Some (m, calls) /\
        atMostOneExpanded (sessions m)) /\
  (forall w m it,
      WF m -> index (items m) (cursor m) = Some it ->
      IsSession it = true ->
      exists m' calls,
        expandCurrent w m = Some (m', calls) /\
        forall j s, j <> SessionIndex it ->
                    index (sessions m') j = Some s ->
                    Expanded s = false).
Proof.
  split; [|split].
  - intros w m msg Hwf Hone Hf.
    destruct (Update_atMostOne keys inputUpdate w m msg Hwf Hone Hf)
      as (m' & cmd & calls & E & _ & H).
    exists m', cmd, calls. auto.
  - intros cs evs Hall.
    apply run_atMostOne; auto using New_WF.
    unfold atMostOneExpanded, countExpanded. simpl. lia.
  - intros w m it. apply expandCurrent_others.
Qed.

(** C4, as amended.  A digit key pressed in Normal mode with an empty
    filter requests a switch to window [d] of the selected row's session
    when that session is expanded and has a window with index [d];
    otherwise to the session at position [d-1] of the session sequence,
    if there is one; otherwise it does nothing.  The picker quits when
    tmux accepts the switch; when tmux refuses it the error is shown, the
    picker stays open and no second target is tried.  With windows 1, 3
    and 4 under an expanded session, digit 3 asks for that session's
    window 3. *)
Theorem jump_addressing (w : World) (m : Model) (k : tea.KeyMsg) (d : Z) :
  WF m -> mode m = ModeNormal -> filter m = "" ->
  actionBound keys k = false -> jumpDigit keys k = Some d ->
  1 <= d <= 9 /\
  Update keys inputUpdate w m (KeyMsg k) =
  Some (match jumpTarget m d with
        | Some t => afterSwitch w m t
        | None => (m, tea.CmdNil, [])
        end) /\
  (forall it s,
      index (items m) (cursor m) = Some it ->
      index (sessions m) (SessionIndex it) = Some s ->
      Expanded s = true -> map WIndex (Windows s) = [1; 3; 4] ->
      jumpTarget m 3 = Some (Name s +s+ ":3")).
Proof.
  intros Hwf Hmode Hflt Hact Hd. split; [|split].
  - exact (jumpDigit_range keys k d Hd).
  - rewrite (normal_jump keys inputUpdate w m k d Hmode Hflt Hact Hd).
    now apply handleJump_target.
  - intros it s Hit Hs Hexp Hws. unfold jumpTarget.
    rewrite Hit, Hs, Hexp. cbn [andb].
    destruct (Windows s) as [|w1 [|w2 [|w3 [|w4 ws]]]]; try discriminate.
    injection Hws as H1 H2 H3. cbn [existsb]. rewrite H1, H2.
    reflexivity.
Qed.

(** C7, as amended.  Over the sessions alpha, beta, gamma the filter "a"
    shows all three in that order.  With that filter active the digit 1
    is filter text: it is appended, the filter becomes "a1", no row is
    left and no command is sent.  With the filter empty the digit 1
    requests a switch to "alpha". *)
Theorem digit_is_text_while_filtering :
  flatten "a" 0 abg =
  [ {| IsSession := true; SessionIndex := 0; WindowIndex := 0 |};
    {| IsSession := true; SessionIndex := 1; WindowIndex := 0 |};
    {| IsSession := true; SessionIndex := 2; WindowIndex := 0 |} ] /\
  (forall w m k,
      mode m = ModeNormal -> filter m = "a" -> sessions m = abg ->
      actionBound keys k = false ->
      tea.Type_ k = tea.KeyRunes -> tea.Runes k = [49] ->
      exists m',
        Update keys inputUpdate w m (KeyMsg k)
        = Some (m', tea.CmdNil, []) /\
        filter m' = "a1" /\ items m' = []) /\
  (forall w m k,
      WF m -> mode m = ModeNormal -> filter m = "" -> sessions m = abg ->
      actionBound keys k = false -> jumpDigit keys k = Some 1 ->
      Update keys inputUpdate w m (KeyMsg k)
      = Some (afterSwitch w m "alpha")).
Proof.
  split; [reflexivity|split].
  - intros w m k Hmode Hflt Hss Hact Hty Hrunes.
    rewrite (normal_text keys inputUpdate w m k Hmode Hact)
      by (left; rewrite Hflt; discriminate).
    rewrite Hty, Hrunes, Hflt. cbn [Z.eqb tea.KeyRunes tea.KeyBackspace].
    eexists. split; [reflexivity|]. split; [reflexivity|].
    rewrite rebuildItems_items. cbn [filter sessions setFilter].
    rewrite Hss. reflexivity.
  - intros w m k Hwf Hmode Hflt Hss Hact Hd.
    rewrite (normal_jump keys inputUpdate w m k 1 Hmode Hflt Hact Hd).
    rewrite (handleJump_target w m 1 Hwf). f_equal.
    unfold jumpTarget. rewrite Hss.
    destruct (index (items m) (cursor m)) as [it|]; [|reflexivity].
    destruct (index abg (SessionIndex it)) as [s|] eqn:Hs; [|reflexivity].
    apply index_In in Hs. simpl in Hs.
    destruct Hs as [<-|[<-|[<-|[]]]]; reflexivity.
Qed.

(** C5, at the failing input.  "alpha" is expanded and shows its three
    windows; the cursor is moved to "beta"; expanding "beta" fails because
    tmux cannot list its windows.  Every session is then collapsed, and
    the rows, which were not rebuilt, still hold the three window rows of
    "alpha": window rows under a session that is not expanded. *)
Theorem failed_expand_leaves_window_rows :
  exists m calls,
    run DefaultKeyMap idleInput (New "") expandFails = Some (m, calls) /\
    forallb (fun s => negb (Expanded s)) (sessions m) = true /\
    List.filter (fun it => negb (IsSession it)) (items m) =
    [ {| IsSession := false; SessionIndex := 0; WindowIndex := 0 |};
      {| IsSession := false; SessionIndex := 0; WindowIndex := 1 |};
      {| IsSession := false; SessionIndex := 0; WindowIndex := 2 |} ] /\
    windowRowsVisible m = false.
Proof.
  do 2 eexists. split; [vm_compute; reflexivity|].
  split; [|split]; reflexivity.
Qed.

(** C6, at the failing input.  In Create mode, Enter on a name that is
    not blank sends the create command with the trimmed name; when tmux
    creates the session but refuses the switch that follows, the error is
    shown and the sessions are reloaded, and the model is otherwise left
    as it was: its mode is still Create, not Normal, and the picker does
    not quit. *)
Theorem created_but_not_switched_stays_in_create
    (w : World) (m : Model) (k : tea.KeyMsg) (name err : string) :
  mode m = ModeCreate ->
  key.Matches k (kCancel keys) = false ->
  tea.Type_ k = tea.KeyEnter ->
  strings.TrimSpace (textinput.Value (input m)) = name -> name <> "" ->
  CreateSession w name (Getenv w "HOME") = None ->
  SwitchClient w name = Some err ->
  exists m',
    Update keys inputUpdate w m (KeyMsg k) =
    Some (m', tea.loadSessions,
          [CallCreateSession name (Getenv w "HOME");
           CallSwitchClient name]) /\
    m' = setError ("Created but failed to switch: " +s+ err) m /\
    mode m' = ModeCreate.
Proof.
  intros Hmode HC Hty Hname Hne Hcreate Hswitch.
  cbn [Update]. unfold handleKey, handleCreateMode.
  rewrite Hmode, HC, Hty, Hname. cbn [Z.eqb tea.KeyEnter].
  apply eqb_empty_false in Hne. rewrite Hne.
  unfold createSession. rewrite Hcreate, Hswitch.
  eexists. split; [reflexivity|]. split; [reflexivity|]. exact Hmode.
Qed.


Lemma setExpanded_same (s : Session) :
  setExpanded s (Expanded s) = s.
Proof. destruct s; reflexivity. Qed.





(** C9, at the failing input.  In Normal mode a text key appends its
    characters to the filter and rebuilds; Backspace on an empty filter
    does nothing; Backspace on a non-empty filter cuts the last byte and
    rebuilds.  After a one-byte character that is the last character.
    After the two-byte character U+00E9 it is half of it: the filter
    keeps the lead byte 0xC3 instead of losing the character. *)
Theorem backspace_cuts_one_byte :
  (forall w m k,
      mode m = ModeNormal -> actionBound keys k = false ->
      jumpsOff keys m k -> tea.Type_ k = tea.KeyRunes ->
      Update keys inputUpdate w m (KeyMsg k) =
      Some (rebuildItems
              (setFilter (filter m +s+ utf8.string_of_runes (tea.Runes k))
                         m),
            tea.CmdNil, [])) /\
  (forall w m k,
      mode m = ModeNormal -> actionBound keys k = false ->
      jumpDigit keys k = None -> tea.Type_ k = tea.KeyBackspace ->
      filter m = "" ->
      Update keys inputUpdate w m (KeyMsg k) = Some (m, tea.CmdNil, [])) /\
  (forall w m k,
      mode m = ModeNormal -> actionBound keys k = false ->
      tea.Type_ k = tea.KeyBackspace -> filter m <> "" ->
      Update keys inputUpdate w m (KeyMsg k) =
      Some (rebuildItems (setFilter (strings.dropLastByte (filter m)) m),
            tea.CmdNil, [])) /\
  (forall f c, strings.dropLastByte (f +s+ String c "") = f) /\
  (forall f,
      strings.dropLastByte (f +s+ utf8.string_of_runes [233]) =
      f +s+ String (utf8.byte 195) "" /\
      strings.dropLastByte (f +s+ utf8.string_of_runes [233]) <> f).
Proof.
  split; [|split; [|split; [|split]]].
  - intros w m k Hmode Hact Hoff Hty.
    rewrite (normal_text keys inputUpdate w m k Hmode Hact Hoff), Hty.
    reflexivity.
  - intros w m k Hmode Hact Hnone Hty Hflt.
    rewrite (normal_text keys inputUpdate w m k Hmode Hact)
      by (right; exact Hnone).
    rewrite Hty, Hflt. reflexivity.
  - intros w m k Hmode Hact Hty Hne.
    rewrite (normal_text keys inputUpdate w m k Hmode Hact)
      by (left; exact Hne).
    rewrite Hty. cbn [Z.eqb tea.KeyBackspace].
    destruct (filter m) as [|c f]; [congruence|]. reflexivity.
  - apply dropLastByte_snoc.
  - intros f.
    assert (E : strings.dropLastByte (f +s+ utf8.string_of_runes [233]) =
                f +s+ String (utf8.byte 195) "").
    { change (utf8.string_of_runes [233])
        with (String (utf8.byte 195) "" +s+ String (utf8.byte 169) "").
      rewrite <- append_assoc. apply dropLastByte_snoc. }
    split; [exact E|]. rewrite E. intros H.
    apply (f_equal String.length) in H. rewrite length_append in H.
    simpl in H. lia.
Qed.


End Claims.

(** ** The claims at concrete inputs *)

Lemma alphaOpen_WF : WF alphaOpen.
Proof.
  split; [vm_compute; split; [discriminate|reflexivity] | reflexivity].
Qed.

Lemma listed_WF : WF listed.
Proof.
  split; [vm_compute; split; [discriminate|reflexivity] | reflexivity].
Qed.

(** Down from the first of six rows, and Up from it. *)
Lemma cursor_valid_witness :
  WF alphaOpen /\
  (exists m' cmd calls,
      @Update plainUnicode DefaultKeyMap idleInput tmuxDown alphaOpen
        (press tea.KeyRight) = Some (m', cmd, calls) /\ WF m') /\
  @Update plainUnicode DefaultKeyMap idleInput w134 alphaOpen
    (press tea.KeyDown) = Some (setCursor 1 alphaOpen, tea.CmdNil, []) /\
  @Update plainUnicode DefaultKeyMap idleInput w134 alphaOpen
    (press tea.KeyUp) = Some (setCursor 0 alphaOpen, tea.CmdNil, []).
Proof.
  destruct (@cursor_valid_after_every_event plainUnicode DefaultKeyMap
              idleInput) as (_ & Hstep & Hmove & _).
  split; [exact alphaOpen_WF|]. split; [|split].
  - apply Hstep. exact alphaOpen_WF.
  - apply (Hmove w134 alphaOpen (keyOf tea.KeyDown)); try reflexivity.
    vm_compute; split; [discriminate|reflexivity].
  - apply (Hmove w134 alphaOpen (keyOf tea.KeyUp)); try reflexivity.
    vm_compute; split; [discriminate|reflexivity].
Defined.


(** A failing expansion of "beta" while "alpha" is expanded. *)
Lemma at_most_one_witness :
  atMostOneExpanded (sessions alphaOpen) /\
  (exists m' cmd calls,
      @Update plainUnicode DefaultKeyMap idleInput tmuxDown
        (setCursor 4 alphaOpen) (press tea.KeyRight)
      = Some (m', cmd, calls) /\
      atMostOneExpanded (sessions m')).
Proof.
  assert (H1 : atMostOneExpanded (sessions alphaOpen)).
  { unfold atMostOneExpanded. vm_compute. constructor. }
  split; [exact H1|].
  apply (proj1 (@at_most_one_session_expanded plainUnicode DefaultKeyMap
                  idleInput)).
  - split; [vm_compute; split; [discriminate|reflexivity] | reflexivity].
  - exact H1.
  - exact I.
Defined.

(** C4 as stated fails: digit 3 on the expanded "alpha" asks for window 3,
    tmux refuses the switch, and the picker does not quit. *)
Lemma jump_with_refused_switch_does_not_quit :
  @Update plainUnicode DefaultKeyMap idleInput tmuxDown alphaOpen
    (KeyMsg (typed 51))
  = Some (setError "Error: no client" alphaOpen, tea.CmdNil,
          [CallSwitchClient "alpha:3"]) /\
  forall m' calls,
    @Update plainUnicode DefaultKeyMap idleInput tmuxDown alphaOpen
      (KeyMsg (typed 51)) <> Some (m', tea.Quit, calls).
Proof.
  split; [reflexivity|]. intros m' calls H. vm_compute in H. discriminate.
Qed.

Lemma jump_addressing_witness :
  1 <= 3 <= 9 /\
  @Update plainUnicode DefaultKeyMap idleInput tmuxDown alphaOpen
    (KeyMsg (typed 51)) =
  Some (match jumpTarget alphaOpen 3 with
        | Some t => afterSwitch tmuxDown alphaOpen t
        | None => (alphaOpen, tea.CmdNil, [])
        end) /\
  (forall it s,
      index (items alphaOpen) (cursor alphaOpen) = Some it ->
      index (sessions alphaOpen) (SessionIndex it) = Some s ->
      Expanded s = true -> map WIndex (Windows s) = [1; 3; 4] ->
      jumpTarget alphaOpen 3 = Some (Name s +s+ ":3")).
Proof.
  apply (@jump_addressing plainUnicode DefaultKeyMap idleInput tmuxDown
           alphaOpen (typed 51) 3); try reflexivity.
  exact alphaOpen_WF.
Defined.

Lemma created_but_not_switched_witness :
  exists m',
    @Update plainUnicode DefaultKeyMap idleInput tmuxDown creating
      (press tea.KeyEnter) =
    Some (m', tea.loadSessions,
          [CallCreateSession "dev" "/home/u"; CallSwitchClient "dev"]) /\
    m' = setError "Created but failed to switch: no client" creating /\
    mode m' = ModeCreate.
Proof.
  apply (@created_but_not_switched_stays_in_create plainUnicode DefaultKeyMap
           idleInput tmuxDown creating (keyOf tea.KeyEnter) "dev"
           "no client"); try reflexivity.
  discriminate.
Defined.

(** C7 as stated fails: with the filter "a" active the key 1, although it
    is the first jump key, sends no switch command; it extends the
    filter. *)
Lemma digit_under_filter_sends_no_switch :
  filter filteredA = "a" /\
  jumpDigit DefaultKeyMap (typed 49) = Some 1 /\
  exists m',
    @Update plainUnicode DefaultKeyMap idleInput w134 filteredA
      (KeyMsg (typed 49)) = Some (m', tea.CmdNil, []) /\
    filter m' = "a1".
Proof.
  split; [reflexivity|]. split; [reflexivity|].
  eexists. split; reflexivity.
Qed.

Lemma digit_is_text_witness :
  (exists m',
      @Update plainUnicode DefaultKeyMap idleInput w134 filteredA
        (KeyMsg (typed 49)) = Some (m', tea.CmdNil, []) /\
      filter m' = "a1" /\ items m' = []) /\
  @Update plainUnicode DefaultKeyMap idleInput w134 listed
    (KeyMsg (typed 49)) = Some (afterSwitch w134 listed "alpha").
Proof.
  destruct (@digit_is_text_while_filtering plainUnicode DefaultKeyMap
              idleInput) as (_ & Htext & Hjump).
  split.
  - apply Htext; reflexivity.
  - apply Hjump; try reflexivity. exact listed_WF.
Defined.



(** Typing U+00E9 and taking it back: one byte of the two remains. *)
Lemma backspace_cuts_one_byte_witness :
  @Update plainUnicode DefaultKeyMap idleInput w134 listed
    (KeyMsg (typed 233)) = Some (filteredE, tea.CmdNil, []) /\
  @Update plainUnicode DefaultKeyMap idleInput w134 listed
    (press tea.KeyBackspace) = Some (listed, tea.CmdNil, []) /\
  (exists m',
      @Update plainUnicode DefaultKeyMap idleInput w134 filteredE
        (press tea.KeyBackspace) = Some (m', tea.CmdNil, []) /\
      filter m' = String (utf8.byte 195) "").
Proof.
  destruct (@backspace_cuts_one_byte plainUnicode DefaultKeyMap idleInput)
    as (Htype & Hempty & Hback & _ & _).
  split; [|split].
  - rewrite (Htype w134 listed (typed 233)); try reflexivity.
    right; reflexivity.
  - apply Hempty; reflexivity.
  - eexists. split.
    + apply (Hback w134 filteredE (keyOf tea.KeyBackspace));
        try reflexivity.
      discriminate.
    + reflexivity.
Defined.


(** ** Which commands an event can send *)

(** Splits a handler equation into its branches. *)
Ltac branches :=
  repeat match goal with
         | H : context [match ?x with _ => _ end] |- _ => destruct x eqn:?
         | H : Some _ = Some _ |- _ => inversion H; subst; clear H
         | H : (_, _) = (_, _) |- _ => inversion H; subst; clear H
         | H : None = Some _ |- _ => discriminate H
         end.

Section Commands.

Context {U : Unicode}.
Variable keys : KeyMap.
Variable inputUpdate : textinput.Model -> Msg -> textinput.Model * tea.Cmd.

Arguments rebuildItems : simpl never.

Lemma expandCurrent_quiet (w : World) (m m' : Model) (calls : list Call) :
  expandCurrent w m = Some (m', calls) ->
  calls = [] \/ exists n, calls = [CallListWindows n].
Proof.
  unfold expandCurrent. intros H. branches; eauto.
Qed.

Lemma selectCurrent_quiet (w : World) (m m' : Model) cmd calls :
  selectCurrent w m = Some (m', cmd, calls) ->
  (calls = [] /\ cmd = tea.CmdNil) \/
  exists t, calls = [CallSwitchClient t] /\
            ((SwitchClient w t = None /\ cmd = tea.Quit /\ m' = m) \/
             (SwitchClient w t <> None /\ cmd = tea.CmdNil)).
Proof.
  unfold selectCurrent. intros H. branches; eauto;
    right; eexists; (split; [reflexivity|]);
    solve [left; auto | right; split; [congruence|reflexivity]].
Qed.

Lemma handleJump_quiet (w : World) (m m' : Model) (d : Z) cmd calls :
  handleJump w m d = Some (m', cmd, calls) ->
  (calls = [] /\ cmd = tea.CmdNil) \/
  exists t, calls = [CallSwitchClient t] /\
            ((SwitchClient w t = None /\ cmd = tea.Quit /\ m' = m) \/
             (SwitchClient w t <> None /\ cmd = tea.CmdNil)).
Proof.
  unfold handleJump. intros H. branches; eauto;
    right; eexists; (split; [reflexivity|]);
    solve [left; auto | right; split; [congruence|reflexivity]].
Qed.

Lemma confirmKill_quiet (m m' : Model) cmd calls :
  confirmKill m = Some (m', cmd, calls) -> calls = [] /\ cmd = tea.CmdNil.
Proof.
  unfold confirmKill. intros H. branches; auto.
Qed.

Lemma killCurrent_sends (w : World) (m m' : Model) cmd calls :
  killCurrent w m = Some (m', cmd, calls) ->
  (calls = [] /\ cmd = tea.CmdNil /\ m' = m) \/
  (exists c, calls = [c] /\ isKill c = true) /\
  cmd = tea.Batch tea.loadSessions (tea.clearMessageAfter 5) /\
  mode m' = ModeNormal /\ killTarget m' = "".
Proof.
  unfold killCurrent. intros H. branches; auto;
    right; (split; [eexists; split; reflexivity|]); auto.
Qed.

Lemma createSession_sends (w : World) (m m' : Model) name cmd calls :
  createSession w m name = Some (m', cmd, calls) ->
  (calls = [CallCreateSession name (Getenv w "HOME")] /\
   CreateSession w name (Getenv w "HOME") <> None /\
   cmd = tea.CmdNil /\ mode m' = ModeNormal) \/
  (calls = [CallCreateSession name (Getenv w "HOME");
            CallSwitchClient name] /\
   CreateSession w name (Getenv w "HOME") = None /\
   ((SwitchClient w name = None /\ cmd = tea.Quit /\ m' = m) \/
    (SwitchClient w name <> None /\ cmd = tea.loadSessions /\
     mode m' = mode m))).
Proof.
  unfold createSession. intros H. branches.
  - left. repeat split. congruence.
  - right. repeat split. right. repeat split. congruence.
  - right. repeat split. left. auto.
Qed.

Lemma handleNormalMode_outcome (w : World) (m m' : Model) k cmd calls :
  handleNormalMode keys w m k = Some (m', cmd, calls) ->
  (cmd = tea.Quit /\ calls = [] /\ m' = m /\
   (key.Matches k (kQuit keys) = true \/
    (key.Matches k (kCancel keys) = true /\ filter m = ""))) \/
  (exists t, calls = [CallSwitchClient t] /\ SwitchClient w t = None /\
             cmd = tea.Quit /\ m' = m) \/
  (exists t, calls = [CallSwitchClient t] /\ SwitchClient w t <> None /\
             cmd = tea.CmdNil) \/
  (exists n, calls = [CallListWindows n] /\ cmd = tea.CmdNil) \/
  (calls = [] /\ (cmd = tea.CmdNil \/ cmd = tea.Blink)).
Proof.
  unfold handleNormalMode. intros H. branches;
    repeat match goal with
           | p : (Model * list Call)%type |- _ => destruct p
           | E : selectCurrent _ _ = Some _ |- _ =>
               apply selectCurrent_quiet in E
           | E : handleJump _ _ _ = Some _ |- _ =>
               apply handleJump_quiet in E
           | E : confirmKill _ = Some _ |- _ =>
               apply confirmKill_quiet in E
           | E : expandCurrent _ _ = Some _ |- _ =>
               apply expandCurrent_quiet in E
           | E : _ \/ _ |- _ => destruct E
           | E : _ /\ _ |- _ => destruct E
           | E : exists _, _ |- _ => destruct E
           end; subst; cbn [fst snd];
    try solve [ left; repeat split; auto
              | left; repeat split; right; split; auto;
                match goal with
                | E : negb (String.eqb ?f "") = false |- _ =>
                    apply negb_false_iff, String.eqb_eq in E; exact E
                end
              | right; left; eexists; repeat split; auto
              | right; right; left; eexists; repeat split; auto
              | right; right; right; left; eexists; repeat split; auto
              | right; right; right; right; split; auto ].
Qed.

Lemma handleConfirmKillMode_outcome (w : World) (m m' : Model) k cmd calls :
  handleConfirmKillMode keys w m k = Some (m', cmd, calls) ->
  (calls = [] /\ cmd = tea.CmdNil) \/
  (key.Matches k (kConfirm keys) = true /\
   (exists c, calls = [c] /\ isKill c = true) /\
   cmd = tea.Batch tea.loadSessions (tea.clearMessageAfter 5) /\
   mode m' = ModeNormal /\ killTarget m' = "").
Proof.
  unfold handleConfirmKillMode. intros H.
  destruct (key.Matches k (kConfirm keys)).
  - apply killCurrent_sends in H. destruct H as [(-> & -> & _)|H]; auto.
  - branches; auto.
Qed.

Lemma handleCreateMode_outcome (w : World) (m m' : Model) k cmd calls :
  handleCreateMode keys inputUpdate w m k = Some (m', cmd, calls) ->
  calls = [] \/
  (tea.Type_ k = tea.KeyEnter /\
   strings.TrimSpace (textinput.Value (input m)) <> "" /\
   createSession w m (strings.TrimSpace (textinput.Value (input m)))
   = Some (m', cmd, calls)).
Proof.
  unfold handleCreateMode. intros H.
  destruct (key.Matches k (kCancel keys)); [branches; auto|].
  destruct (Z.eqb_spec (tea.Type_ k) tea.KeyEnter) as [Hty|_].
  - destruct (String.eqb_spec
                (strings.TrimSpace (textinput.Value (input m))) "")
      as [_|Hne]; [branches; auto|].
    right. auto.
  - branches; auto.
Qed.

(** What an event sends, by the mode it is handled in. *)
Lemma Update_sends (w : World) (m m' : Model) msg cmd calls :
  Update keys inputUpdate w m msg = Some (m', cmd, calls) ->
  calls = [] \/
  (mode m = ModeNormal /\
   ((exists n, calls = [CallListWindows n]) \/
    (exists t, calls = [CallSwitchClient t]))) \/
  (mode m = ModeConfirmKill /\
   (exists k, msg = KeyMsg k /\ key.Matches k (kConfirm keys) = true) /\
   (exists c, calls = [c] /\ isKill c = true) /\
   cmd = tea.Batch tea.loadSessions (tea.clearMessageAfter 5) /\
   mode m' = ModeNormal /\ killTarget m' = "") \/
  (mode m = ModeCreate /\
   (exists k, msg = KeyMsg k /\ tea.Type_ k = tea.KeyEnter) /\
   strings.TrimSpace (textinput.Value (input m)) <> "" /\
   createSession w m (strings.TrimSpace (textinput.Value (input m)))
   = Some (m', cmd, calls)).
Proof.
  destruct msg as [ss|err| |k|tag]; cbn [Update]; intros H;
    try (branches; left; reflexivity).
  unfold handleKey in H. destruct (mode m) eqn:Hmode.
  - apply handleNormalMode_outcome in H.
    destruct H as [(_ & -> & _)|[(t & -> & _)|[(t & -> & _)|[(n & -> & _)|
                   (-> & _)]]]]; eauto 6.
  - apply handleConfirmKillMode_outcome in H.
    destruct H as [(-> & _)|(HC & Hc & H)]; [auto|].
    right. right. left. split; [reflexivity|]. split; [eauto|]. auto.
  - apply handleCreateMode_outcome in H.
    destruct H as [->|(Hty & Hne & H)]; [auto|].
    right. right. right. split; [reflexivity|]. split; [eauto|]. auto.
Qed.

End Commands.

Section CommandSafety.

Context {U : Unicode}.
Variable keys : KeyMap.
Variable inputUpdate : textinput.Model -> Msg -> textinput.Model * tea.Cmd.

Lemma killCurrent_row (w : World) (m m' : Model) cmd c calls :
  killCurrent w m = Some (m', cmd, calls) -> In c calls ->
  exists it s,
    index (items m) (cursor m) = Some it /\
    index (sessions m) (SessionIndex it) = Some s /\
    if IsSession it then c = CallKillSession (Name s)
    else exists win,
        index (Windows s) (WindowIndex it) = Some win /\
        c = CallKillWindow (Name s) (WIndex win).
Proof.
  unfold killCurrent. intros H Hin. branches; simpl in Hin;
    try contradiction; destruct Hin as [<-|[]];
    do 2 eexists; (split; [reflexivity|]); (split; [eassumption|]);
    match goal with E : IsSession _ = _ |- _ => rewrite E end; eauto.
Qed.

(** X1.  A kill command is sent only by the confirm key in Confirm mode:
    whenever an event sends a kill, the model was in Confirm mode, the
    event was a key matching the confirm binding, the kill is the only
    command sent and is the kill of the row under the cursor (the session,
    or the window by its tmux index), and the model is back in Normal mode
    with the kill target cleared and a reload and a message-clear tick
    scheduled. *)
Theorem kill_only_on_confirm
    (w : World) (m m' : Model) (msg : Msg) (cmd : tea.Cmd)
    (calls : list Call) (c : Call) :
  Update keys inputUpdate w m msg = Some (m', cmd, calls) ->
  In c calls -> isKill c = true ->
  mode m = ModeConfirmKill /\
  (exists k, msg = KeyMsg k /\ key.Matches k (kConfirm keys) = true) /\
  calls = [c] /\
  (exists it s,
      index (items m) (cursor m) = Some it /\
      index (sessions m) (SessionIndex it) = Some s /\
      if IsSession it then c = CallKillSession (Name s)
      else exists win,
          index (Windows s) (WindowIndex it) = Some win /\
          c = CallKillWindow (Name s) (WIndex win)) /\
  mode m' = ModeNormal /\ killTarget m' = "" /\
  cmd = tea.Batch tea.loadSessions (tea.clearMessageAfter 5).
Proof.
  intros H Hin Hkill. pose proof (Update_sends keys inputUpdate _ _ _ _ _ _ H)
    as Hs.
  destruct Hs as [->|[(_ & [(n & ->)|(t & ->)])|[Hc|Hcr]]].
  - simpl in Hin; destruct Hin.
  - simpl in Hin; destruct Hin as [<-|[]]. discriminate.
  - simpl in Hin; destruct Hin as [<-|[]]. discriminate.
  - destruct Hc as (Hmode & (k & -> & HC) & (c0 & -> & _) & -> & Hm' & Ht).
    simpl in Hin; destruct Hin as [->|[]].
    split; [exact Hmode|]. split; [eauto|]. split; [reflexivity|].
    split; [|auto].
    cbn [Update] in H. unfold handleKey, handleConfirmKillMode in H.
    rewrite Hmode, HC in H.
    apply (killCurrent_row w m m' _ c [c] H). left; reflexivity.
  - destruct Hcr as (_ & _ & _ & Hcr). apply createSession_sends in Hcr.
    destruct Hcr as [(-> & _)|(-> & _)]; simpl in Hin;
      repeat (destruct Hin as [<-|Hin]; [discriminate|]); destruct Hin.
Qed.

(** X2.  A create command is sent only by Enter in Create mode, and only
    with the trimmed text of the input as the session name, which is then
    not empty; the directory sent is the value of HOME. *)
Theorem create_only_trimmed_name
    (w : World) (m m' : Model) (msg : Msg) (cmd : tea.Cmd)
    (calls : list Call) (name dir : string) :
  Update keys inputUpdate w m msg = Some (m', cmd, calls) ->
  In (CallCreateSession name dir) calls ->
  mode m = ModeCreate /\
  (exists k, msg = KeyMsg k /\ tea.Type_ k = tea.KeyEnter) /\
  name = strings.TrimSpace (textinput.Value (input m)) /\
  name <> "" /\ dir = Getenv w "HOME" /\
  (calls = [CallCreateSession name dir] \/
   calls = [CallCreateSession name dir; CallSwitchClient name]).
Proof.
  intros H Hin. pose proof (Update_sends keys inputUpdate _ _ _ _ _ _ H)
    as Hs.
  destruct Hs as [->|[(_ & [(n & ->)|(t & ->)])|[Hc|Hcr]]].
  - simpl in Hin; destruct Hin.
  - simpl in Hin; destruct Hin as [E|[]]. discriminate.
  - simpl in Hin; destruct Hin as [E|[]]. discriminate.
  - destruct Hc as (_ & _ & (c0 & -> & Hk) & _).
    simpl in Hin; destruct Hin as [E|[]]. subst c0. discriminate Hk.
  - destruct Hcr as (Hmode & Hk & Hne & Hcr).
    apply createSession_sends in Hcr.
    destruct Hcr as [(-> & _)|(-> & _)]; simpl in Hin.
    + destruct Hin as [E|[]]. injection E as <- <-. auto 10.
    + destruct Hin as [E|[E|[]]]; [|discriminate].
      injection E as <- <-. auto 10.
Qed.

(** X3.  The picker quits in three ways only: by the quit key, or the
    cancel key with no filter active, in Normal mode, sending nothing; by a
    switch that tmux accepts (the last command of the event), never in
    Confirm mode; or because the text input of Create mode asks for it.  In
    the first two the model is left untouched.  No event makes the picker
    quit in Confirm mode. *)
Theorem quit_only_by_key_or_switch
    (w : World) (m m' : Model) (msg : Msg) (calls : list Call) :
  Update keys inputUpdate w m msg = Some (m', tea.Quit, calls) ->
  mode m <> ModeConfirmKill /\
  ((mode m = ModeNormal /\ calls = [] /\ m' = m /\
    exists k, msg = KeyMsg k /\
              (key.Matches k (kQuit keys) = true \/
               (key.Matches k (kCancel keys) = true /\ filter m = ""))) \/
   (m' = m /\
    exists pre t, calls = pre ++ [CallSwitchClient t] /\
                  SwitchClient w t = None) \/
   (mode m = ModeCreate /\ calls = [] /\
    snd (inputUpdate (input m) msg) = tea.Quit)).
Proof.
  intros H. destruct msg as [ss|err| |k|tag]; cbn [Update] in H.
  - branches.
  - branches.
  - branches.
  - unfold handleKey in H. destruct (mode m) eqn:Hmode.
    + split; [discriminate|]. apply handleNormalMode_outcome in H.
      destruct H as [(_ & -> & -> & Hk)|[(t & -> & Ht & _ & ->)|
                     [(t & _ & _ & E)|[(n & _ & E)|(_ & [E|E])]]]];
        try discriminate.
      * left. eauto 10.
      * right. left. split; [reflexivity|]. exists [], t. auto.
    + apply handleConfirmKillMode_outcome in H.
      destruct H as [(_ & E)|(_ & _ & E & _)]; discriminate.
    + split; [discriminate|]. unfold handleCreateMode in H.
      destruct (key.Matches k (kCancel keys)); [branches|].
      destruct (tea.Type_ k =? tea.KeyEnter).
      * destruct (String.eqb _ ""); [branches|].
        apply createSession_sends in H.
        destruct H as [(_ & _ & E & _)|(-> & _ & [(Hs & _ & ->)|(_ & E & _)])];
          try discriminate.
        right. left. split; [reflexivity|].
        eexists [_], _. split; [reflexivity|exact Hs].
      * destruct (ignoredInCreate (tea.Type_ k)); [branches|].
        right. right. destruct (inputUpdate (input m) (KeyMsg k)) eqn:E.
        branches. auto.
  - destruct (mode m) eqn:Hmode; try (branches; fail).
    split; [discriminate|]. right. right.
    destruct (inputUpdate (input m) (otherMsg tag)) eqn:E. branches. auto.
Qed.

End CommandSafety.

(** ** What an event changes *)

Section Effects.

Context {U : Unicode}.
Variable keys : KeyMap.
Variable inputUpdate : textinput.Model -> Msg -> textinput.Model * tea.Cmd.

Arguments rebuildItems : simpl never.

Lemma rebuildItems_rowsCurrent (m : Model) : rowsCurrent (rebuildItems m).
Proof.
  unfold rowsCurrent.
  now rewrite rebuildItems_items, rebuildItems_filter, rebuildItems_sessions.
Qed.

Lemma rebuildItems_maxNameWidth (m : Model) :
  maxNameWidth (rebuildItems m) = maxNameWidth m.
Proof. reflexivity. Qed.

Lemma selectCurrent_frame (w : World) (m m' : Model) cmd calls :
  selectCurrent w m = Some (m', cmd, calls) -> frame m m'.
Proof.
  unfold selectCurrent, frame. intros H. branches; auto.
Qed.

Lemma confirmKill_frame (m m' : Model) cmd calls :
  confirmKill m = Some (m', cmd, calls) -> frame m m'.
Proof.
  unfold confirmKill, frame. intros H. branches; auto.
Qed.

Lemma killCurrent_frame (w : World) (m m' : Model) cmd calls :
  killCurrent w m = Some (m', cmd, calls) -> frame m m'.
Proof.
  unfold killCurrent, frame. intros H. branches; auto.
Qed.

Lemma createSession_frame (w : World) (m m' : Model) name cmd calls :
  createSession w m name = Some (m', cmd, calls) -> frame m m'.
Proof.
  unfold createSession, frame. intros H. branches; auto.
Qed.

Lemma handleJump_frame (w : World) (m m' : Model) d cmd calls :
  handleJump w m d = Some (m', cmd, calls) -> frame m m'.
Proof.
  unfold handleJump, frame. intros H. branches; auto.
Qed.

Lemma frame_effect (w : World) (m m' : Model) calls :
  frame m m' -> effect w m m' calls.
Proof. intros (H1 & H2 & H3 & H4). split; auto. Qed.

Lemma len_zero_nil {A} (l : list A) : (len l =? 0) = true -> l = [].
Proof. intros H. apply Z.eqb_eq in H. now apply len_nil_iff. Qed.

Lemma expandCurrent_effect (w : World) (m m' : Model) calls :
  mode m = ModeNormal ->
  expandCurrent w m = Some (m', calls) -> effect w m m' calls.
Proof.
  intros Hmode. unfold expandCurrent. intros H. branches.
  - apply frame_effect. repeat split.
  - apply frame_effect. repeat split.
  - split; [reflexivity|]. right. right. right.
    repeat (split; [solve [auto]|]). eexists. split; [reflexivity|].
    match goal with E : ListWindows _ _ = _ |- _ => rewrite E end.
    discriminate.
  - split; [reflexivity|]. right. left.
    split; [apply rebuildItems_rowsCurrent|].
    rewrite rebuildItems_sessions. cbn [sessions setSessions] in *.
    match goal with
    | E : index (map _ _) _ = Some _ |- _ =>
        rewrite index_map in E;
        destruct (index (sessions m) (SessionIndex i)) as [s0|] eqn:Hs;
        [|discriminate]; injection E as <-
    end.
    match goal with
    | E : (len _ =? 0) = true |- _ => apply len_zero_nil in E
    end.
    apply (edit_expand _ _ s0 l Hs). right. assumption.
  - split; [reflexivity|]. right. left.
    split; [apply rebuildItems_rowsCurrent|].
    rewrite rebuildItems_sessions. cbn [sessions setSessions] in *.
    match goal with
    | E : index (map _ _) _ = Some _ |- _ =>
        rewrite index_map in E;
        destruct (index (sessions m) (SessionIndex i)) as [s0|] eqn:Hs;
        [|discriminate]; injection E as <-
    end.
    apply (edit_expand _ _ s0 (Windows s0) Hs). left. reflexivity.
Qed.

Lemma collapseCurrent_effect (w : World) (m m' : Model) :
  collapseCurrent m = Some m' -> effect w m m' [].
Proof.
  unfold collapseCurrent. intros H. branches;
    try (apply frame_effect; repeat split; fail);
    (split; [reflexivity|]); right; left;
    (split; [apply rebuildItems_rowsCurrent|]);
    rewrite rebuildItems_sessions; cbn [sessions setSessions setCursor] in *;
    now apply edit_collapse.
Qed.

Lemma handleNormalMode_effect (w : World) (m m' : Model) k cmd calls :
  mode m = ModeNormal ->
  handleNormalMode keys w m k = Some (m', cmd, calls) ->
  effect w m m' calls.
Proof.
  intros Hmode. unfold handleNormalMode. intros H. branches;
    repeat match goal with
           | p : (Model * list Call)%type |- _ => destruct p
           end; cbn [fst snd];
    try match goal with
        | E : selectCurrent _ _ = Some _ |- _ =>
            apply selectCurrent_frame in E; now apply frame_effect
        | E : handleJump _ _ _ = Some _ |- _ =>
            apply handleJump_frame in E; now apply frame_effect
        | E : confirmKill _ = Some _ |- _ =>
            apply confirmKill_frame in E; now apply frame_effect
        | E : expandCurrent _ _ = Some _ |- _ =>
            now apply expandCurrent_effect
        | E : collapseCurrent _ = Some _ |- _ =>
            now apply collapseCurrent_effect
        end;
    try (apply frame_effect; repeat split; fail);
    try (split; [reflexivity|]; right; left;
         split; [apply rebuildItems_rowsCurrent | apply edit_none]; fail).
  split; [reflexivity|]. right. right. left. repeat split. exact Hmode.
Qed.

Lemma handleKey_effect (w : World) (m m' : Model) k cmd calls :
  handleKey keys inputUpdate w m k = Some (m', cmd, calls) ->
  effect w m m' calls.
Proof.
  unfold handleKey. destruct (mode m) eqn:Hmode; intros H.
  - now apply (handleNormalMode_effect w m m' k cmd).
  - unfold handleConfirmKillMode in H. apply frame_effect.
    destruct (key.Matches k (kConfirm keys)).
    + now apply killCurrent_frame in H.
    + branches; repeat split.
  - unfold handleCreateMode in H. apply frame_effect.
    destruct (key.Matches k (kCancel keys)); [branches; repeat split|].
    destruct (tea.Type_ k =? tea.KeyEnter).
    + destruct (String.eqb _ ""); [branches; repeat split|].
      now apply createSession_frame in H.
    + branches; repeat split.
Qed.

End Effects.

Section Invariants.

Context {U : Unicode}.
Variable keys : KeyMap.
Variable inputUpdate : textinput.Model -> Msg -> textinput.Model * tea.Cmd.

Arguments rebuildItems : simpl never.

(** A property every event keeps from well-formed states holds along
    every run. *)
Lemma run_keeps (P : Model -> Prop) :
  (forall w m msg m' cmd calls,
      WF m -> P m ->
      Update keys inputUpdate w m msg = Some (m', cmd, calls) -> P m') ->
  forall evs m,
    WF m -> P m ->
    exists m' calls,
      run keys inputUpdate m evs = Some (m', calls) /\ WF m' /\ P m'.
Proof.
  intros Hstep. induction evs as [|[w msg] evs IH]; intros m Hwf HP;
    cbn [run].
  - exists m, []. auto.
  - destruct (Update_steps keys inputUpdate w m msg Hwf)
      as (m1 & cmd & calls & E & H1 & _).
    rewrite E. pose proof (Hstep _ _ _ _ _ _ Hwf HP E) as HP1.
    destruct (IH m1 H1 HP1) as (m2 & calls2 & -> & H2 & HP2).
    exists m2, (calls ++ calls2). auto.
Qed.

Lemma rowsCurrent_frame (m m' : Model) :
  items m' = items m -> sessions m' = sessions m -> filter m' = filter m ->
  rowsCurrent m -> rowsCurrent m'.
Proof. unfold rowsCurrent. intros -> -> ->. auto. Qed.

(** X4.  The rows are kept up to date by every event but two: from a
    well-formed state whose rows are what a rebuild would produce, an event
    is handled and leaves such rows again, unless it is the create key
    pressed in Normal mode while a filter is active (the filter is dropped
    without a rebuild), or a key of Normal mode whose expansion failed to
    list the windows (every session is collapsed without a rebuild). *)
Theorem rows_current_but_for_two (w : World) (m : Model) (msg : Msg) :
  WF m -> rowsCurrent m ->
  exists m' cmd calls,
    Update keys inputUpdate w m msg = Some (m', cmd, calls) /\
    (rowsCurrent m' \/
     (mode m = ModeNormal /\ mode m' = ModeCreate /\ filter m <> "" /\
      filter m' = "" /\ items m' = items m) \/
     (mode m = ModeNormal /\ items m' = items m /\
      sessions m' = collapseAll (sessions m) /\
      exists n, calls = [CallListWindows n] /\
                snd (ListWindows w n) <> None)).
Proof.
  intros Hwf Hrows.
  destruct (Update_steps keys inputUpdate w m msg Hwf)
    as (m' & cmd & calls & E & _ & _).
  exists m', cmd, calls. split; [exact E|].
  destruct msg as [ss|err| |k|tag]; cbn [Update] in E.
  - left. branches; [|apply rebuildItems_rowsCurrent].
    eapply rowsCurrent_frame; [| | |apply rebuildItems_rowsCurrent];
      reflexivity.
  - left. branches. now apply (rowsCurrent_frame m).
  - left. branches. now apply (rowsCurrent_frame m).
  - apply handleKey_effect in E.
    destruct E as (_ & [(H1 & H2 & H3)|[(H1 & _)|[H|H]]]).
    + left. now apply (rowsCurrent_frame m).
    + left. exact H1.
    + destruct H as (Hm & Hm' & Hi & Hs & Hf).
      destruct (String.eqb_spec (filter m) "") as [E0|Hne].
      * left. apply (rowsCurrent_frame m); auto. congruence.
      * right. left. auto.
    + destruct H as (Hm & Hi & Hf & Hs & Hn). right. right. auto.
  - left. branches;
      (eapply rowsCurrent_frame; [| | |eassumption]; reflexivity).
Qed.

Lemma widthFold_names (ss : list Session) : forall a,
  fold_left (fun w s => if strings.len (Name s) >? w
                        then strings.len (Name s) else w) ss a =
  fold_left (fun w n => if strings.len n >? w then strings.len n else w)
            (map Name ss) a.
Proof. induction ss as [|s ss IH]; intros a; simpl; auto. Qed.

Lemma widthFold_bounds (ns : list string) : forall a,
  let r := fold_left (fun w n => if strings.len n >? w
                                 then strings.len n else w) ns a in
  a <= r /\ (forall n, In n ns -> strings.len n <= r) /\
  (r = a \/ exists n, In n ns /\ strings.len n = r).
Proof.
  induction ns as [|n0 ns IH]; intros a; simpl.
  - split; [lia|]. split; [intros n []|]. left; reflexivity.
  - destruct (Z.gtb_spec (strings.len n0) a) as [Hgt|Hle].
    + destruct (IH (strings.len n0)) as (H1 & H2 & H3). simpl in *.
      split; [lia|]. split.
      * intros n [<-|Hin]; [exact H1|auto].
      * right. destruct H3 as [->|(n & Hin & Hn)]; eauto.
    + destruct (IH a) as (H1 & H2 & H3). simpl in *.
      split; [lia|]. split.
      * intros n [<-|Hin]; [lia|auto].
      * destruct H3 as [H3|(n & Hin & Hn)]; eauto.
Qed.

Lemma map_Name_store (l : list Session) (i : Z) (s x : Session) :
  index l i = Some s -> Name x = Name s ->
  map Name (store l i x) = map Name l.
Proof.
  unfold index, store. destruct (i <? 0); [discriminate|].
  generalize (Z.to_nat i). intros n. revert n.
  induction l as [|y l IH]; intros [|n] H Hn; simpl in *;
    try discriminate; try reflexivity.
  - injection H as ->. now rewrite Hn.
  - now rewrite (IH n).
Qed.

Lemma sessionsEdit_names (ss ss' : list Session) :
  sessionsEdit ss ss' -> map Name ss' = map Name ss.
Proof.
  intros [| |i s ws Hs _|i s Hs].
  - reflexivity.
  - now rewrite map_map.
  - rewrite (map_Name_store _ i (setExpanded s false)).
    + now rewrite map_map.
    + now rewrite index_map, Hs.
    + reflexivity.
  - now apply (map_Name_store _ i s).
Qed.

(** X5.  The name column is always as wide as the longest session name,
    counted in bytes: in every state a run of events from the initial model
    reaches, computing the width again changes nothing, no name is longer
    than the width, and the width is 0 or the length of one of the
    names. *)
Theorem name_width_is_longest_name (cs : string)
    (evs : list (World * Msg)) :
  exists m calls,
    run keys inputUpdate (New cs) evs = Some (m, calls) /\
    widthCurrent m /\
    (forall s, In s (sessions m) ->
               strings.len (Name s) <= maxNameWidth m) /\
    (maxNameWidth m = 0 \/
     exists s, In s (sessions m) /\
               strings.len (Name s) = maxNameWidth m).
Proof.
  destruct (run_keeps widthCurrent) with (evs := evs) (m := New cs)
    as (m & calls & E & _ & Hw).
  - intros w m msg m' cmd calls _ Hw E. unfold widthCurrent in *.
    destruct msg as [ss|err| |k|tag]; cbn [Update] in E.
    + branches; reflexivity.
    + branches. exact Hw.
    + branches. exact Hw.
    + apply handleKey_effect in E. destruct E as (Hmax & Hcases).
      rewrite Hmax, <- Hw.
      unfold calculateColumnWidths. cbn [maxNameWidth setMaxNameWidth].
      rewrite !widthFold_names. f_equal.
      destruct Hcases as [(_ & -> & _)|[(_ & He)|[(_ & _ & _ & -> & _)|
                          (_ & _ & _ & -> & _)]]]; auto.
      * now apply sessionsEdit_names.
      * unfold collapseAll. now rewrite map_map.
    + branches; exact Hw.
  - apply New_WF.
  - reflexivity.
  - exists m, calls. split; [exact E|]. split; [exact Hw|].
    unfold widthCurrent, calculateColumnWidths in Hw.
    cbn [maxNameWidth setMaxNameWidth] in Hw. rewrite widthFold_names in Hw.
    destruct (widthFold_bounds (map Name (sessions m)) 0)
      as (_ & H2 & H3). simpl in H2, H3. rewrite Hw in H2, H3. split.
    + intros s Hin. apply H2. now apply in_map.
    + destruct H3 as [H3|(n & Hin & Hn)]; [left; auto|].
      apply in_map_iff in Hin. destruct Hin as (s & <- & Hin). eauto.
Qed.

Lemma index_store (A : Type) (l : list A) (i j : Z) (x : A) :
  0 <= i ->
  index (store l i x) j =
  if j =? i then match index l j with
                 | Some _ => Some x
                 | None => None
                 end
  else index l j.
Proof.
  intros Hi. unfold index, store. destruct (Z.ltb_spec j 0).
  - destruct (Z.eqb_spec j i); [lia|reflexivity].
  - rewrite nth_error_setNth.
    destruct (Z.eqb_spec j i) as [->|Hne].
    + now rewrite Nat.eqb_refl.
    + destruct (Nat.eqb_spec (Z.to_nat j) (Z.to_nat i)); [lia|reflexivity].
Qed.

Lemma len_store (A : Type) (l : list A) (i : Z) (x : A) :
  len (store l i x) = len l.
Proof. unfold len, store. now rewrite length_setNth. Qed.

Lemma sessionsEdit_pointwise (ss ss' : list Session) :
  sessionsEdit ss ss' ->
  len ss' = len ss /\
  forall i s,
    index ss i = Some s ->
    exists s',
      index ss' i = Some s' /\ Name s' = Name s /\
      LastActivity s' = LastActivity s /\
      (Windows s <> [] -> Windows s' = Windows s).
Proof.
  intros [| |i0 s0 ws Hs0 Hws|i0 s0 Hs0].
  - split; [reflexivity|]. intros i s Hs. exists s. auto.
  - split; [unfold len; now rewrite length_map|]. intros i s Hs.
    exists (setExpanded s false). rewrite index_map, Hs. auto.
  - split; [rewrite len_store; unfold len; now rewrite length_map|].
    intros i s Hs. pose proof (index_range _ _ _ Hs0) as Hr.
    rewrite index_store, index_map, Hs by lia. cbn [option_map].
    destruct (Z.eqb_spec i i0) as [->|Hne].
    + rewrite Hs0 in Hs. injection Hs as <-. eexists. split; [reflexivity|].
      repeat split. cbn [Windows setExpanded setWindows].
      destruct Hws as [-> | ->]; [auto|congruence].
    + exists (setExpanded s false). auto.
  - split; [apply len_store|]. intros i s Hs.
    pose proof (index_range _ _ _ Hs0) as Hr.
    rewrite index_store, Hs by lia.
    destruct (Z.eqb_spec i i0) as [->|Hne].
    + rewrite Hs0 in Hs. injection Hs as <-. eexists. split; [reflexivity|].
      auto.
    + exists s. auto.
Qed.

(** X6.  Only a data-fetch result changes which sessions there are: any
    other event leaves the number of sessions, and at every position the
    name and the activity time, as they were, and leaves the windows of a
    session alone once it has any.  Loaded windows are therefore never
    refreshed by a key press. *)
Theorem sessions_kept_until_refresh
    (w : World) (m m' : Model) (msg : Msg) (cmd : tea.Cmd)
    (calls : list Call) :
  Update keys inputUpdate w m msg = Some (m', cmd, calls) ->
  (forall ss, msg <> sessionsMsg ss) ->
  len (sessions m') = len (sessions m) /\
  forall i s,
    index (sessions m) i = Some s ->
    exists s',
      index (sessions m') i = Some s' /\ Name s' = Name s /\
      LastActivity s' = LastActivity s /\
      (Windows s <> [] -> Windows s' = Windows s).
Proof.
  intros E Hmsg.
  assert (He : sessionsEdit (sessions m) (sessions m')).
  { destruct msg as [ss|err| |k|tag]; cbn [Update] in E.
    - destruct (Hmsg ss eq_refl).
    - branches. apply edit_none.
    - branches. apply edit_none.
    - apply handleKey_effect in E.
      destruct E as (_ & [(_ & -> & _)|[(_ & He)|[(_ & _ & _ & -> & _)|
                     (_ & _ & _ & -> & _)]]]);
        auto using edit_none, edit_collapseAll.
    - branches; apply edit_none. }
  now apply sessionsEdit_pointwise.
Qed.

Lemma expandCurrent_lists (w : World) (m m' : Model) calls n :
  expandCurrent w m = Some (m', calls) -> In (CallListWindows n) calls ->
  calls = [CallListWindows n] /\
  exists it s,
    index (items m) (cursor m) = Some it /\ IsSession it = true /\
    index (sessions m) (SessionIndex it) = Some s /\
    Name s = n /\ Windows s = [].
Proof.
  unfold expandCurrent. intros H Hin. branches; simpl in Hin;
    try contradiction; destruct Hin as [Hin|[]]; injection Hin as <-;
    cbn [sessions setSessions] in *;
    match goal with
    | E : index (map _ (sessions m)) (SessionIndex ?it) = Some _,
      E1 : (len _ =? 0) = true,
      E2 : negb (IsSession ?it) = false |- _ =>
        rewrite index_map in E;
        let sx := fresh "sx" in
        destruct (index (sessions m) (SessionIndex it)) as [sx|] eqn:Hs;
        [|discriminate]; injection E as <-;
        apply len_zero_nil in E1; apply negb_false_iff in E2;
        (split; [reflexivity|]); exists it, sx; repeat split; auto
    end.
Qed.

(** X7.  The windows of a session are listed only when they are needed
    and missing: an event sends a list-windows command only in Normal mode,
    only for the session whose own row is under the cursor, only when that
    session has no windows loaded, and then it sends nothing else. *)
Theorem windows_listed_only_when_missing
    (w : World) (m m' : Model) (msg : Msg) (cmd : tea.Cmd)
    (calls : list Call) (n : string) :
  Update keys inputUpdate w m msg = Some (m', cmd, calls) ->
  In (CallListWindows n) calls ->
  mode m = ModeNormal /\ calls = [CallListWindows n] /\
  exists it s,
    index (items m) (cursor m) = Some it /\ IsSession it = true /\
    index (sessions m) (SessionIndex it) = Some s /\
    Name s = n /\ Windows s = [].
Proof.
  intros E Hin.
  pose proof (Update_sends keys inputUpdate _ _ _ _ _ _ E) as Hs.
  destruct Hs as [->|[(Hmode & Hn)|[Hc|Hcr]]].
  - destruct Hin.
  - split; [exact Hmode|].
    destruct msg as [ss|err| |k|tag]; cbn [Update] in E;
      try (branches; simpl in Hin; contradiction).
    unfold handleKey in E. rewrite Hmode in E.
    unfold handleNormalMode in E. branches;
      repeat match goal with
             | p : (Model * list Call)%type |- _ => destruct p
             end; cbn [fst snd] in *;
      try (simpl in Hin; contradiction);
      try match goal with
          | E0 : expandCurrent _ _ = Some _ |- _ =>
              now apply (expandCurrent_lists w m _ _ n E0)
          | E0 : selectCurrent _ _ = Some _ |- _ =>
              apply selectCurrent_quiet in E0;
              destruct E0 as [(-> & _)|(t & -> & _)]; simpl in Hin;
              [contradiction|destruct Hin as [Hin|[]]; discriminate]
          | E0 : handleJump _ _ _ = Some _ |- _ =>
              apply handleJump_quiet in E0;
              destruct E0 as [(-> & _)|(t & -> & _)]; simpl in Hin;
              [contradiction|destruct Hin as [Hin|[]]; discriminate]
          | E0 : confirmKill _ = Some _ |- _ =>
              apply confirmKill_quiet in E0; destruct E0 as (-> & _);
              simpl in Hin; contradiction
          end.
  - destruct Hc as (_ & _ & (c0 & -> & Hk) & _). simpl in Hin.
    destruct Hin as [->|[]]. discriminate.
  - destruct Hcr as (_ & _ & _ & Hcr). apply createSession_sends in Hcr.
    destruct Hcr as [(-> & _)|(-> & _)]; simpl in Hin;
      repeat (destruct Hin as [Hin|Hin]; [discriminate|]); destruct Hin.
Qed.

End Invariants.

(** ** Rows of a session in the middle of the sequence *)

Section Structure.

Context {U : Unicode}.
Variable keys : KeyMap.
Variable inputUpdate : textinput.Model -> Msg -> textinput.Model * tea.Cmd.

Arguments rebuildItems : simpl never.

Lemma flatten_app (flt : string) (a b : list Session) : forall i,
  flatten flt i (a ++ b) =
  flatten flt i a ++ flatten flt (i + List.length a) b.
Proof.
  induction a as [|s a IH]; intros i; cbn [flatten app List.length].
  - now rewrite Nat.add_0_r.
  - rewrite IH, <- app_assoc.
    now replace (i + S (List.length a))%nat
      with (S i + List.length a)%nat by lia.
Qed.

Lemma flatten_middle (flt : string) (pre post : list Session) s :
  flatten flt 0 (pre ++ s :: post) =
  flatten flt 0 pre
  ++ (if passes flt (Name s) then rowsOf (List.length pre) s else [])
  ++ flatten flt (S (List.length pre)) post.
Proof. rewrite flatten_app. reflexivity. Qed.

Lemma flatten_indices (flt : string) (ss : list Session) : forall i it,
  In it (flatten flt i ss) ->
  Z.of_nat i <= SessionIndex it < Z.of_nat i + len ss.
Proof.
  unfold len. induction ss as [|s ss IH]; intros i it Hin;
    cbn [flatten] in Hin; [destruct Hin|].
  apply in_app_or in Hin. destruct Hin as [Hin|Hin].
  - destruct (passes flt (Name s)); [|destruct Hin].
    unfold rowsOf in Hin. destruct Hin as [<-|Hin];
      [cbn [SessionIndex List.length]; lia|].
    destruct (Expanded s); [|destruct Hin].
    apply in_map_iff in Hin. destruct Hin as (j & <- & _).
    cbn [SessionIndex List.length]. lia.
  - apply IH in Hin. cbn [List.length]. lia.
Qed.

Lemma index_app_r {A} (a b : list A) (i : Z) :
  0 <= i -> index (a ++ b) (len a + i) = index b i.
Proof.
  intros Hi. unfold index, len.
  destruct (Z.ltb_spec (Z.of_nat (List.length a) + i) 0); [lia|].
  destruct (Z.ltb_spec i 0); [lia|].
  rewrite nth_error_app2 by lia. f_equal. lia.
Qed.

Lemma index_app_l {A} (a b : list A) (i : Z) :
  i < len a -> index (a ++ b) i = index a i.
Proof.
  intros Hi. unfold index, len in *. destruct (i <? 0) eqn:E;
    [reflexivity|]. apply Z.ltb_ge in E.
  apply nth_error_app1. lia.
Qed.

Lemma index_middle {A} (pre post : list A) (x : A) :
  index (pre ++ x :: post) (len pre) = Some x.
Proof.
  replace (len pre) with (len pre + 0) by lia.
  now rewrite index_app_r by lia.
Qed.

Lemma store_middle {A} (pre post : list A) (x y : A) :
  store (pre ++ x :: post) (len pre) y = pre ++ y :: post.
Proof.
  unfold store, len. rewrite Nat2Z.id.
  induction pre as [|z pre IH]; simpl; [reflexivity|]. now rewrite IH.
Qed.

Lemma findSessionRow_skip (a rest : list Item) (idx : Z) : forall i,
  (forall it, In it a -> SessionIndex it <> idx) ->
  findSessionRow (a ++ rest) i idx = findSessionRow rest (i + len a) idx.
Proof.
  induction a as [|it a IH]; intros i Hno; cbn [app findSessionRow].
  - unfold len. simpl. f_equal. lia.
  - destruct (Z.eqb_spec (SessionIndex it) idx) as [E|_].
    + destruct (Hno it (or_introl eq_refl) E).
    + rewrite andb_false_r, IH by (intros; apply Hno; now right).
      f_equal. unfold len. simpl. lia.
Qed.

Lemma collapseAll_collapsed (ss : list Session) :
  forallb (fun s => negb (Expanded s)) ss = true ->
  map (fun s => setExpanded s false) ss = ss.
Proof.
  induction ss as [|s ss IH]; simpl; [reflexivity|].
  intros H. apply andb_true_iff in H. destruct H as [Hs Hss].
  rewrite IH by assumption. f_equal.
  apply negb_true_iff in Hs. rewrite <- Hs. apply setExpanded_same.
Qed.

Lemma index_cons {A} (x : A) (l : list A) (i : Z) :
  0 <= i -> index (x :: l) (1 + i) = index l i.
Proof.
  intros Hi. change (x :: l) with ([x] ++ l).
  now apply (index_app_r [x] l i).
Qed.

Lemma index_windowRows (i n j : nat) :
  (j < n)%nat ->
  index (map (fun j0 => {| IsSession := false; SessionIndex := Z.of_nat i;
                           WindowIndex := Z.of_nat j0 |}) (seq 0 n))
        (Z.of_nat j) = Some (windowRow i j).
Proof.
  intros Hj. rewrite index_of_nat, nth_error_map.
  rewrite nth_error_seq. destruct (Nat.ltb_spec j n); [reflexivity|lia].
Qed.

Lemma reachesCollapse_true (k : tea.KeyMsg) :
  reachesCollapse keys k = true ->
  key.Matches k (kQuit keys) = false /\
  key.Matches k (kCancel keys) = false /\
  key.Matches k (kUp keys) = false /\
  key.Matches k (kDown keys) = false /\
  key.Matches k (kExpand keys) = false /\
  key.Matches k (kCollapse keys) = true.
Proof.
  unfold reachesCollapse.
  destruct (key.Matches k (kQuit keys)), (key.Matches k (kCancel keys)),
    (key.Matches k (kUp keys)), (key.Matches k (kDown keys)),
    (key.Matches k (kExpand keys)), (key.Matches k (kCollapse keys));
    simpl; intros H; try discriminate; auto 10.
Qed.

Lemma reachesExpand_true (k : tea.KeyMsg) :
  reachesExpand keys k = true ->
  key.Matches k (kQuit keys) = false /\
  key.Matches k (kCancel keys) = false /\
  key.Matches k (kUp keys) = false /\
  key.Matches k (kDown keys) = false /\
  key.Matches k (kExpand keys) = true.
Proof.
  unfold reachesExpand.
  destruct (key.Matches k (kQuit keys)), (key.Matches k (kCancel keys)),
    (key.Matches k (kUp keys)), (key.Matches k (kDown keys)),
    (key.Matches k (kExpand keys));
    simpl; intros H; try discriminate; auto 10.
Qed.

(** The rows of a state whose session in the middle passes the filter. *)
Lemma rows_middle (m : Model) (pre post : list Session) (s : Session) :
  rowsCurrent m -> sessions m = pre ++ s :: post ->
  passes (filter m) (Name s) = true ->
  items m =
  flatten (filter m) 0 pre
  ++ rowsOf (List.length pre) s
  ++ flatten (filter m) (S (List.length pre)) post.
Proof.
  intros Hrows Hss Hp. unfold rowsCurrent in Hrows.
  now rewrite Hrows, Hss, flatten_middle, Hp.
Qed.

(** X8.  Collapsing from a window row puts the cursor on the parent:
    with the rows up to date and the cursor on window [j] of an expanded
    session, the collapse key collapses that session, sends nothing, and
    leaves the cursor on the session's own row, where that row was; the
    rows before it and after its windows are as they were. *)
Theorem collapse_from_window_selects_parent
    (w : World) (m : Model) (k : tea.KeyMsg)
    (pre post : list Session) (s : Session) (j : nat) :
  mode m = ModeNormal -> rowsCurrent m ->
  sessions m = pre ++ s :: post ->
  Expanded s = true -> passes (filter m) (Name s) = true ->
  (j < List.length (Windows s))%nat ->
  cursor m = len (flatten (filter m) 0 pre) + 1 + Z.of_nat j ->
  reachesCollapse keys k = true ->
  index (items m) (cursor m) = Some (windowRow (List.length pre) j) /\
  exists m',
    Update keys inputUpdate w m (KeyMsg k) = Some (m', tea.CmdNil, []) /\
    sessions m' = pre ++ setExpanded s false :: post /\
    cursor m' = len (flatten (filter m) 0 pre) /\
    index (items m') (cursor m') = Some (sessionRow (List.length pre)) /\
    items m' =
    flatten (filter m) 0 pre
    ++ sessionRow (List.length pre)
       :: flatten (filter m) (S (List.length pre)) post.
Proof.
  intros Hmode Hrows Hss Hexp Hp Hj Hcur Hkey.
  pose proof (rows_middle m pre post s Hrows Hss Hp) as Hitems.
  set (A := flatten (filter m) 0 pre) in *.
  set (C := flatten (filter m) (S (List.length pre)) post) in *.
  unfold rowsOf in Hitems. rewrite Hexp in Hitems.
  assert (Hit : index (items m) (cursor m)
                = Some (windowRow (List.length pre) j)).
  { rewrite Hitems, Hcur, <- Z.add_assoc.
    rewrite index_app_r by lia. cbn [app].
    rewrite index_cons by lia.
    rewrite index_app_l by (unfold len; rewrite length_map, length_seq; lia).
    now apply index_windowRows. }
  split; [exact Hit|].
  destruct (reachesCollapse_true k Hkey)
    as (HQ & HC & HU & HD & HE & HCo).
  cbn [Update]. unfold handleKey, handleNormalMode.
  rewrite Hmode, HQ, HC, HU, HD, HE, HCo. unfold collapseCurrent.
  pose proof (index_range _ _ _ Hit) as Hr.
  assert (Hout : cursorOut m = false).
  { unfold cursorOut. destruct (Z.ltb_spec (cursor m) 0); [lia|].
    destruct (Z.geb_spec (cursor m) (len (items m))); [lia|reflexivity]. }
  rewrite Hout, Hit. cbn [IsSession SessionIndex windowRow].
  assert (Hfind : findSessionRow (items m) 0 (Z.of_nat (List.length pre))
                  = Some (len A)).
  { rewrite Hitems, findSessionRow_skip.
    - cbn [app findSessionRow IsSession SessionIndex].
      now rewrite Z.eqb_refl.
    - intros it Hin. apply flatten_indices in Hin. unfold len in Hin. lia. }
  rewrite Hfind. cbn [sessions setCursor]. rewrite Hss.
  change (Z.of_nat (List.length pre)) with (len pre).
  rewrite index_middle, store_middle.
  eexists. split; [reflexivity|].
  assert (Hits : items (rebuildItems
                          (setSessions (pre ++ setExpanded s false :: post)
                                       (setCursor (len A) m)))
                 = A ++ sessionRow (List.length pre) :: C).
  { rewrite rebuildItems_items. cbn [filter sessions setSessions setCursor].
    rewrite flatten_middle. cbn [Name setExpanded]. rewrite Hp.
    unfold rowsOf. cbn [Expanded setExpanded]. reflexivity. }
  assert (Hc : cursor (rebuildItems
                         (setSessions (pre ++ setExpanded s false :: post)
                                      (setCursor (len A) m)))
               = len A).
  { rewrite rebuildItems_cursor, Hits. cbn [cursor setSessions setCursor].
    unfold clampCursor. rewrite len_app.
    pose proof (len_nonneg A). pose proof (len_nonneg C).
    replace (len (sessionRow (List.length pre) :: C)) with (1 + len C)
      by (unfold len; cbn [List.length]; lia).
    destruct (Z.geb_spec (len A) (len A + (1 + len C))); [lia|].
    destruct (Z.ltb_spec (len A) 0); [lia|reflexivity]. }
  split; [now rewrite rebuildItems_sessions|].
  split; [exact Hc|]. split; [|exact Hits].
  rewrite Hc, Hits. apply index_middle.
Qed.

Lemma Model_eq (a b : Model) :
  sessions a = sessions b -> currentSession a = currentSession b ->
  cursor a = cursor b -> items a = items b -> mode a = mode b ->
  message a = message b -> messageIsError a = messageIsError b ->
  input a = input b -> killTarget a = killTarget b ->
  maxNameWidth a = maxNameWidth b -> filter a = filter b -> a = b.
Proof.
  destruct a, b. cbn. intros. subst. reflexivity.
Qed.

Lemma clampCursor_inside (c n : Z) : 0 <= c < n -> clampCursor c n = c.
Proof.
  intros H. unfold clampCursor. destruct (Z.geb_spec c n); [lia|].
  destruct (Z.ltb_spec c 0); [lia|reflexivity].
Qed.

Lemma len_cons {A} (x : A) (l : list A) : len (x :: l) = 1 + len l.
Proof. unfold len. cbn [List.length]. lia. Qed.

(** X9.  Expanding a session and collapsing it again restores the model:
    with the rows up to date, no session expanded and the cursor on the row
    of a session, the expand key (tmux listing the windows if none are
    loaded) shows that session's windows below its row, the cursor staying
    put; the collapse key then gives back the model as it was, except that
    the session now has its windows loaded. *)
Theorem expand_then_collapse_restores
    (w1 w2 : World) (m : Model) (k1 k2 : tea.KeyMsg)
    (pre post : list Session) (s : Session) :
  mode m = ModeNormal -> rowsCurrent m ->
  sessions m = pre ++ s :: post ->
  forallb (fun s => negb (Expanded s)) (sessions m) = true ->
  passes (filter m) (Name s) = true ->
  cursor m = len (flatten (filter m) 0 pre) ->
  reachesExpand keys k1 = true -> reachesCollapse keys k2 = true ->
  (Windows s = [] -> snd (ListWindows w1 (Name s)) = None) ->
  exists m1 calls,
    Update keys inputUpdate w1 m (KeyMsg k1)
    = Some (m1, tea.CmdNil, calls) /\
    cursor m1 = cursor m /\
    items m1 =
    flatten (filter m) 0 pre
    ++ rowsOf (List.length pre)
              (setExpanded (setWindows s (shownWindows w1 s)) true)
    ++ flatten (filter m) (S (List.length pre)) post /\
    Update keys inputUpdate w2 m1 (KeyMsg k2)
    = Some (setSessions (pre ++ setWindows s (shownWindows w1 s) :: post) m,
            tea.CmdNil, []).
Proof.
  intros Hmode Hrows Hss Hall Hp Hcur Hk1 Hk2 Hfetch.
  pose proof (rows_middle m pre post s Hrows Hss Hp) as Hitems.
  set (A := flatten (filter m) 0 pre) in *.
  set (C := flatten (filter m) (S (List.length pre)) post) in *.
  assert (Hcoll : Expanded s = false).
  { rewrite Hss, forallb_app in Hall. apply andb_true_iff in Hall.
    destruct Hall as [_ Hall]. cbn [forallb] in Hall.
    apply andb_true_iff in Hall. destruct Hall as [Hs _].
    now apply negb_true_iff in Hs. }
  unfold rowsOf in Hitems. rewrite Hcoll in Hitems. cbn [app] in Hitems.
  assert (Hit : index (items m) (cursor m)
                = Some (sessionRow (List.length pre))).
  { rewrite Hitems, Hcur. apply index_middle. }
  pose proof (index_range _ _ _ Hit) as Hr.
  assert (Hout : cursorOut m = false).
  { unfold cursorOut. destruct (Z.ltb_spec (cursor m) 0); [lia|].
    destruct (Z.geb_spec (cursor m) (len (items m))); [lia|reflexivity]. }
  set (s1 := setExpanded (setWindows s (shownWindows w1 s)) true).
  set (m1 := rebuildItems (setSessions (pre ++ s1 :: post) m)).
  assert (Hexp : exists calls, expandCurrent w1 m = Some (m1, calls)).
  { unfold expandCurrent. rewrite Hout, Hit.
    cbn [IsSession SessionIndex sessionRow negb sessions setSessions].
    rewrite (collapseAll_collapsed _ Hall), Hss.
    change (Z.of_nat (List.length pre)) with (len pre).
    rewrite index_middle, store_middle.
    unfold m1, s1, shownWindows. destruct (Windows s) as [|w0 ws] eqn:Hws.
    - cbn [len List.length Z.of_nat Z.eqb].
      specialize (Hfetch eq_refl).
      destruct (ListWindows w1 (Name s)) as [l e]. cbn [snd fst] in *.
      subst e. rewrite ?store_middle. eexists. reflexivity.
    - replace (len (w0 :: ws) =? 0) with false
        by (symmetry; apply Z.eqb_neq; rewrite len_cons;
            pose proof (len_nonneg ws); lia).
      rewrite ?store_middle.
      eexists. unfold setExpanded, setWindows. cbn [Name LastActivity].
      rewrite Hws. reflexivity. }
  destruct Hexp as [calls Hexp].
  destruct (reachesExpand_true k1 Hk1) as (HQ & HC & HU & HD & HE).
  destruct (reachesCollapse_true k2 Hk2)
    as (HQ2 & HC2 & HU2 & HD2 & HE2 & HCo2).
  assert (Hits1 : items m1 = A ++ rowsOf (List.length pre) s1 ++ C).
  { unfold m1. rewrite rebuildItems_items.
    cbn [filter sessions setSessions]. rewrite flatten_middle.
    cbn [Name s1 setExpanded setWindows]. now rewrite Hp. }
  assert (Hc1 : cursor m1 = cursor m).
  { unfold m1. rewrite rebuildItems_cursor. fold m1. rewrite Hits1.
    cbn [cursor setSessions]. apply clampCursor_inside.
    rewrite Hcur, len_app. unfold rowsOf. cbn [app]. rewrite len_cons.
    pose proof (len_nonneg A).
    match goal with |- context [len ?l] =>
      match l with (_ ++ C) => pose proof (len_nonneg l) end end.
    lia. }
  exists m1, calls. split.
  { cbn [Update]. unfold handleKey, handleNormalMode.
    rewrite Hmode, HQ, HC, HU, HD, HE, Hexp. reflexivity. }
  split; [exact Hc1|]. split; [exact Hits1|].
  cbn [Update]. unfold handleKey, handleNormalMode.
  assert (Hmode1 : mode m1 = ModeNormal) by exact Hmode.
  rewrite Hmode1, HQ2, HC2, HU2, HD2, HE2, HCo2. unfold collapseCurrent.
  assert (Hit1 : index (items m1) (cursor m1)
                 = Some (sessionRow (List.length pre))).
  { rewrite Hits1, Hc1, Hcur. unfold rowsOf. cbn [app].
    apply index_middle. }
  pose proof (index_range _ _ _ Hit1) as Hr1.
  assert (Hout1 : cursorOut m1 = false).
  { unfold cursorOut. destruct (Z.ltb_spec (cursor m1) 0); [lia|].
    destruct (Z.geb_spec (cursor m1) (len (items m1))); [lia|reflexivity]. }
  rewrite Hout1, Hit1. cbn [IsSession SessionIndex sessionRow].
  assert (Hss1 : sessions m1 = pre ++ s1 :: post) by reflexivity.
  rewrite Hss1. change (Z.of_nat (List.length pre)) with (len pre).
  rewrite index_middle, store_middle.
  assert (Hs2 : setExpanded s1 false = setWindows s (shownWindows w1 s)).
  { unfold s1, setExpanded, setWindows. cbn. now rewrite Hcoll. }
  rewrite Hs2. do 3 f_equal.
  set (ss2 := pre ++ setWindows s (shownWindows w1 s) :: post).
  assert (Hits2 : items (rebuildItems (setSessions ss2 m1)) = items m).
  { rewrite rebuildItems_items. cbn [filter sessions setSessions].
    unfold ss2. rewrite flatten_middle. cbn [Name setWindows].
    change (filter m1) with (filter m). rewrite Hp. unfold rowsOf.
    cbn [Expanded setWindows]. rewrite Hcoll. cbn [app]. now rewrite Hitems. }
  apply Model_eq; try reflexivity.
  - rewrite rebuildItems_cursor, Hits2. cbn [cursor setSessions].
    rewrite Hc1. cbn [cursor setSessions]. now apply clampCursor_inside.
  - rewrite Hits2. reflexivity.
Qed.

End Structure.

(** ** Typing into the filter *)

Section Filtering.

Context {U : Unicode}.
Variable keys : KeyMap.
Variable inputUpdate : textinput.Model -> Msg -> textinput.Model * tea.Cmd.

Arguments rebuildItems : simpl never.

Lemma isASCII_append (a b : string) :
  strings.isASCII (a +s+ b) = strings.isASCII a && strings.isASCII b.
Proof.
  unfold strings.isASCII. induction a as [|c a IH]; simpl; [reflexivity|].
  rewrite IH. now rewrite andb_assoc.
Qed.

Lemma mapBytes_append (f : ascii -> ascii) (a b : string) :
  strings.mapBytes f (a +s+ b) = strings.mapBytes f a +s+ strings.mapBytes f b.
Proof. induction a as [|c a IH]; simpl; [reflexivity|]. now rewrite IH. Qed.

Lemma ToLower_append (a b : string) :
  strings.isASCII a = true -> strings.isASCII b = true ->
  strings.ToLower (a +s+ b) = strings.ToLower a +s+ strings.ToLower b.
Proof.
  intros Ha Hb. unfold strings.ToLower.
  rewrite isASCII_append, Ha, Hb. apply mapBytes_append.
Qed.

Lemma Contains_part (s a b : string) :
  strings.Contains s (a +s+ b) = true -> strings.Contains s a = true.
Proof.
  rewrite !Contains_split. intros (pre & post & ->).
  exists pre, (b +s+ post). now rewrite append_assoc.
Qed.

Lemma passes_shorter (f g name : string) :
  strings.isASCII f = true -> strings.isASCII g = true ->
  passes (f +s+ g) name = true -> passes f name = true.
Proof.
  unfold passes. intros Hf Hg. rewrite ToLower_append by assumption.
  apply Contains_part.
Qed.

Lemma flatten_shorter (f g : string) (ss : list Session) :
  strings.isASCII f = true -> strings.isASCII g = true ->
  forall i it, In it (flatten (f +s+ g) i ss) -> In it (flatten f i ss).
Proof.
  intros Hf Hg. induction ss as [|s ss IH]; intros i it Hin;
    cbn [flatten] in *; [exact Hin|].
  apply in_app_or in Hin. apply in_or_app. destruct Hin as [Hin|Hin].
  - left. destruct (passes (f +s+ g) (Name s)) eqn:Hp; [|destruct Hin].
    now rewrite (passes_shorter f g _ Hf Hg Hp).
  - right. now apply IH.
Qed.

Lemma code_byte (r : Z) : 0 <= r < 256 -> utf8.code (utf8.byte r) = r.
Proof.
  intros Hr. unfold utf8.code, utf8.byte.
  rewrite N_ascii_embedding by lia. lia.
Qed.

Lemma isASCII_runes (rs : list Z) :
  forallb (fun r => (0 <=? r) && (r <? 128)) rs = true ->
  strings.isASCII (utf8.string_of_runes rs) = true.
Proof.
  unfold utf8.string_of_runes, strings.isASCII.
  rewrite list_ascii_of_string_of_list_ascii.
  induction rs as [|r rs IH]; cbn [flat_map forallb]; [reflexivity|].
  intros H. apply andb_true_iff in H. destruct H as [Hr Hrs].
  rewrite forallb_app, (IH Hrs), andb_true_r.
  unfold utf8.EncodeRune. rewrite Hr. cbn [forallb].
  rewrite andb_true_r.
  apply andb_true_iff in Hr. destruct Hr as [H0 H1].
  apply Z.leb_le in H0. apply Z.ltb_lt in H1.
  rewrite code_byte by lia. now apply Z.ltb_lt.
Qed.

(** X10.  Typing narrows the list: in Normal mode with the rows up to
    date and an ASCII filter, a text key carrying ASCII characters appends
    them to the filter, sends nothing, and leaves only rows that were
    there before; no session that was filtered out comes back. *)
Theorem typing_only_removes_rows
    (w : World) (m : Model) (k : tea.KeyMsg) :
  mode m = ModeNormal -> rowsCurrent m ->
  actionBound keys k = false -> jumpsOff keys m k ->
  tea.Type_ k = tea.KeyRunes ->
  strings.isASCII (filter m) = true ->
  forallb (fun r => (0 <=? r) && (r <? 128)) (tea.Runes k) = true ->
  exists m',
    Update keys inputUpdate w m (KeyMsg k) = Some (m', tea.CmdNil, []) /\
    filter m' = filter m +s+ utf8.string_of_runes (tea.Runes k) /\
    sessions m' = sessions m /\ rowsCurrent m' /\
    forall it, In it (items m') -> In it (items m).
Proof.
  intros Hmode Hrows Hact Hoff Hty Hf Hrs.
  rewrite (normal_text keys inputUpdate w m k Hmode Hact Hoff), Hty.
  cbn [Z.eqb tea.KeyRunes tea.KeyBackspace].
  eexists. split; [reflexivity|]. split; [reflexivity|].
  split; [reflexivity|]. split; [apply rebuildItems_rowsCurrent|].
  intros it Hin. rewrite rebuildItems_items in Hin.
  cbn [filter sessions setFilter] in Hin. unfold rowsCurrent in Hrows.
  rewrite Hrows. apply (flatten_shorter _ _ _ Hf (isASCII_runes _ Hrs)).
  exact Hin.
Qed.

End Filtering.

(** ** The further properties at concrete inputs *)

Lemma kill_only_on_confirm_witness :
  mode askedAlpha = ModeConfirmKill /\
  mode killedAlpha = ModeNormal /\ killTarget killedAlpha = "".
Proof.
  destruct (@kill_only_on_confirm plainUnicode DefaultKeyMap idleInput
              w134 askedAlpha killedAlpha (press tea.KeyCtrlY)
              (tea.Batch tea.loadSessions (tea.clearMessageAfter 5))
              [CallKillSession "alpha"] (CallKillSession "alpha"))
    as (H1 & _ & _ & _ & H5 & H6 & _).
  - vm_compute. reflexivity.
  - left. reflexivity.
  - reflexivity.
  - auto.
Defined.

Lemma create_only_trimmed_name_witness :
  mode creating = ModeCreate /\
  "dev" = @strings.TrimSpace plainUnicode (textinput.Value (input creating)) /\
  "/home/u" = Getenv tmuxDown "HOME".
Proof.
  destruct (@create_only_trimmed_name plainUnicode DefaultKeyMap idleInput
              tmuxDown creating
              (setError "Created but failed to switch: no client" creating)
              (press tea.KeyEnter) tea.loadSessions
              [CallCreateSession "dev" "/home/u"; CallSwitchClient "dev"]
              "dev" "/home/u")
    as (H1 & _ & H3 & _ & H5 & _).
  - vm_compute. reflexivity.
  - left. reflexivity.
  - auto.
Defined.

Lemma quit_only_by_key_or_switch_witness :
  mode listed <> ModeConfirmKill /\
  exists pre t,
    [CallSwitchClient "alpha"] = pre ++ [CallSwitchClient t] /\
    SwitchClient w134 t = None.
Proof.
  destruct (@quit_only_by_key_or_switch plainUnicode DefaultKeyMap idleInput
              w134 listed listed (press tea.KeyEnter)
              [CallSwitchClient "alpha"])
    as (H1 & [(_ & E & _)|[(_ & H)|(E & _)]]).
  - vm_compute. reflexivity.
  - discriminate E.
  - auto.
  - discriminate E.
Defined.

Lemma rows_current_but_for_two_witness :
  exists m' cmd calls,
    @Update plainUnicode DefaultKeyMap idleInput tmuxDown
      (setCursor 4 alphaOpen) (press tea.KeyRight)
    = Some (m', cmd, calls) /\
    (@rowsCurrent plainUnicode m' \/
     (mode (setCursor 4 alphaOpen) = ModeNormal /\ mode m' = ModeCreate /\
      filter (setCursor 4 alphaOpen) <> "" /\
      filter m' = "" /\ items m' = items (setCursor 4 alphaOpen)) \/
     (mode (setCursor 4 alphaOpen) = ModeNormal /\
      items m' = items (setCursor 4 alphaOpen) /\
      sessions m' = collapseAll (sessions (setCursor 4 alphaOpen)) /\
      exists n, calls = [CallListWindows n] /\
                snd (ListWindows tmuxDown n) <> None)).
Proof.
  apply (@rows_current_but_for_two plainUnicode DefaultKeyMap idleInput).
  - split; [vm_compute; split; [discriminate|reflexivity] | reflexivity].
  - reflexivity.
Defined.

Lemma sessions_kept_until_refresh_witness :
  len (sessions alphaOpen) = len (sessions listed) /\
  exists s',
    index (sessions alphaOpen) 1 = Some s' /\ Name s' = "beta".
Proof.
  destruct (@sessions_kept_until_refresh plainUnicode DefaultKeyMap idleInput
              w134 listed alphaOpen (press tea.KeyRight) tea.CmdNil
              [CallListWindows "alpha"]) as (H1 & H2).
  - vm_compute. reflexivity.
  - discriminate.
  - split; [exact H1|].
    destruct (H2 1 (session "beta") eq_refl) as (s' & Hs & Hn & _).
    exists s'. auto.
Defined.

Lemma windows_listed_only_when_missing_witness :
  mode listed = ModeNormal /\
  exists it s,
    index (items listed) (cursor listed) = Some it /\ IsSession it = true /\
    index (sessions listed) (SessionIndex it) = Some s /\
    Name s = "alpha" /\ Windows s = [].
Proof.
  destruct (@windows_listed_only_when_missing plainUnicode DefaultKeyMap
              idleInput w134 listed alphaOpen (press tea.KeyRight)
              tea.CmdNil [CallListWindows "alpha"] "alpha")
    as (H1 & _ & H3).
  - vm_compute. reflexivity.
  - left. reflexivity.
  - auto.
Defined.

Lemma collapse_from_window_witness :
  exists m',
    @Update plainUnicode DefaultKeyMap idleInput w134
      (setCursor 2 alphaOpen) (press tea.KeyLeft)
    = Some (m', tea.CmdNil, []) /\
    cursor m' = 0 /\
    index (items m') (cursor m') = Some (sessionRow 0).
Proof.
  destruct (@collapse_from_window_selects_parent plainUnicode DefaultKeyMap
              idleInput w134 (setCursor 2 alphaOpen) (keyOf tea.KeyLeft)
              [] [session "beta"; session "gamma"] alphaExpanded 1%nat)
    as (_ & m' & H1 & _ & H3 & H4 & _); try reflexivity.
  - simpl. lia.
  - exists m'. auto.
Defined.

Lemma expand_then_collapse_witness :
  exists m1 calls,
    @Update plainUnicode DefaultKeyMap idleInput w134 listed
      (press tea.KeyRight) = Some (m1, tea.CmdNil, calls) /\
    @Update plainUnicode DefaultKeyMap idleInput tmuxDown m1
      (press tea.KeyLeft)
    = Some (setSessions
              ([] ++ setWindows (session "alpha")
                                (shownWindows w134 (session "alpha"))
                  :: [session "beta"; session "gamma"]) listed,
            tea.CmdNil, []).
Proof.
  destruct (@expand_then_collapse_restores plainUnicode DefaultKeyMap
              idleInput w134 tmuxDown listed (keyOf tea.KeyRight)
              (keyOf tea.KeyLeft) [] [session "beta"; session "gamma"]
              (session "alpha"))
    as (m1 & calls & H1 & _ & _ & H4); try reflexivity.
  exists m1, calls. auto.
Defined.

Lemma typing_only_removes_rows_witness :
  exists m',
    @Update plainUnicode DefaultKeyMap idleInput w134 filteredA
      (KeyMsg (typed 108)) = Some (m', tea.CmdNil, []) /\
    filter m' = "al" /\
    forall it, In it (items m') -> In it (items filteredA).
Proof.
  destruct (@typing_only_removes_rows plainUnicode DefaultKeyMap idleInput
              w134 filteredA (typed 108))
    as (m' & H1 & H2 & _ & _ & H5); try reflexivity.
  - left. discriminate.
  - exists m'. auto.
Defined.

(** ** Decimal timestamps *)

Lemma digitsValue_ge (d : Decimal.uint) : forall n,
  0 <= n -> n <= digitsValue d n.
Proof.
  induction d as [|d IH|d IH|d IH|d IH|d IH|d IH|d IH|d IH|d IH|d IH];
    intros n Hn; cbn [digitsValue]; [lia|..];
    (etransitivity; [|apply IH]; lia).
Qed.

Lemma parseUintLoop_digits (d : Decimal.uint) : forall n,
  0 <= n -> digitsValue d n <= strconv.maxUint64 ->
  strconv.parseUintLoop (NilEmpty.string_of_uint d) n
  = Some (digitsValue d n).
Proof.
  unfold strconv.maxUint64.
  induction d as [|d IH|d IH|d IH|d IH|d IH|d IH|d IH|d IH|d IH|d IH];
    intros n Hn Hmax;
    cbn [digitsValue NilEmpty.string_of_uint strconv.parseUintLoop] in *;
    [reflexivity|..];
    match goal with
    | |- context [strconv.digitOf ?c] =>
        let v := eval vm_compute in (strconv.digitOf c) in
        change (strconv.digitOf c) with v
    end; cbv zeta;
    match goal with
    | H : digitsValue d ?a <= _ |- _ =>
        pose proof (digitsValue_ge d a ltac:(lia)) as Hge
    end;
    change (strconv.maxUint64 / 10 + 1) with 1844674407370955162;
    unfold strconv.maxUint64;
    (destruct (Z.geb_spec n 1844674407370955162); [lia|]);
    match goal with
    | |- context [(?a <? ?b) || (?a >? ?c)] =>
        destruct (Z.ltb_spec a b); [lia|];
        destruct (Z.gtb_spec a c); [lia|]
    end; cbn [orb]; apply IH; lia.
Qed.

Lemma digitsValue_pos (d : Decimal.uint) : forall acc,
  digitsValue d (Z.pos acc) = Z.pos (Pos.of_uint_acc d acc).
Proof.
  induction d as [|d IH|d IH|d IH|d IH|d IH|d IH|d IH|d IH|d IH|d IH];
    intros acc; cbn [digitsValue Pos.of_uint_acc]; [reflexivity|..];
    rewrite <- IH; f_equal; lia.
Qed.

Lemma digitsValue_zero (d : Decimal.uint) :
  digitsValue d 0 = Z.of_N (Pos.of_uint d).
Proof.
  induction d as [|d IH|d IH|d IH|d IH|d IH|d IH|d IH|d IH|d IH|d IH];
    cbn [digitsValue Pos.of_uint]; [reflexivity|exact IH|..];
    cbn [Z.mul Z.add Z.of_N]; apply digitsValue_pos.
Qed.

Lemma digits_first_byte (d : Decimal.uint) :
  d <> Decimal.Nil ->
  exists c rest,
    NilEmpty.string_of_uint d = String c rest /\
    Ascii.eqb c "+" = false /\ Ascii.eqb c "-" = false.
Proof.
  destruct d; intros H; [congruence|..]; do 2 eexists;
    (split; [reflexivity|split; reflexivity]).
Qed.

Lemma ParseUint_to_uint (p : positive) :
  Z.pos p <= strconv.maxUint64 ->
  strconv.ParseUint (NilEmpty.string_of_uint (Pos.to_uint p))
  = Some (Z.pos p).
Proof.
  intros Hp. unfold strconv.ParseUint.
  destruct (digits_first_byte _ (DecimalPos.Unsigned.to_uint_nonnil p))
    as (c & rest & E & _).
  assert (Hv : digitsValue (Pos.to_uint p) 0 = Z.pos p).
  { rewrite digitsValue_zero, DecimalPos.Unsigned.of_to. reflexivity. }
  rewrite E at 1. cbn [String.eqb].
  rewrite parseUintLoop_digits; [now rewrite Hv|lia|now rewrite Hv].
Qed.

Lemma string_of_uint_nonnil (d : Decimal.uint) :
  d <> Decimal.Nil ->
  NilZero.string_of_uint d = NilEmpty.string_of_uint d.
Proof. destruct d; intros H; [congruence|..]; reflexivity. Qed.

(** What [%d] prints, [strconv.ParseInt] reads back. *)
Lemma ParseInt_d (z : Z) :
  - 9223372036854775808 <= z < 9223372036854775808 ->
  strconv.ParseInt (fmt.d z) = Some z.
Proof.
  intros Hz. unfold fmt.d. destruct z as [|p|p]; [reflexivity|..];
    cbn [Z.to_int NilZero.string_of_int];
    pose proof (DecimalPos.Unsigned.to_uint_nonnil p) as Hnil;
    rewrite (string_of_uint_nonnil _ Hnil).
  - destruct (digits_first_byte _ Hnil) as (c & rest & E & H1 & H2).
    unfold strconv.ParseInt. rewrite E, H1, H2, <- E.
    rewrite ParseUint_to_uint by (unfold strconv.maxUint64; lia).
    cbn [negb andb].
    destruct (Z.geb_spec (Z.pos p) 9223372036854775808); [lia|].
    reflexivity.
  - unfold strconv.ParseInt.
    change (Ascii.eqb "-" "+") with false.
    change (Ascii.eqb "-" "-") with true. cbv iota.
    rewrite ParseUint_to_uint by (unfold strconv.maxUint64; lia).
    cbn [negb andb].
    destruct (Z.gtb_spec (Z.pos p) 9223372036854775808); [lia|].
    reflexivity.
Qed.

(** ** Status files *)

Section StatusFiles.

Context {U : Unicode} {F : Filepath}.
Variable fs : Files.

Lemma asciiSpace_low (c : ascii) :
  strings.asciiSpace c = true -> (utf8.RuneSelf <=? utf8.code c) = false.
Proof.
  unfold strings.asciiSpace, utf8.RuneSelf. cbv zeta. intros H.
  apply Z.leb_gt.
  repeat (apply orb_true_iff in H; destruct H as [H|H]);
    apply Z.eqb_eq in H; lia.
Qed.

Lemma trimStop_spaces (sp r : list ascii) :
  forallb strings.asciiSpace sp = true ->
  strings.trimStop (sp ++ r) = strings.trimStop r.
Proof.
  induction sp as [|c sp IH]; intros H; [reflexivity|].
  cbn [forallb] in H. apply andb_true_iff in H. destruct H as [Hc Hsp].
  cbn [app strings.trimStop]. now rewrite (asciiSpace_low c Hc), Hc, IH.
Qed.

Lemma cleanByte_stops (c : ascii) :
  cleanByte c = true ->
  (utf8.RuneSelf <=? utf8.code c) = false /\ strings.asciiSpace c = false.
Proof.
  unfold cleanByte. intros H. apply andb_true_iff in H.
  destruct H as [H1 H2]. apply negb_true_iff in H2. split; [|exact H2].
  apply Z.ltb_lt in H1. apply Z.leb_gt. exact H1.
Qed.

Lemma list_ascii_append (a b : string) :
  list_ascii_of_string (a +s+ b)
  = list_ascii_of_string a ++ list_ascii_of_string b.
Proof. induction a as [|c a IH]; simpl; [reflexivity|]. now rewrite IH. Qed.

(** [TrimSpace] keeps a text that starts and ends with a clean byte and
    drops the ASCII white space after it. *)
Lemma TrimSpace_clean (c last : ascii) (x sp : string) (l : list ascii) :
  cleanByte c = true -> cleanByte last = true ->
  list_ascii_of_string (String c x) = l ++ [last] ->
  allSpace sp = true ->
  strings.TrimSpace (String c x +s+ sp) = String c x.
Proof.
  intros Hc Hlast Hl Hsp.
  destruct (cleanByte_stops c Hc) as [Hc1 Hc2].
  destruct (cleanByte_stops last Hlast) as [Hl1 Hl2].
  change (String c x +s+ sp) with (String c (x +s+ sp)).
  cbn [strings.TrimSpace]. rewrite Hc1, Hc2.
  change (String c (x +s+ sp)) with (String c x +s+ sp).
  rewrite list_ascii_append, rev_app_distr, trimStop_spaces.
  - rewrite Hl, rev_app_distr. cbn [rev app strings.trimStop].
    rewrite Hl1, Hl2. cbn [rev]. rewrite rev_involutive, <- Hl.
    apply string_of_list_ascii_of_string.
  - unfold allSpace in Hsp. rewrite forallb_forall in *.
    intros a Ha. apply Hsp. now apply in_rev.
Qed.

Lemma digits_clean (d : Decimal.uint) :
  forallb cleanByte (list_ascii_of_string (NilEmpty.string_of_uint d))
  = true.
Proof.
  induction d; cbn [NilEmpty.string_of_uint list_ascii_of_string forallb];
    [reflexivity|..]; rewrite IHd; reflexivity.
Qed.

Lemma fmt_d_clean (z : Z) :
  fmt.d z <> "" /\
  forallb cleanByte (list_ascii_of_string (fmt.d z)) = true.
Proof.
  unfold fmt.d. destruct z as [|p|p]; [split; [discriminate|reflexivity]|..];
    cbn [Z.to_int NilZero.string_of_int];
    pose proof (DecimalPos.Unsigned.to_uint_nonnil p) as Hnil;
    rewrite (string_of_uint_nonnil _ Hnil).
  - split; [|apply digits_clean].
    destruct (digits_first_byte _ Hnil) as (c & rest & E & _).
    rewrite E. discriminate.
  - split; [discriminate|]. cbn [list_ascii_of_string forallb].
    now rewrite digits_clean.
Qed.

Lemma cut_colon (state rest : string) :
  noColon state = true ->
  moreStrings.cut ":" (state +s+ String ":" rest) = Some (state, rest).
Proof.
  unfold noColon. induction state as [|c state IH]; intros H.
  - reflexivity.
  - cbn [list_ascii_of_string forallb] in H. apply andb_true_iff in H.
    destruct H as [Hc Hs]. apply negb_true_iff in Hc.
    cbn [String.append moreStrings.cut]. now rewrite Hc, IH.
Qed.

Lemma last_clean (l : list ascii) :
  l <> [] -> forallb cleanByte l = true ->
  exists l' c, l = l' ++ [c] /\ cleanByte c = true.
Proof.
  intros Hne Hall. destruct (exists_last Hne) as (l' & c & ->).
  exists l', c. split; [reflexivity|].
  rewrite forallb_app in Hall. apply andb_true_iff in Hall.
  destruct Hall as [_ Hc]. cbn in Hc. now rewrite andb_true_r in Hc.
Qed.

(** X11.  A status file round trip: when the status file of a session
    holds [state:timestamp], optionally followed by ASCII white space (a
    final newline), where the state has no colon and does not begin with
    white space or a non-ASCII byte, and the timestamp is a 64-bit integer
    in decimal, [GetStatus] returns that state and that time. *)
Theorem status_file_round_trip
    (name dir state sp : string) (ts : Z) :
  ReadFile fs (Join [dir; name +s+ ".status"])
  = Some (state +s+ ":" +s+ fmt.d ts +s+ sp) ->
  noColon state = true -> startsClean state = true ->
  allSpace sp = true ->
  - 9223372036854775808 <= ts < 9223372036854775808 ->
  claude.GetStatus fs name dir
  = {| claude.State := state; claude.Timestamp := claude.Unix ts |}.
Proof.
  intros Hread Hcolon Hstart Hsp Hts. unfold claude.GetStatus.
  rewrite Hread.
  assert (Htrim : strings.TrimSpace (state +s+ ":" +s+ fmt.d ts +s+ sp)
                  = state +s+ ":" +s+ fmt.d ts).
  { destruct (fmt_d_clean ts) as [Hne Hclean].
    set (X := state +s+ ":" +s+ fmt.d ts).
    replace (state +s+ ":" +s+ fmt.d ts +s+ sp) with (X +s+ sp)
      by (unfold X; now rewrite !append_assoc).
    assert (Hlast : exists l c,
               list_ascii_of_string X = l ++ [c] /\ cleanByte c = true).
    { destruct (last_clean (list_ascii_of_string (fmt.d ts)))
        as (l' & c & E & Hc); [|exact Hclean|].
      - destruct (fmt.d ts); [congruence|discriminate].
      - exists (list_ascii_of_string state ++ list_ascii_of_string ":"
                ++ l'), c.
        split; [|exact Hc]. unfold X.
        rewrite !list_ascii_append, E, <- !app_assoc. reflexivity. }
    destruct Hlast as (l & c & Hl & Hc).
    assert (Hfirst : startsClean X = true).
    { unfold X. destruct state; [reflexivity|exact Hstart]. }
    destruct X as [|c0 x].
    - destruct l; discriminate.
    - now apply (TrimSpace_clean c0 c x sp l). }
  rewrite Htrim. unfold moreStrings.SplitN2.
  change (state +s+ ":" +s+ fmt.d ts)
    with (state +s+ String ":" (fmt.d ts)).
  rewrite (cut_colon _ _ Hcolon), (ParseInt_d _ Hts). reflexivity.
Qed.







Lemma fold_statuses (enabledDir : string) (ss : list Session) :
  forall (mp : StatusMap) (k : string),
    fold_left
      (fun mp s =>
         let status := claude.GetStatus fs (Name s) enabledDir in
         if negb (String.eqb (claude.State status) "")
         then mapSet mp (Name s) status else mp)
      ss mp k =
    if existsb (fun s => String.eqb (Name s) k) ss
       && negb (String.eqb
                  (claude.State (claude.GetStatus fs k enabledDir)) "")
    then Some (claude.GetStatus fs k enabledDir)
    else mp k.
Proof.
  induction ss as [|s ss IH]; intros mp k; cbn [fold_left existsb];
    [reflexivity|].
  rewrite IH. cbv zeta.
  destruct (existsb (fun s0 => String.eqb (Name s0) k) ss) eqn:Hex;
    cbn [andb orb].
  - rewrite orb_true_r. cbn [andb].
    destruct (negb (String.eqb
                      (claude.State (claude.GetStatus fs k enabledDir)) ""))
      eqn:Hk; [reflexivity|].
    destruct (String.eqb_spec (Name s) k) as [->|Hne].
    + now rewrite Hk.
    + destruct (negb (String.eqb
                        (claude.State
                           (claude.GetStatus fs (Name s) enabledDir)) ""));
        [|reflexivity].
      unfold mapSet. destruct (String.eqb_spec k (Name s)); congruence.
  - rewrite orb_false_r.
    destruct (String.eqb_spec (Name s) k) as [->|Hne]; cbn [andb].
    + destruct (negb (String.eqb
                        (claude.State (claude.GetStatus fs k enabledDir))
                        "")); [|reflexivity].
      unfold mapSet. now rewrite String.eqb_refl.
    + destruct (negb (String.eqb
                        (claude.State
                           (claude.GetStatus fs (Name s) enabledDir)) ""));
        [|reflexivity].
      unfold mapSet. destruct (String.eqb_spec k (Name s)); congruence.
Qed.

(** X13.  The status map holds exactly the statuses worth showing: after
    [loadClaudeStatuses] a name has an entry if and only if the status
    integration is enabled, a session of the list bears that name, and its
    status file yields a state that is not empty; the entry is then what
    [GetStatus] returns for the name. *)
Theorem statuses_loaded_for_listed_sessions
    (enabled : bool) (dir : string) (ss : list Session)
    (k : string) (st : claude.Status) :
  loadClaudeStatuses fs enabled dir ss k = Some st <->
  enabled = true /\ (exists s, In s ss /\ Name s = k) /\
  st = claude.GetStatus fs k dir /\ claude.State st <> "".
Proof.
  unfold loadClaudeStatuses. destruct enabled; cbn [negb].
  - rewrite fold_statuses. unfold emptyMap.
    destruct (existsb (fun s => String.eqb (Name s) k) ss) eqn:Hex;
      cbn [andb].
    + apply existsb_exists in Hex. destruct Hex as (s & Hin & Hs).
      apply String.eqb_eq in Hs.
      destruct (String.eqb_spec
                  (claude.State (claude.GetStatus fs k dir)) "")
        as [He|Hne]; cbn [negb].
      * split; [discriminate|]. intros (_ & _ & -> & H). congruence.
      * split.
        -- intros [= <-]. eauto 10.
        -- intros (_ & _ & -> & _). reflexivity.
    + split; [discriminate|]. intros (_ & (s & Hin & Hs) & _).
      assert (existsb (fun s => String.eqb (Name s) k) ss = true).
      { apply existsb_exists. exists s. split; [exact Hin|].
        now apply String.eqb_eq. }
      congruence.
  - unfold emptyMap. split; [discriminate|]. intros (H & _). discriminate.
Qed.

Lemma substring_skip (a b : string) (n : nat) :
  String.substring (String.length a) n (a +s+ b) = String.substring 0 n b.
Proof. induction a as [|c a IH]; simpl; [reflexivity|exact IH]. Qed.

Lemma substring_whole (b : string) :
  String.substring 0 (String.length b) b = b.
Proof. induction b as [|c b IH]; simpl; [reflexivity|]. now rewrite IH. Qed.

Lemma substring_split (s : string) : forall n,
  (n <= String.length s)%nat ->
  s = String.substring 0 n s
      +s+ String.substring n (String.length s - n) s.
Proof.
  induction s as [|c s IH]; intros [|n] Hn; simpl in *; try lia.
  - reflexivity.
  - now rewrite substring_whole.
  - rewrite <- (IH n) by lia. reflexivity.
Qed.

Lemma HasSuffix_append (stem suffix : string) :
  moreStrings.HasSuffix (stem +s+ suffix) suffix = true.
Proof.
  unfold moreStrings.HasSuffix. rewrite length_append.
  apply andb_true_iff. split; [apply Nat.leb_le; lia|].
  replace (String.length stem + String.length suffix
           - String.length suffix)%nat with (String.length stem) by lia.
  rewrite substring_skip, substring_whole. apply String.eqb_refl.
Qed.

Lemma TrimSuffix_append (stem suffix : string) :
  moreStrings.TrimSuffix (stem +s+ suffix) suffix = stem.
Proof.
  unfold moreStrings.TrimSuffix. rewrite HasSuffix_append, length_append.
  replace (String.length stem + String.length suffix
           - String.length suffix)%nat with (String.length stem) by lia.
  apply substring_all_append.
Qed.

Lemma HasSuffix_stem (s suffix : string) :
  moreStrings.HasSuffix s suffix = true ->
  exists stem, s = stem +s+ suffix.
Proof.
  unfold moreStrings.HasSuffix. intros H. apply andb_true_iff in H.
  destruct H as [Hlen Heq]. apply Nat.leb_le in Hlen.
  apply String.eqb_eq in Heq.
  exists (String.substring 0 (String.length s - String.length suffix) s).
  pose proof (substring_split s (String.length s - String.length suffix)
                ltac:(lia)) as Hsp.
  replace (String.length s - (String.length s - String.length suffix))%nat
    with (String.length suffix) in Hsp by lia.
  now rewrite Heq in Hsp.
Qed.

(** X14.  [CleanupStale] removes the status files of sessions that are
    gone and nothing else: a path is removed if and only if it is the
    cache directory joined with a directory entry [stem.status] whose stem
    is not the name of an active session.  An entry with another ending, or
    the status file of an active session, causes no removal, and when the
    directory cannot be read nothing is removed. *)
Theorem cleanup_removes_only_stale_status_files
    (dir : string) (active : list string) :
  (ReadDir fs dir = None -> claude.CleanupStale fs dir active = []) /\
  (forall entries,
      ReadDir fs dir = Some entries ->
      forall p,
        In p (claude.CleanupStale fs dir active) <->
        exists stem,
          In (stem +s+ ".status") entries /\ ~ In stem active /\
          p = Join [dir; stem +s+ ".status"]).
Proof.
  unfold claude.CleanupStale. split.
  - intros ->. reflexivity.
  - intros entries ->. intros p. rewrite in_flat_map. split.
    + intros (e & Hin & Hp).
      destruct (moreStrings.HasSuffix e ".status") eqn:Hsuf;
        cbn [negb] in Hp; [|destruct Hp].
      destruct (HasSuffix_stem _ _ Hsuf) as [stem ->].
      rewrite TrimSuffix_append in Hp.
      destruct (existsb (String.eqb stem) active) eqn:Hact;
        cbn [negb] in Hp; [destruct Hp|].
      destruct Hp as [<-|[]]. exists stem. split; [exact Hin|].
      split; [|reflexivity]. intros Hstem.
      assert (existsb (String.eqb stem) active = true).
      { apply existsb_exists. exists stem. split; [exact Hstem|].
        apply String.eqb_refl. }
      congruence.
    + intros (stem & Hin & Hna & ->). exists (stem +s+ ".status").
      split; [exact Hin|].
      rewrite HasSuffix_append, TrimSuffix_append. cbn [negb].
      destruct (existsb (String.eqb stem) active) eqn:Hact; cbn [negb].
      * apply existsb_exists in Hact. destruct Hact as (x & Hx & E).
        apply String.eqb_eq in E. subst x. contradiction.
      * left. reflexivity.
Qed.

End StatusFiles.

Lemma status_file_round_trip_witness :
  @claude.GetStatus plainUnicode slashes cacheFiles "alpha" "/cache"
  = {| claude.State := "working";
       claude.Timestamp := claude.Unix 1700000000 |}.
Proof.
  apply (@status_file_round_trip plainUnicode slashes cacheFiles
           "alpha" "/cache" "working" config.nl 1700000000).
  - vm_compute. reflexivity.
  - vm_compute. reflexivity.
  - vm_compute. reflexivity.
  - vm_compute. reflexivity.
  - lia.
Defined.

(** ** Package config: loading and creating the configuration *)

Section Configuration.

Context {F : Filepath}.
Variable getenv : string -> string.
Variable stat : string -> bool.
Variable decodeFile :
  string -> config.Config -> config.Config * option string.
Variable dirOf : string -> string.
Variable mkdirAll : string -> option string.
Variable writeFile : string -> string -> option string.

(** X15.  When the file step succeeds ([cfg] being the decoded file, or the
    defaults when there is no file), [Load] returns without error, and each
    setting follows "environment over file over defaults" with these edges:
    an empty [TMUX_LAYOUT] or [TMUX_LAYOUTS_DIR] overrides nothing; the
    layout directory is tilde-expanded whether it comes from the environment
    or the file; the status integration is on exactly when the file enables
    it or the variable is the text 1, so the environment cannot switch it
    off; and the cache directory has no environment override. *)
Theorem load_env_over_file_over_defaults (cfg : config.Config) :
  fileConfig getenv stat decodeFile = (cfg, None) ->
  let out := fst (config.Load getenv stat decodeFile) in
  snd (config.Load getenv stat decodeFile) = None /\
  (getenv "TMUX_LAYOUT" <> "" ->
   config.Layout out = getenv "TMUX_LAYOUT") /\
  (getenv "TMUX_LAYOUT" = "" -> config.Layout out = config.Layout cfg) /\
  (getenv "TMUX_LAYOUTS_DIR" <> "" ->
   config.LayoutDir out
   = config.expandPath getenv (getenv "TMUX_LAYOUTS_DIR")) /\
  (getenv "TMUX_LAYOUTS_DIR" = "" ->
   config.LayoutDir out = config.expandPath getenv (config.LayoutDir cfg)) /\
  (config.ClaudeStatusEnabled out = true <->
   config.ClaudeStatusEnabled cfg = true \/
   getenv "TMUX_SESSION_PICKER_CLAUDE_STATUS" = "1") /\
  config.CacheDir out = config.expandPath getenv (config.CacheDir cfg).
Proof.
  intros Hfile. unfold fileConfig in Hfile. cbv zeta.
  assert (Hload :
    config.Load getenv stat decodeFile =
    ({| config.Layout :=
          if negb (String.eqb (getenv "TMUX_LAYOUT") "")
          then getenv "TMUX_LAYOUT" else config.Layout cfg;
        config.LayoutDir :=
          if negb (String.eqb (getenv "TMUX_LAYOUTS_DIR") "")
          then config.expandPath getenv (getenv "TMUX_LAYOUTS_DIR")
          else config.expandPath getenv (config.LayoutDir cfg);
        config.ClaudeStatusEnabled :=
          if String.eqb (getenv "TMUX_SESSION_PICKER_CLAUDE_STATUS") "1"
          then true else config.ClaudeStatusEnabled cfg;
        config.CacheDir :=
          config.expandPath getenv (config.CacheDir cfg) |}, None)).
  { unfold config.Load.
    destruct (stat (config.Path getenv)).
    - rewrite Hfile. reflexivity.
    - inversion Hfile; subst cfg. reflexivity. }
  rewrite Hload. cbn [fst snd config.Layout config.LayoutDir
    config.ClaudeStatusEnabled config.CacheDir].
  split; [reflexivity|].
  split.
  { intros Hne. destruct (String.eqb (getenv "TMUX_LAYOUT") "") eqn:E.
    - apply String.eqb_eq in E. contradiction.
    - reflexivity. }
  split.
  { intros ->. reflexivity. }
  split.
  { intros Hne. destruct (String.eqb (getenv "TMUX_LAYOUTS_DIR") "") eqn:E.
    - apply String.eqb_eq in E. contradiction.
    - reflexivity. }
  split.
  { intros ->. reflexivity. }
  split; [|reflexivity].
  destruct (String.eqb (getenv "TMUX_SESSION_PICKER_CLAUDE_STATUS") "1")
    eqn:E.
  - apply String.eqb_eq in E. split; [intros _; right; exact E|reflexivity].
  - apply String.eqb_neq in E. split.
    + intros H. left. exact H.
    + intros [H | H]; [exact H | contradiction].
Qed.

(** X16.  [Load] reports an error exactly when the configuration file
    exists and cannot be decoded.  The error is the decoder's behind a fixed
    prefix, and the configuration returned with it is the one the decoder
    left: no path is expanded and no environment variable is applied to
    it. *)
Theorem load_fails_only_on_undecodable_file
    (cfg : config.Config) (e : string) :
  config.Load getenv stat decodeFile = (cfg, Some e) <->
  stat (config.Path getenv) = true /\
  exists err,
    decodeFile (config.Path getenv) (config.DefaultConfig getenv)
    = (cfg, Some err) /\
    e = "failed to parse config file: " +s+ err.
Proof.
  unfold config.Load. split.
  - destruct (stat (config.Path getenv)); [|discriminate].
    destruct (decodeFile _ _) as [c [err|]]; [|discriminate].
    intros H. inversion H; subst. split; [reflexivity|].
    exists err. split; reflexivity.
  - intros (-> & err & -> & ->). reflexivity.
Qed.

(** X17.  [Init] never overwrites: it writes at most one file, the
    configuration path with the default text, and only after the directory
    was made and no file was found at the path.  It always asks for the
    directory first, and it succeeds exactly when the directory could be
    made, the file was missing and the write went through. *)
Theorem init_writes_only_a_missing_file :
  let r := config.Init getenv stat dirOf mkdirAll writeFile in
  (exists rest, snd r = config.OpMkdirAll (dirOf (config.Path getenv))
                        :: rest) /\
  (forall path content,
      In (config.OpWriteFile path content) (snd r) ->
      path = config.Path getenv /\ content = config.defaultContent /\
      mkdirAll (dirOf (config.Path getenv)) = None /\
      stat (config.Path getenv) = false) /\
  (List.length (List.filter isWrite (snd r)) <= 1)%nat /\
  (fst r = None <->
   mkdirAll (dirOf (config.Path getenv)) = None /\
   stat (config.Path getenv) = false /\
   writeFile (config.Path getenv) config.defaultContent = None).
Proof.
  unfold config.Init.
  destruct (mkdirAll (dirOf (config.Path getenv))) as [e1|] eqn:Hmk.
  - cbn [fst snd]. split; [eexists; reflexivity|]. split.
    + intros path content [H | []]. discriminate.
    + split; [cbn; lia|]. split; [discriminate|].
      intros (H & _). discriminate.
  - destruct (stat (config.Path getenv)) eqn:Hst.
    + cbn [fst snd]. split; [eexists; reflexivity|]. split.
      * intros path content [H | []]. discriminate.
      * split; [cbn; lia|]. split; [discriminate|].
        intros (_ & H & _). discriminate.
    + destruct (writeFile (config.Path getenv) config.defaultContent)
        as [e3|] eqn:Hwr; cbn [fst snd].
      * split; [eexists; reflexivity|]. split.
        -- intros path content [H | [H | []]]; [discriminate|].
           inversion H; subst. repeat split; reflexivity.
        -- split; [cbn; lia|]. split; [discriminate|].
           intros (_ & _ & H). discriminate.
      * split; [eexists; reflexivity|]. split.
        -- intros path content [H | [H | []]]; [discriminate|].
           inversion H; subst. repeat split; reflexivity.
        -- split; [cbn; lia|]. split; [|reflexivity].
           intros _. repeat split; reflexivity.
Qed.

End Configuration.

Lemma load_env_over_file_witness :
  snd (@config.Load slashes sampleEnv (fun _ => true) sampleDecode) = None /\
  config.Layout
    (fst (@config.Load slashes sampleEnv (fun _ => true) sampleDecode))
  = "ide" /\
  config.ClaudeStatusEnabled
    (fst (@config.Load slashes sampleEnv (fun _ => true) sampleDecode))
  = true.
Proof.
  destruct (@load_env_over_file_over_defaults slashes sampleEnv
              (fun _ => true) sampleDecode
              {| config.Layout := "dev";
                 config.LayoutDir := "~/layouts";
                 config.ClaudeStatusEnabled := true;
                 config.CacheDir := "/home/u/.cache/tsm" |})
    as (Herr & Hlayout & _ & _ & _ & Hon & _).
  - vm_compute. reflexivity.
  - split; [exact Herr|]. split.
    + apply Hlayout. vm_compute. discriminate.
    + apply Hon. left. reflexivity.
Defined.

(** ** What [View] draws *)

Section Drawing.

Context {U : Unicode}.
Variable keys : KeyMap.
Variable inputUpdate : textinput.Model -> Msg -> textinput.Model * tea.Cmd.

Lemma viewLoop_ok (m : Model) (its : list Item) : forall i n,
  forallb (itemOk (sessions m)) its = true ->
  exists rows,
    viewLoop m i n its = Some rows /\
    List.length rows = List.length its /\
    forall k d, nth_error rows k = Some d ->
                selectedOf d = (i + Z.of_nat k =? cursor m).
Proof.
  induction its as [|it its IH]; intros i n Hok; cbn [viewLoop].
  - exists []. split; [reflexivity|]. split; [reflexivity|].
    intros [|k] d H; discriminate.
  - cbn [forallb] in Hok. apply andb_true_iff in Hok.
    destruct Hok as [Hit Hok]. unfold itemOk in Hit.
    destruct (index (sessions m) (SessionIndex it)) as [s|];
      [|discriminate].
    destruct (IsSession it); cbn [orb] in Hit.
    + destruct (IH (i + 1) (n + 1) Hok) as (rows & -> & Hlen & Hsel).
      eexists. split; [reflexivity|]. split; [cbn; now rewrite Hlen|].
      intros [|k] d H; cbn [nth_error] in H.
      * inversion H; subst d. cbn [selectedOf Z.of_nat].
        now rewrite Z.add_0_r.
      * rewrite (Hsel k d H). f_equal. lia.
    + destruct (index (Windows s) (WindowIndex it)) as [win|];
        [|discriminate].
      destruct (IH (i + 1) n Hok) as (rows & -> & Hlen & Hsel).
      eexists. split; [reflexivity|]. split; [cbn; now rewrite Hlen|].
      intros [|k] d H; cbn [nth_error] in H.
      * inversion H; subst d. cbn [selectedOf Z.of_nat].
        now rewrite Z.add_0_r.
      * rewrite (Hsel k d H). f_equal. lia.
Qed.

(** X18.  [View] can draw every state the picker reaches: whatever the
    messages and whatever tmux answers, no index expression of the row loop
    is out of range.  It draws one row per item, and the row drawn as
    selected is the one at the cursor and no other, so that a list with rows
    always shows exactly one selection. *)
Theorem view_draws_every_reachable_state
    (cs : string) (evs : list (World * Msg)) :
  exists m calls rows,
    run keys inputUpdate (New cs) evs = Some (m, calls) /\
    viewRows m = Some rows /\
    List.length rows = List.length (items m) /\
    (forall i d, index rows i = Some d -> selectedOf d = (i =? cursor m)) /\
    (rows <> [] ->
     exists d, index rows (cursor m) = Some d /\ selectedOf d = true).
Proof.
  destruct (run_WF keys inputUpdate evs (New cs) (New_WF cs))
    as (m & calls & Hrun & Hc & Hok).
  destruct (viewLoop_ok m (items m) 0 0 Hok) as (rows & Hview & Hlen & Hsel).
  exists m, calls, rows. split; [exact Hrun|]. split; [exact Hview|].
  split; [exact Hlen|].
  assert (Hpoint : forall i d, index rows i = Some d ->
                               selectedOf d = (i =? cursor m)).
  { intros i d Hd. pose proof (index_range _ _ _ Hd) as Hr.
    unfold index in Hd. destruct (Z.ltb_spec i 0); [lia|].
    rewrite (Hsel _ _ Hd). f_equal. lia. }
  split; [exact Hpoint|].
  intros Hne. unfold cursorValid in Hc.
  destruct (items m) as [|it its] eqn:Hits.
  - destruct rows; [contradiction|discriminate].
  - destruct (index_defined rows (cursor m)) as [d Hd].
    { unfold len in *. rewrite Hlen. exact Hc. }
    exists d. split; [exact Hd|].
    rewrite (Hpoint _ _ Hd). apply Z.eqb_refl.
Qed.

Lemma viewLoop_labelled (m : Model) (its : list Item) : forall i n rows,
  viewLoop m i n its = Some rows ->
  labelled rows = numbered (n + 1) (drawnSessions m its).
Proof.
  induction its as [|it its IH]; intros i n rows H; cbn [viewLoop] in H.
  - inversion H. reflexivity.
  - cbn [drawnSessions flat_map].
    destruct (IsSession it).
    + destruct (index (sessions m) (SessionIndex it)) as [s|];
        [|discriminate].
      destruct (viewLoop m (i + 1) (n + 1) its) as [rows'|] eqn:Hrest;
        [|discriminate].
      inversion H; subst rows. cbn [labelled flat_map app numbered].
      f_equal. exact (IH _ _ _ Hrest).
    + destruct (index (sessions m) (SessionIndex it)) as [s|];
        [|discriminate].
      destruct (index (Windows s) (WindowIndex it)) as [win|];
        [|discriminate].
      destruct (viewLoop m (i + 1) n its) as [rows'|] eqn:Hrest;
        [|discriminate].
      inversion H; subst rows. cbn [labelled flat_map app].
      exact (IH _ _ _ Hrest).
Qed.

Lemma drawnSessions_app (m : Model) (a b : list Item) :
  drawnSessions m (a ++ b) = drawnSessions m a ++ drawnSessions m b.
Proof. apply flat_map_app. Qed.

Lemma drawnSessions_flatten (m : Model) (flt : string)
    (post : list Session) : forall pre,
  sessions m = pre ++ post ->
  drawnSessions m (flatten flt (List.length pre) post)
  = List.filter (fun s => passes flt (Name s)) post.
Proof.
  induction post as [|s post IH]; intros pre Hss; [reflexivity|].
  cbn [flatten List.filter]. rewrite drawnSessions_app.
  assert (Hrest : drawnSessions m (flatten flt (S (List.length pre)) post)
                  = List.filter (fun s => passes flt (Name s)) post).
  { specialize (IH (pre ++ [s])).
    rewrite <- app_assoc, length_app in IH. cbn [List.length app] in IH.
    rewrite Nat.add_1_r in IH. apply IH. exact Hss. }
  rewrite Hrest.
  destruct (passes flt (Name s)); [|reflexivity].
  unfold rowsOf. cbn [drawnSessions flat_map IsSession SessionIndex].
  rewrite Hss, index_of_nat, nth_error_app2, Nat.sub_diag by lia.
  cbn [nth_error app]. f_equal.
  assert (Hwin : forall js : list nat,
    flat_map (fun it =>
                if IsSession it then
                  match index (pre ++ s :: post) (SessionIndex it) with
                  | Some s0 => [s0]
                  | None => []
                  end
                else [])
             (map (fun j => {| IsSession := false;
                               SessionIndex := Z.of_nat (List.length pre);
                               WindowIndex := Z.of_nat j |}) js) = []).
  { induction js as [|j js IHj]; [reflexivity|].
    cbn [map flat_map IsSession app]. exact IHj. }
  destruct (Expanded s); [|reflexivity].
  rewrite Hwin. reflexivity.
Qed.

Lemma numbered_index {A} (l : list A) : forall n num (x : A),
  In (num, x) (numbered n l) -> index l (num - n) = Some x.
Proof.
  induction l as [|y l IH]; intros n num x Hin; cbn [numbered] in Hin;
    [destruct Hin|].
  destruct Hin as [H | H].
  - inversion H; subst. rewrite Z.sub_diag. reflexivity.
  - pose proof (IH _ _ _ H) as Hi.
    pose proof (index_range _ _ _ Hi) as Hr.
    replace (num - n) with (1 + (num - (n + 1))) by lia.
    rewrite index_cons by lia. exact Hi.
Qed.

Lemma passes_empty (name : string) : passes "" name = true.
Proof. unfold passes. rewrite ToLower_empty. apply Contains_empty. Qed.

Lemma filter_all {A} (p : A -> bool) (l : list A) :
  (forall x, p x = true) -> List.filter p l = l.
Proof.
  intros Hp. induction l as [|x l IH]; [reflexivity|].
  cbn [List.filter]. now rewrite Hp, IH.
Qed.

(** X19.  The numbers [View] puts in front of the sessions: with the rows
    up to date, the sessions drawn are the sessions whose name passes the
    filter, in stored order, and they are numbered 1, 2, 3, ... without a
    gap; window rows take no number.  Under a filter the number of a session
    is therefore its place among the matches, not its place in the session
    list. *)
Theorem view_numbers_the_visible_sessions (m : Model) :
  rowsCurrent m ->
  exists rows,
    viewRows m = Some rows /\
    labelled rows
    = numbered 1 (List.filter (fun s => passes (filter m) (Name s))
                              (sessions m)).
Proof.
  intros Hrows.
  assert (Hok : forallb (itemOk (sessions m)) (items m) = true).
  { rewrite Hrows. apply (flatten_ok (filter m) (sessions m) []). }
  destruct (viewLoop_ok m (items m) 0 0 Hok) as (rows & Hview & _).
  exists rows. split; [exact Hview|].
  rewrite (viewLoop_labelled m (items m) 0 0 rows Hview).
  rewrite Hrows.
  pose proof (drawnSessions_flatten m (filter m) (sessions m) [] eq_refl)
    as Hd.
  cbn [List.length] in Hd. exact (f_equal (numbered (0 + 1)) Hd).
Qed.

Lemma jumpTarget_session (m : Model) (d : Z) (s : Session) :
  noWindowNumbered m d ->
  index (sessions m) (d - 1) = Some s ->
  jumpTarget m d = Some (Name s).
Proof.
  intros Hno Hs. unfold jumpTarget. rewrite Hs.
  destruct (index (items m) (cursor m)) as [it|]; [|reflexivity].
  destruct (index (sessions m) (SessionIndex it)) as [s'|] eqn:Hs';
    [|reflexivity].
  destruct (Expanded s') eqn:He; [|reflexivity].
  rewrite (Hno s' (index_In _ _ _ Hs') He). reflexivity.
Qed.

(** X20.  The number shown is the digit that jumps: in normal operation
    without a filter, with the rows up to date, a session drawn with the
    number [num] is the session at position [num - 1], and [handleJump] with
    that number asks tmux to switch to exactly this session (and quits if
    tmux accepts), provided no expanded session has a window of that
    number, which would take the digit first. *)
Theorem label_is_the_jump_digit
    (w : World) (m : Model) (rows : list Drawn)
    (s : Session) (num : Z) (isFirst selected : bool) :
  WF m -> rowsCurrent m -> filter m = "" ->
  viewRows m = Some rows ->
  In (DrawSession s num isFirst selected) rows ->
  noWindowNumbered m num ->
  index (sessions m) (num - 1) = Some s /\
  handleJump w m num = Some (afterSwitch w m (Name s)).
Proof.
  intros Hwf Hrows Hflt Hview Hin Hno.
  assert (Hs : index (sessions m) (num - 1) = Some s).
  { apply numbered_index.
    assert (Hlab : In (num, s) (labelled rows)).
    { unfold labelled. apply in_flat_map.
      exists (DrawSession s num isFirst selected).
      split; [exact Hin|left; reflexivity]. }
    rewrite (viewLoop_labelled m (items m) 0 0 rows Hview) in Hlab.
    rewrite Hrows, Hflt in Hlab.
    pose proof (drawnSessions_flatten m "" (sessions m) [] eq_refl) as Hd.
    cbn [List.length] in Hd. rewrite Hd in Hlab.
    rewrite filter_all in Hlab by (intros x; apply passes_empty).
    exact Hlab. }
  split; [exact Hs|].
  rewrite (handleJump_target w m num Hwf).
  now rewrite (jumpTarget_session m num s Hno Hs).
Qed.

End Drawing.

Lemma view_numbers_witness :
  exists rows,
    viewRows filteredG = Some rows /\
    labelled rows = [(1, session "gamma")].
Proof.
  destruct (@view_numbers_the_visible_sessions plainUnicode filteredG)
    as (rows & Hview & Hlab).
  - vm_compute. reflexivity.
  - exists rows. split; [exact Hview|]. rewrite Hlab.
    vm_compute. reflexivity.
Defined.

Lemma label_is_the_jump_digit_witness :
  index (sessions listed) (2 - 1) = Some (session "beta") /\
  @handleJump w134 listed 2
  = Some (afterSwitch w134 listed (Name (session "beta"))).
Proof.
  apply (@label_is_the_jump_digit plainUnicode w134 listed drawnListed
           (session "beta") 2 false false).
  - apply listed_WF.
  - vm_compute. reflexivity.
  - reflexivity.
  - vm_compute. reflexivity.
  - vm_compute. right. left. reflexivity.
  - intros s Hin He. vm_compute in Hin.
    destruct Hin as [<- | [<- | [<- | []]]]; discriminate.
Defined.

(** ** A new session list *)

Section Refresh.

Context {U : Unicode}.
Variable keys : KeyMap.
Variable inputUpdate : textinput.Model -> Msg -> textinput.Model * tea.Cmd.

Arguments rebuildItems : simpl never.

(** X21.  A session list that arrives replaces the old one in any state and
    in any mode, and leaves the model consistent: the rows are rebuilt for
    the new sessions under the filter in force, the name column is as wide
    as the longest new name, and the cursor is clamped into the new rows.
    Nothing is sent to tmux.  Mode, filter, pending kill target and input
    are kept, so a confirmation that was pending stays pending.  The hint
    about there being no sessions is shown exactly when no row is left,
    which includes a filter that matches nothing, and it keeps the error
    flag of the message it replaces. *)
Theorem refresh_replaces_the_list (w : World) (m : Model)
    (ss : list Session) :
  exists m',
    Update keys inputUpdate w m (sessionsMsg ss)
    = Some (m', tea.CmdNil, []) /\
    sessions m' = ss /\ rowsCurrent m' /\ widthCurrent m' /\ WF m' /\
    cursor m' = clampCursor (cursor m) (len (items m')) /\
    mode m' = mode m /\ filter m' = filter m /\
    killTarget m' = killTarget m /\ input m' = input m /\
    messageIsError m' = messageIsError m /\
    message m'
    = (if len (flatten (filter m) 0 ss) =? 0
       then "No other sessions. Press c to create one."
       else message m).
Proof.
  cbn [Update].
  set (m1 := rebuildItems (calculateColumnWidths (setSessions ss m))).
  assert (Hwf : WF m1) by apply rebuildItems_WF.
  assert (Hrows : rowsCurrent m1) by apply rebuildItems_rowsCurrent.
  assert (Hitems : items m1 = flatten (filter m) 0 ss)
    by exact (rebuildItems_items
                (calculateColumnWidths (setSessions ss m))).
  assert (Hwidth : widthCurrent m1) by reflexivity.
  rewrite Hitems.
  destruct (len (flatten (filter m) 0 ss) =? 0);
    (eexists; split; [reflexivity|]).
  - split; [reflexivity|]. split; [exact Hrows|]. split; [exact Hwidth|].
    split; [exact Hwf|]. split; [|repeat split; reflexivity].
    exact (rebuildItems_cursor (calculateColumnWidths (setSessions ss m))).
  - split; [reflexivity|]. split; [exact Hrows|]. split; [exact Hwidth|].
    split; [exact Hwf|]. split; [|repeat split; reflexivity].
    exact (rebuildItems_cursor (calculateColumnWidths (setSessions ss m))).
Qed.

End Refresh.
